(** * TRack-AI: a shallow embedding of the train traffic control core

    The development follows the Python sources module by module:

    - [models/train.py]          : [TrainType], [TrainPriority], [Train],
                                   [TrainConflict], [calculate_priority_score];
    - [models/infrastructure.py] : [SectionType], [SectionStatus],
                                   [TrackSection], [RailwayNetwork] with
                                   [get_route_sections], [reserve_section],
                                   [occupy_section], [release_section],
                                   [create_sample_network];
    - [optimization/simple_scheduler.py] : [SimpleTrainScheduler] and
                                   [SimpleRealTimeOptimizer];
    - [optimization/scheduler.py] : the order of calls of
                                   [TrainScheduler.optimize_schedule] around
                                   the external solver, [resolve_conflicts],
                                   [_extract_solution] and
                                   [RealTimeOptimizer.update_schedule];
    - [api/main.py]              : the endpoints of the train registry and
                                   the scheduling endpoints.

    Conventions of the embedding.

    - Python [int] is [Z]; [str] is [string]; [List[...]] is [list];
      [Dict[str, ...]] held by the network is a [gmap string ...]; a dict built
      by a loop whose iteration order is observed is an association list in
      insertion order; a dict with a fixed set of keys is a record.
    - The length of a section is a Python [float], an IEEE 754 double: it is a
      primitive [float], and the travel-time arithmetic on it is the
      arithmetic of doubles, each operation rounded to the nearest double.
      [int(x)] truncates toward zero, raises [OverflowError] on an infinity
      and [ValueError] on a NaN; an [int] too large for a double raises
      [OverflowError] when it is converted.
    - The sort keys are exact rationals [Q]; they are only compared.  The
      reported average delay, a quotient of two integers, is the exact
      rational [Q] that the program rounds to the nearest double, and the
      division raises [OverflowError] when that double would be infinite.
    - [datetime] is the number of microseconds since [datetime.min]
      (0001-01-01T00:00:00), a [timedelta] a number of microseconds, both in
      [Z].  Building a [timedelta] of more than 999999999 days and moving a
      [datetime] out of the years 1 to 9999 raise [OverflowError].
    - A function that may raise returns a [result]; [Err e] is the raised
      exception.  Mutation of the network is explicit state passing.
    - [SimpleTrainScheduler.optimize_schedule] sorts the trains with
      [calculate_priority_score] as the key.  The body of the method is
      embedded once, with the key as a parameter ([optimize_schedule_by]);
      [optimize_schedule] is its instance at [calculate_priority_score].  The
      properties of the scheduling loop are stated for every key, so they say
      what the loop does whatever the scoring function does. *)

From Stdlib Require Import ZArith QArith Qround String List Lia Permutation Sorted.
From Stdlib Require Import Floats.PrimFloat Floats.SpecFloat Floats.FloatOps.
From stdpp Require Import base strings gmap list pretty.

Set Warnings "-inexact-float".

Open Scope string_scope.
Open Scope list_scope.
Open Scope Z_scope.

(** ** Exceptions and fallible computations *)

Module Py.

(** The exceptions the embedded code can raise. *)
Inductive exn : Type :=
| AttributeError
| ValueError
| OverflowError
| ZeroDivisionError.

Inductive result (A : Type) : Type :=
| Ok (a : A)
| Err (e : exn).

Arguments Ok {A} a.
Arguments Err {A} e.

Definition bind {A B : Type} (m : result A) (k : A -> result B) : result B :=
  match m with
  | Ok a => k a
  | Err e => Err e
  end.

(** [[f(x) for x in l]] where [f] may raise: the elements are visited in
    order and the first exception escapes. *)
Fixpoint map_result {A B : Type} (f : A -> result B) (l : list A) : result (list B) :=
  match l with
  | [] => Ok []
  | x :: l' =>
      bind (f x) (fun y => bind (map_result f l') (fun ys => Ok (y :: ys)))
  end.

(** [float(n)] for an int [n], as the arithmetic operators convert an int
    operand: the nearest double, ties to even; [OverflowError] when [n] is
    too large for a double. *)
Definition float_of_int (n : Z) : result float :=
  let x := SF2Prim (binary_normalize prec emax n 0 false) in
  if PrimFloat.is_infinity x then Err OverflowError else Ok x.

(** [x / n] for a float [x] and an int [n]: the int is converted first; the
    double it gives is zero for [n = 0] alone, which raises
    [ZeroDivisionError]. *)
Definition truediv (x : float) (n : Z) : result float :=
  if n =? 0 then Err ZeroDivisionError
  else bind (float_of_int n) (fun y => Ok (PrimFloat.div x y)).

(** [x * n] for a float [x] and an int [n]; a product too large for a double
    is an infinity, not an exception. *)
Definition mul (x : float) (n : Z) : result float :=
  bind (float_of_int n) (fun y => Ok (PrimFloat.mul x y)).

(** [int(x)] for a float [x]: truncation toward zero; [OverflowError] on an
    infinity, [ValueError] on a NaN. *)
Definition int (x : float) : result Z :=
  match Prim2SF x with
  | S754_zero _ => Ok 0
  | S754_finite s m e =>
      let magnitude :=
        if 0 <=? e then Zpos m * 2 ^ e else Zpos m / 2 ^ (- e) in
      Ok (if s then - magnitude else magnitude)
  | S754_infinity _ => Err OverflowError
  | S754_nan => Err ValueError
  end.

(** The largest magnitude that still rounds to a finite double: values from
    [2^1024 - 2^970] on round to an infinity. *)
Definition float_overflow : Z := 2 ^ 1024 - 2 ^ 970.

(** [a / b] for two ints: the exact quotient, which Python rounds to the
    nearest double; [ZeroDivisionError] for [b = 0], [OverflowError] when the
    double would be infinite. *)
Definition truediv_int (a b : Z) : result Q :=
  if b =? 0 then Err ZeroDivisionError
  else if float_overflow * Z.abs b <=? Z.abs a then Err OverflowError
  else Ok (inject_Z a / inject_Z b)%Q.

(** [min(a, b)] on floats: the first argument wins ties. *)
Definition min (a b : Q) : Q := if Qlt_le_dec b a then b else a.

(** [x in l] for a list of strings. *)
Definition contains (x : string) (l : list string) : bool :=
  bool_decide (x ∈ l).

(** [l.remove(x)]: drops the first occurrence, [ValueError] when there is none. *)
Fixpoint remove (x : string) (l : list string) : result (list string) :=
  match l with
  | [] => Err ValueError
  | y :: l' =>
      if decide (x = y) then Ok l'
      else bind (remove x l') (fun r => Ok (y :: r))
  end.

End Py.

(** [result] is a monad; stdpp's notation [x ← m; k] sequences computations
    that may raise. *)
#[global] Instance result_ret : MRet Py.result := @Py.Ok.
#[global] Instance result_bind : MBind Py.result := fun A B k m => Py.bind m k.

(** ** models/train.py *)

Module TrainType.

Inductive t : Type := EXPRESS | LOCAL | FREIGHT | MAINTENANCE | SPECIAL.

#[global] Instance eq_dec : EqDecision t.
Proof. solve_decision. Defined.

(** The members of the enumeration class, by attribute name. *)
Definition members : list (string * t) :=
  [("EXPRESS", EXPRESS); ("LOCAL", LOCAL); ("FREIGHT", FREIGHT);
   ("MAINTENANCE", MAINTENANCE); ("SPECIAL", SPECIAL)].

(** [TrainType.<name>]: attribute access on the class; a name that is not a
    member raises [AttributeError]. *)
Definition getattr (name : string) : Py.result t :=
  match List.find (fun m => String.eqb (fst m) name) members with
  | Some m => Py.Ok (snd m)
  | None => Py.Err Py.AttributeError
  end.

End TrainType.

Module TrainPriority.

Inductive t : Type := LOW | MEDIUM | HIGH | CRITICAL | EMERGENCY.

Definition value (p : t) : Z :=
  match p with
  | LOW => 1
  | MEDIUM => 2
  | HIGH => 3
  | CRITICAL => 4
  | EMERGENCY => 5
  end.

End TrainPriority.

Definition datetime : Type := Z.
Definition timedelta : Type := Z.

(** The microseconds of [m] minutes. *)
Definition timedelta_minutes (m : Z) : timedelta := m * 60000000.

(** [datetime.max], 9999-12-31T23:59:59.999999: the last microsecond of day
    3652059, day 1 being [datetime.min]. *)
Definition datetime_max : datetime := 3652059 * 86400000000 - 1.

(** [timedelta(minutes=m)] for an int [m]: the value is normalized to days,
    seconds and microseconds, and [OverflowError] is raised when the number
    of days, [m // 1440], has a magnitude above 999999999. *)
Definition timedelta_of_minutes (m : Z) : Py.result timedelta :=
  if Z.abs (m / 1440) <=? 999999999 then Py.Ok (timedelta_minutes m)
  else Py.Err Py.OverflowError.

(** [t + delta] for a datetime [t]: [OverflowError] when the result is not
    between [datetime.min] and [datetime.max]. *)
Definition datetime_add (t : datetime) (delta : timedelta) : Py.result datetime :=
  if (0 <=? t + delta) && (t + delta <=? datetime_max) then Py.Ok (t + delta)
  else Py.Err Py.OverflowError.

(** [delta.total_seconds()]. *)
Definition total_seconds (d : timedelta) : Q := d # 1000000.

(** [Train]: the fields the scheduling core reads.  The remaining fields of the
    pydantic model (status, location, estimated arrival, length, weight,
    platform requirements) are never read by the functions embedded here. *)
Module Train.

Record t : Type := mk {
  train_id : string;
  train_number : string;
  train_name : string;
  train_type : TrainType.t;
  priority : TrainPriority.t;
  origin_station : string;
  destination_station : string;
  scheduled_departure : datetime;
  scheduled_arrival : datetime;
  actual_departure : option datetime;
  max_speed : Z;
  route_sections : list string
}.

End Train.

Module TrainConflict.

Record t : Type := mk {
  conflict_id : string;
  train_ids : list string;
  section_id : string;
  conflict_type : string;
  conflict_start : datetime;
  conflict_end : datetime;
  severity : Z;
  resolution_strategy : option string;
  resolved : bool
}.

End TrainConflict.

(** [dict.get(key, default)] on the multiplier table. *)
Definition multiplier_get (table : list (TrainType.t * Q)) (k : TrainType.t) (default : Q) : Q :=
  match List.find (fun e => bool_decide (fst e = k)) table with
  | Some e => snd e
  | None => default
  end.

(** The dict display [type_multipliers = {TrainType.EMERGENCY: 2.0, ...}]:
    the keys are evaluated in order, each an attribute access on [TrainType]. *)
Definition type_multipliers : Py.result (list (TrainType.t * Q)) :=
  k0 ← TrainType.getattr "EMERGENCY";
  k1 ← TrainType.getattr "EXPRESS";
  k2 ← TrainType.getattr "LOCAL";
  k3 ← TrainType.getattr "FREIGHT";
  k4 ← TrainType.getattr "MAINTENANCE";
  Py.Ok [(k0, 2%Q); (k1, 3 # 2); (k2, 1%Q); (k3, 8 # 10); (k4, 1 # 2)].

(** The delay penalty of [calculate_priority_score] (lines 136-140). *)
Definition delay_penalty (train : Train.t) : Q :=
  match Train.actual_departure train with
  | Some actual =>
      let delay := actual - Train.scheduled_departure train in
      if Qlt_le_dec 0 (total_seconds delay)
      then Py.min (total_seconds delay / 3600) 2
      else 0%Q
  | None => 0%Q
  end.

Definition calculate_priority_score (train : Train.t) : Py.result Q :=
  let base_score := inject_Z (TrainPriority.value (Train.priority train)) in
  table ← type_multipliers;
  let type_multiplier := multiplier_get table (Train.train_type train) 1 in
  Py.Ok (base_score * type_multiplier + delay_penalty train)%Q.

(** ** models/infrastructure.py *)

Module SectionType.

Inductive t : Type :=
  SINGLE_LINE | DOUBLE_LINE | MULTIPLE_LINE | JUNCTION | YARD | PLATFORM.

(** The string value of a member ([section.section_type.value]). *)
Definition value (k : t) : string :=
  match k with
  | SINGLE_LINE => "single_line"
  | DOUBLE_LINE => "double_line"
  | MULTIPLE_LINE => "multiple_line"
  | JUNCTION => "junction"
  | YARD => "yard"
  | PLATFORM => "platform"
  end.

End SectionType.

Module SectionStatus.

Inductive t : Type := AVAILABLE | OCCUPIED | BLOCKED | MAINTENANCE | RESERVED.

#[global] Instance eq_dec : EqDecision t.
Proof. solve_decision. Defined.

End SectionStatus.

(** [TrackSection]: the physical attributes the estimator reads, the capacity,
    the connectivity and the live occupancy state.  Gradient, curvature,
    platform count, electrification, signals and maintenance windows are never
    read by the functions embedded here. *)
Module TrackSection.

Record t : Type := mk {
  section_id : string;
  section_name : string;
  section_type : SectionType.t;
  length_km : float;
  max_speed_limit : Z;
  max_trains : Z;
  connected_sections : list string;
  current_status : SectionStatus.t;
  occupying_trains : list string;
  reserved_for : option string
}.

(** [TrackSection(section_id=..., section_name=..., section_type=...,
    length_km=...)] with every other field at its declared default. *)
Definition new (sid name : string) (kind : SectionType.t) (len : float) : t :=
  mk sid name kind len 100 1 [] SectionStatus.AVAILABLE [] None.

(** The three assignments made by the occupancy operations. *)
Definition set_state (s : t) (status : SectionStatus.t)
    (occ : list string) (res : option string) : t :=
  mk (section_id s) (section_name s) (section_type s) (length_km s)
     (max_speed_limit s) (max_trains s) (connected_sections s)
     status occ res.

End TrackSection.

(** [RailwayNetwork]: the section table and the adjacency table.  Stations,
    signals and the distance matrix are not read by the scheduling core. *)
Module RailwayNetwork.

Record t : Type := mk {
  network_id : string;
  network_name : string;
  sections : gmap string TrackSection.t;
  adjacency_matrix : gmap string (list string)
}.

Definition set_sections (net : t) (secs : gmap string TrackSection.t) : t :=
  mk (network_id net) (network_name net) secs (adjacency_matrix net).

Definition set_adjacency (net : t) (adj : gmap string (list string)) : t :=
  mk (network_id net) (network_name net) (sections net) adj.

(** [self.sections[section_id] = section] for an updated section record. *)
Definition store (net : t) (sid : string) (s : TrackSection.t) : t :=
  set_sections net (<[sid := s]> (sections net)).

Definition add_section (net : t) (section : TrackSection.t) : t :=
  let sid := TrackSection.section_id section in
  let net1 := store net sid section in
  match adjacency_matrix net1 !! sid with
  | Some _ => net1
  | None =>
      set_adjacency net1
        (<[sid := TrackSection.connected_sections section]> (adjacency_matrix net1))
  end.

Definition get_route_sections (net : t) (origin destination : string) : list string :=
  if decide (origin = destination) then [origin]
  else
    match adjacency_matrix net !! origin with
    | Some adjacent =>
        if Py.contains destination adjacent then [origin; destination] else []
    | None => []
    end.

Definition check_section_capacity (net : t) (section_id : string) : bool :=
  match sections net !! section_id with
  | None => false
  | Some section =>
      Z.of_nat (length (TrackSection.occupying_trains section))
        <? TrackSection.max_trains section
  end.

(** The occupancy operations mutate the section in place and return a
    boolean; here they return the boolean together with the network after
    the call. *)
Definition reserve_section (net : t) (section_id train_id : string)
    : Py.result (bool * t) :=
  match sections net !! section_id with
  | None => Py.Ok (false, net)
  | Some section =>
      if bool_decide (TrackSection.current_status section = SectionStatus.AVAILABLE)
         && bool_decide (TrackSection.reserved_for section = None)
      then
        Py.Ok (true,
               store net section_id
                 (TrackSection.set_state section SectionStatus.RESERVED
                    (TrackSection.occupying_trains section) (Some train_id)))
      else Py.Ok (false, net)
  end.

Definition occupy_section (net : t) (section_id train_id : string)
    : Py.result (bool * t) :=
  match sections net !! section_id with
  | None => Py.Ok (false, net)
  | Some section =>
      if (bool_decide (TrackSection.current_status section = SectionStatus.AVAILABLE)
          || bool_decide (TrackSection.current_status section = SectionStatus.RESERVED))
         && (Z.of_nat (length (TrackSection.occupying_trains section))
               <? TrackSection.max_trains section)
      then
        Py.Ok (true,
               store net section_id
                 (TrackSection.set_state section SectionStatus.OCCUPIED
                    (TrackSection.occupying_trains section ++ [train_id]) None))
      else Py.Ok (false, net)
  end.

Definition release_section (net : t) (section_id train_id : string)
    : Py.result (bool * t) :=
  match sections net !! section_id with
  | None => Py.Ok (false, net)
  | Some section =>
      if Py.contains train_id (TrackSection.occupying_trains section) then
        occ ← Py.remove train_id (TrackSection.occupying_trains section);
        let status :=
          match occ with
          | [] => SectionStatus.AVAILABLE
          | _ :: _ => TrackSection.current_status section
          end in
        Py.Ok (true,
               store net section_id
                 (TrackSection.set_state section status occ
                    (TrackSection.reserved_for section)))
      else Py.Ok (false, net)
  end.

End RailwayNetwork.

(** [create_sample_network]: five sections added one by one, then the
    adjacency table replaced by the literal one. *)
Definition sample_adjacency : gmap string (list string) :=
  list_to_map
    [ ("SEC_001", ["SEC_003"]);
      ("SEC_002", ["SEC_003"]);
      ("SEC_003", ["SEC_001"; "SEC_002"; "SEC_004"; "SEC_005"]);
      ("SEC_004", ["SEC_003"]);
      ("SEC_005", ["SEC_003"]) ].

Definition create_sample_network : RailwayNetwork.t :=
  let network := RailwayNetwork.mk "sample_001" "Sample Railway Network" ∅ ∅ in
  let sections_data :=
    [ TrackSection.new "SEC_001" "Main Line Section 1" SectionType.DOUBLE_LINE 15.5%float;
      TrackSection.new "SEC_002" "Main Line Section 2" SectionType.DOUBLE_LINE 12.3%float;
      TrackSection.new "SEC_003" "Junction A" SectionType.JUNCTION 2.1%float;
      TrackSection.new "SEC_004" "Platform 1" SectionType.PLATFORM 0.4%float;
      TrackSection.new "SEC_005" "Platform 2" SectionType.PLATFORM 0.4%float ] in
  let network := fold_left RailwayNetwork.add_section sections_data network in
  RailwayNetwork.set_adjacency network sample_adjacency.

(** [get_available_sections]: the comprehension runs over
    [self.sections.items()].  The finite map does not record the order in
    which a Python dict was filled, so the list is given in the order of the
    map's keys; the properties below speak of its members and of its length,
    which is all the callers read. *)
Definition get_available_sections (net : RailwayNetwork.t) : list string :=
  map fst
    (List.filter
       (λ item, bool_decide (TrackSection.current_status (snd item)
                             = SectionStatus.AVAILABLE))
       (map_to_list (RailwayNetwork.sections net))).

(** ** optimization/simple_scheduler.py *)

(** [sorted(l, key=key, reverse=True)]: the keys are computed first, one call
    per element in list order; the sort is stable, so elements with equal keys
    keep their input order also when reversed. *)
Module PySort.

Section Sorting.
Context {A : Type}.

Fixpoint insert_desc (x : Q * A) (l : list (Q * A)) : list (Q * A) :=
  match l with
  | [] => [x]
  | y :: l' =>
      if Qle_bool (fst y) (fst x) then x :: y :: l'
      else y :: insert_desc x l'
  end.

Definition sort_desc (l : list (Q * A)) : list (Q * A) :=
  foldr insert_desc [] l.

Definition keyed (key : A -> Py.result Q) (x : A) : Py.result (Q * A) :=
  k ← key x; Py.Ok (k, x).

Definition sorted_reverse (key : A -> Py.result Q) (l : list A) : Py.result (list A) :=
  keys ← Py.map_result (keyed key) l;
  Py.Ok (map snd (sort_desc keys)).

End Sorting.

End PySort.

(** The dict built for one section of a train's route (lines 160-165). *)
Module SectionSchedule.

Record t : Type := mk {
  section_id : string;
  start_time : Z;
  end_time : Z;
  duration : Z
}.

End SectionSchedule.

(** The dict built for one train (lines 148-153). *)
Module TrainSchedule.

Record t : Type := mk {
  train_id : string;
  train_number : string;
  priority : Z;
  sections : list SectionSchedule.t
}.

End TrainSchedule.

Module Metrics.

Record t : Type := mk {
  total_trains : Z;
  scheduled_trains : Z;
  average_delay : Q;
  optimization_time : Q;
  solver_status : string
}.

End Metrics.

(** The dict returned by [optimize_schedule].  ['movements'] is always the
    empty list and is left out; [metrics = None] stands for a dict without
    metrics (the [{}] of an infeasible result). *)
Module Schedule.

Record t : Type := mk {
  status : string;
  trains : list TrainSchedule.t;
  metrics : option Metrics.t
}.

End Schedule.

(** ['buffer_minutes'] table of [_estimate_section_travel_time], keyed by the
    string value of the section type. *)
Definition buffer_table : list (string * Z) :=
  [("platform", 5); ("junction", 3); ("single_line", 2); ("double_line", 1)].

Definition buffer_get (k : string) (default : Z) : Z :=
  match List.find (fun e => String.eqb (fst e) k) buffer_table with
  | Some e => snd e
  | None => default
  end.

(** The dict [resolve_conflicts] builds for one conflict. *)
Module Resolution.

Record t : Type := mk {
  conflict_id : string;
  strategy : string;
  action : string;
  affected_train : string;
  priority_train : string;
  estimated_delay : Z;
  confidence : Q
}.

End Resolution.

(** [{train.train_id: train for train in trains}]: a later train replaces an
    earlier one with the same identifier. *)
Definition train_dict (trains : list Train.t) : gmap string Train.t :=
  fold_left (λ d train, <[Train.train_id train := train]> d) trains ∅.

(** [[train_dict[tid] for tid in conflict.train_ids if tid in train_dict]] *)
Definition conflicting_trains (trains : list Train.t) (conflict : TrainConflict.t)
    : list Train.t :=
  omap (λ tid, train_dict trains !! tid) (TrainConflict.train_ids conflict).

Module SimpleTrainScheduler.

Section Self.

(** [self.network] *)
Variable network : RailwayNetwork.t.

Definition _get_train_route (train : Train.t) : list string :=
  match Train.route_sections train with
  | _ :: _ => Train.route_sections train
  | [] =>
      RailwayNetwork.get_route_sections network
        (Train.origin_station train) (Train.destination_station train)
  end.

(** The three arithmetic steps are those of doubles: the speed, an int, is
    converted for the division, the quotient is multiplied by 60.0, and
    [int] truncates the product, raising when it is not finite. *)
Definition _estimate_section_travel_time (train : Train.t) (section_id : string)
    : Py.result Z :=
  match RailwayNetwork.sections network !! section_id with
  | None => Py.Ok 10
  | Some section =>
      let distance_km := TrackSection.length_km section in
      let speed_kmh :=
        Z.min (Train.max_speed train) (TrackSection.max_speed_limit section) in
      if 0 <? speed_kmh then
        travel_hours ← Py.truediv distance_km speed_kmh;
        product ← Py.mul travel_hours 60;
        travel_minutes ← Py.int product;
        let buffer_minutes :=
          buffer_get (SectionType.value (TrackSection.section_type section)) 2 in
        Py.Ok (Z.max (travel_minutes + buffer_minutes) 1)
      else Py.Ok 10
  end.

(** The loop over [route_sections] of [_schedule_single_train], started with
    [current_time]; an exception of the estimator ends it. *)
Fixpoint route_loop (train : Train.t) (route_sections : list string)
    (current_time : Z) : Py.result (list SectionSchedule.t) :=
  match route_sections with
  | [] => Py.Ok []
  | section_id :: rest =>
      travel_time ← _estimate_section_travel_time train section_id;
      sections ← route_loop train rest (current_time + travel_time);
      Py.Ok (SectionSchedule.mk section_id current_time (current_time + travel_time)
               travel_time
             :: sections)
  end.

(** [None] is Python's [None]: the train has no route. *)
Definition _schedule_single_train (train : Train.t) : Py.result (option TrainSchedule.t) :=
  match _get_train_route train with
  | [] => Py.Ok None
  | route_sections =>
      sections ← route_loop train route_sections 0;
      Py.Ok (Some (TrainSchedule.mk (Train.train_id train) (Train.train_number train)
                     (TrainPriority.value (Train.priority train)) sections))
  end.

(** The loop over [sorted_trains] of [optimize_schedule] (lines 36-50), with
    its two accumulators. *)
Fixpoint train_loop (sorted_trains : list Train.t)
    (scheduled_trains : list TrainSchedule.t) (total_delay : Z)
    : Py.result (list TrainSchedule.t * Z) :=
  match sorted_trains with
  | [] => Py.Ok (scheduled_trains, total_delay)
  | train :: rest =>
      train_schedule ← _schedule_single_train train;
      match train_schedule with
      | Some train_schedule =>
          let total_delay' :=
            match last (TrainSchedule.sections train_schedule) with
            | Some last_section =>
                let estimated_completion := SectionSchedule.end_time last_section in
                total_delay + Z.max 0 (estimated_completion - 120)
            | None => total_delay
            end in
          train_loop rest (scheduled_trains ++ [train_schedule]) total_delay'
      | None => train_loop rest scheduled_trains total_delay
      end
  end.

(** [optimize_schedule] with the key function of its [sorted] call as a
    parameter. *)
Definition optimize_schedule_by (key : Train.t -> Py.result Q)
    (trains : list Train.t) (time_horizon_hours : Z) : Py.result Schedule.t :=
  sorted_trains ← PySort.sorted_reverse key trains;
  scheduled ← train_loop sorted_trains [] 0;
  let '(scheduled_trains, total_delay) := scheduled in
  average_delay ← Py.truediv_int total_delay (Z.max (Z.of_nat (length scheduled_trains)) 1);
  let metrics :=
    Metrics.mk (Z.of_nat (length trains))
      (Z.of_nat (length scheduled_trains))
      average_delay
      (1 # 10) "OPTIMAL" in
  Py.Ok (Schedule.mk "optimal" scheduled_trains (Some metrics)).

(** [optimize_schedule] as written: the key is [calculate_priority_score]. *)
Definition optimize_schedule (trains : list Train.t) (time_horizon_hours : Z)
    : Py.result Schedule.t :=
  optimize_schedule_by calculate_priority_score trains time_horizon_hours.

(** [section_usage[section_id].append(train)], creating the entry on first
    use; the dict keeps its keys in insertion order. *)
Fixpoint usage_add (section_usage : list (string * list Train.t))
    (section_id : string) (train : Train.t) : list (string * list Train.t) :=
  match section_usage with
  | [] => [(section_id, [train])]
  | (k, ts) :: rest =>
      if decide (k = section_id) then (k, ts ++ [train]) :: rest
      else (k, ts) :: usage_add rest section_id train
  end.

(** The grouping loop of [detect_conflicts] (lines 75-81). *)
Definition group_by_section (trains : list Train.t) : list (string * list Train.t) :=
  fold_left
    (fun usage train =>
       fold_left (fun usage section_id => usage_add usage section_id train)
         (_get_train_route train) usage)
    trains [].

(** [(l[i], l[j])] for [i] in [range(len(l))] and [j] in [range(i + 1, len(l))]. *)
Fixpoint index_pairs {A : Type} (l : list A) : list (A * A) :=
  match l with
  | [] => []
  | x :: l' => map (pair x) l' ++ index_pairs l'
  end.

Definition make_conflict (section_id : string) (pr : Train.t * Train.t) : TrainConflict.t :=
  let '(train1, train2) := pr in
  TrainConflict.mk
    ("CONF_" +:+ Train.train_id train1 +:+ "_" +:+ Train.train_id train2 +:+ "_" +:+ section_id)
    [Train.train_id train1; Train.train_id train2]
    section_id
    "capacity_exceeded"
    (Z.min (Train.scheduled_departure train1) (Train.scheduled_departure train2))
    (Z.max (Train.scheduled_arrival train1) (Train.scheduled_arrival train2))
    3 None false.

(** The body of the loop over [section_usage.items()] (lines 85-104). *)
Definition section_conflicts (entry : string * list Train.t) : list TrainConflict.t :=
  let '(section_id, trains_in_section) := entry in
  if 1 <? Z.of_nat (length trains_in_section) then
    match RailwayNetwork.sections network !! section_id with
    | Some section =>
        if TrackSection.max_trains section <? Z.of_nat (length trains_in_section)
        then map (make_conflict section_id) (index_pairs trains_in_section)
        else []
    | None => []
    end
  else [].

Definition detect_conflicts (trains : list Train.t) : list TrainConflict.t :=
  flat_map section_conflicts (group_by_section trains).

(** The dict of lines 128-136. *)
Definition resolution (conflict : TrainConflict.t)
    (higher_priority lower_priority : Train.t) (delay_minutes : Z) : Resolution.t :=
  Resolution.mk (TrainConflict.conflict_id conflict)
    "priority_based_delay"
    ("Delay " +:+ Train.train_id lower_priority +:+ " by " +:+ pretty delay_minutes
     +:+ " minutes to allow " +:+ Train.train_id higher_priority +:+ " to proceed")
    (Train.train_id lower_priority)
    (Train.train_id higher_priority)
    delay_minutes
    (85 # 100).

(** The loop of [resolve_conflicts] (lines 114-137) with the key of its
    [sort] call as a parameter.  [random.randint(10, 30)] is a parameter too:
    [randint n] is the value drawn by the call made after [n] earlier ones, one
    call being made per resolution.  The sorted list has the length of
    [conflicting_trains], so the defaults of [hd] are never returned. *)
Fixpoint resolve_loop (key : Train.t → Py.result Q) (randint : nat → Z)
    (trains : list Train.t) (conflicts : list TrainConflict.t)
    (resolutions : list Resolution.t) : Py.result (list Resolution.t) :=
  match conflicts with
  | [] => Py.Ok resolutions
  | conflict :: rest =>
      match conflicting_trains trains conflict with
      | first :: second :: others =>
          sorted ← PySort.sorted_reverse key (first :: second :: others);
          let higher_priority := hd first sorted in
          let lower_priority := hd second (tl sorted) in
          let delay_minutes := randint (length resolutions) in
          resolve_loop key randint trains rest
            (resolutions
             ++ [resolution conflict higher_priority lower_priority delay_minutes])
      | _ => resolve_loop key randint trains rest resolutions
      end
  end.

Definition resolve_conflicts_by (key : Train.t → Py.result Q) (randint : nat → Z)
    (conflicts : list TrainConflict.t) (trains : list Train.t)
    : Py.result (list Resolution.t) :=
  resolve_loop key randint trains conflicts [].

(** [resolve_conflicts] as written: the key is [calculate_priority_score]. *)
Definition resolve_conflicts (randint : nat → Z)
    (conflicts : list TrainConflict.t) (trains : list Train.t)
    : Py.result (list Resolution.t) :=
  resolve_conflicts_by calculate_priority_score randint conflicts trains.

End Self.

End SimpleTrainScheduler.

(** The dict returned by [_calculate_schedule_impact]; [improvement = None]
    when the key is absent. *)
Module Impact.

Record t : Type := mk {
  changes : Z;
  affected_trains : list string;
  improvement : option bool
}.

End Impact.

(** A disruption dict, read with [dict.get]: an absent key is [None]. *)
Module Disruption.

Record t : Type := mk {
  type : option string;
  train_id : option string;
  delay_minutes : option Z
}.

End Disruption.

Module SimpleRealTimeOptimizer.

(** [new['metrics']['average_delay'] < old['metrics']['average_delay']] with
    the [dict.get] defaults: [0] on the new side, [float('inf')] on the old. *)
Definition improvement_flag (old_schedule new_schedule : Schedule.t) : bool :=
  let new_delay :=
    match Schedule.metrics new_schedule with
    | Some m => Metrics.average_delay m
    | None => 0%Q
    end in
  match Schedule.metrics old_schedule with
  | Some m => negb (Qle_bool (Metrics.average_delay m) new_delay)
  | None => true
  end.

(** [None] is Python's [None]; a schedule dict is never empty, hence truthy. *)
Definition _calculate_schedule_impact (old_schedule new_schedule : option Schedule.t)
    : Impact.t :=
  match old_schedule, new_schedule with
  | Some old, Some new =>
      Impact.mk
        (Z.abs (Z.of_nat (length (Schedule.trains new))
                - Z.of_nat (length (Schedule.trains old))))
        (map TrainSchedule.train_id (Schedule.trains new))
        (Some (improvement_flag old new))
  | _, _ => Impact.mk 0 [] None
  end.

(** [train.scheduled_departure = t] and [train.scheduled_arrival = t] *)
Definition set_scheduled_departure (train : Train.t) (t : datetime) : Train.t :=
  Train.mk (Train.train_id train) (Train.train_number train)
    (Train.train_name train) (Train.train_type train) (Train.priority train)
    (Train.origin_station train) (Train.destination_station train)
    t (Train.scheduled_arrival train)
    (Train.actual_departure train) (Train.max_speed train)
    (Train.route_sections train).

Definition set_scheduled_arrival (train : Train.t) (t : datetime) : Train.t :=
  Train.mk (Train.train_id train) (Train.train_number train)
    (Train.train_name train) (Train.train_type train) (Train.priority train)
    (Train.origin_station train) (Train.destination_station train)
    (Train.scheduled_departure train) t
    (Train.actual_departure train) (Train.max_speed train)
    (Train.route_sections train).

(** The two statements [train.scheduled_departure += timedelta(minutes=delay)]
    and [train.scheduled_arrival += timedelta(minutes=delay)].  The train is
    changed in place, so the result is the train as the statements leave it,
    with their outcome: when the second one raises the departure has already
    been moved. *)
Definition delay_train (delay : Z) (train : Train.t) : Train.t * Py.result unit :=
  match (delta ← timedelta_of_minutes delay;
         datetime_add (Train.scheduled_departure train) delta) with
  | Py.Err e => (train, Py.Err e)
  | Py.Ok departure =>
      let train := set_scheduled_departure train departure in
      match (delta ← timedelta_of_minutes delay;
             datetime_add (Train.scheduled_arrival train) delta) with
      | Py.Err e => (train, Py.Err e)
      | Py.Ok arrival => (set_scheduled_arrival train arrival, Py.Ok tt)
      end
  end.

(** The inner loop of [_apply_disruptions]: the first train with the given
    identifier is shifted, then the loop breaks. *)
Fixpoint delay_first (train_id : option string) (delay : Z) (trains : list Train.t)
    : list Train.t * Py.result unit :=
  match trains with
  | [] => ([], Py.Ok tt)
  | train :: rest =>
      if bool_decide (Some (Train.train_id train) = train_id) then
        let '(train, outcome) := delay_train delay train in
        (train :: rest, outcome)
      else
        let '(rest, outcome) := delay_first train_id delay rest in
        (train :: rest, outcome)
  end.

(** [_apply_disruptions] changes the trains of the list in place and returns
    the list: the result is the list as the call leaves it, with the outcome
    of the call.  After an exception the disruptions before the failing one
    have been applied, and the failing one possibly to the departure alone.
    [delay_minutes] is an int. *)
Fixpoint _apply_disruptions (trains : list Train.t) (disruptions : list Disruption.t)
    : list Train.t * Py.result unit :=
  match disruptions with
  | [] => (trains, Py.Ok tt)
  | disruption :: rest =>
      if bool_decide (Disruption.type disruption = Some "delay") then
        match delay_first (Disruption.train_id disruption)
                (default 0 (Disruption.delay_minutes disruption)) trains with
        | (trains, Py.Ok _) => _apply_disruptions trains rest
        | (trains, Py.Err e) => (trains, Py.Err e)
        end
      else _apply_disruptions trains rest
  end.

(** [update_schedule] without its time stamp: the state is
    [self.current_schedule]; the result is the new state with the returned
    schedule and impact. *)
Definition update_schedule (network : RailwayNetwork.t)
    (current_schedule : option Schedule.t)
    (trains : list Train.t) (disruptions : list Disruption.t)
    : Py.result (option Schedule.t * (Schedule.t * Impact.t)) :=
  let '(trains, applied) := _apply_disruptions trains disruptions in
  _ ← applied;
  new_schedule ← SimpleTrainScheduler.optimize_schedule network trains 24;
  let impact := _calculate_schedule_impact current_schedule (Some new_schedule) in
  Py.Ok (Some new_schedule, (new_schedule, impact)).

End SimpleRealTimeOptimizer.

(** ** optimization/scheduler.py

    [TrainScheduler] has the same [_get_train_route],
    [_estimate_section_travel_time] and [detect_conflicts] as
    [SimpleTrainScheduler], and [RealTimeOptimizer] the same
    [_calculate_schedule_impact] as [SimpleRealTimeOptimizer], line for line.
    Its [optimize_schedule] hands the search to the CP-SAT solver of OR-Tools,
    which is not part of the sources: the calls into it are parameters here,
    and only the order in which the Python code makes them is modelled. *)
Module TrainScheduler.

Section Self.

(** The state of the constraint model under construction. *)
Variable CpModel : Type.

(** Lines 37-103: the variables and the duration, precedence and
    single-occupancy constraints. *)
Variable declare_constraints : list Train.t → Z → Py.result CpModel.

(** Lines 112-120: the objective term of one train, given its weight. *)
Variable add_objective_term : CpModel → Train.t → Q → Py.result CpModel.

(** Lines 122-141: [Minimize], [Solve] and the extraction of the result. *)
Variable solve : CpModel → list Train.t → Py.result Schedule.t.

(** The loop over [trains] at lines 108-120: the weight of each train is
    computed first. *)
Fixpoint objective_loop (model : CpModel) (trains : list Train.t) : Py.result CpModel :=
  match trains with
  | [] => Py.Ok model
  | train :: rest =>
      priority_weight ← calculate_priority_score train;
      model' ← add_objective_term model train priority_weight;
      objective_loop model' rest
  end.

Definition optimize_schedule (trains : list Train.t) (time_horizon_hours : Z)
    : Py.result Schedule.t :=
  model ← declare_constraints trains time_horizon_hours;
  model' ← objective_loop model trains;
  solve model' trains.

(** The dict of lines 213-221. *)
Definition resolution (conflict : TrainConflict.t)
    (higher_priority lower_priority : Train.t) : Resolution.t :=
  Resolution.mk (TrainConflict.conflict_id conflict)
    "priority_based_delay"
    ("Delay " +:+ Train.train_id lower_priority +:+ " to allow "
     +:+ Train.train_id higher_priority +:+ " to proceed")
    (Train.train_id lower_priority)
    (Train.train_id higher_priority)
    15
    (8 # 10).

(** The loop of [resolve_conflicts] (lines 202-222), which uses no solver,
    with the key of its [sort] call as a parameter. *)
Fixpoint resolve_loop (key : Train.t → Py.result Q)
    (trains : list Train.t) (conflicts : list TrainConflict.t)
    (resolutions : list Resolution.t) : Py.result (list Resolution.t) :=
  match conflicts with
  | [] => Py.Ok resolutions
  | conflict :: rest =>
      match conflicting_trains trains conflict with
      | first :: second :: others =>
          sorted ← PySort.sorted_reverse key (first :: second :: others);
          let higher_priority := hd first sorted in
          let lower_priority := hd second (tl sorted) in
          resolve_loop key trains rest
            (resolutions ++ [resolution conflict higher_priority lower_priority])
      | _ => resolve_loop key trains rest resolutions
      end
  end.

Definition resolve_conflicts_by (key : Train.t → Py.result Q)
    (conflicts : list TrainConflict.t) (trains : list Train.t)
    : Py.result (list Resolution.t) :=
  resolve_loop key trains conflicts [].

Definition resolve_conflicts (conflicts : list TrainConflict.t) (trains : list Train.t)
    : Py.result (list Resolution.t) :=
  resolve_conflicts_by calculate_priority_score conflicts trains.

(** [_extract_solution] (lines 260-310).  [train_vars] maps a train
    identifier to the variables of its route, one pair (['start'], ['end'])
    per section identifier.  The solver is read through [solver.Value],
    [solver.WallTime()] and [solver.StatusName()], which are parameters. *)
Section Extract.

Variable IntVar : Type.
Variable Value : IntVar → Z.
Variable WallTime : Q.
Variable StatusName : string.

(** [self.network] *)
Variable network : RailwayNetwork.t.

(** The loop over [route_sections] (lines 285-296). *)
Definition extract_sections (vars : gmap string (IntVar * IntVar))
    (route_sections : list string) : list SectionSchedule.t :=
  omap
    (λ section_id,
       match vars !! section_id with
       | Some (start_var, end_var) =>
           let start_time := Value start_var in
           let end_time := Value end_var in
           Some (SectionSchedule.mk section_id start_time end_time (end_time - start_time))
       | None => None
       end)
    route_sections.

(** The loop over [trains] (lines 272-299) with its two accumulators,
    [solution['trains']] and [completed_trains]. *)
Fixpoint extract_loop (train_vars : gmap string (gmap string (IntVar * IntVar)))
    (trains : list Train.t) (solution_trains : list TrainSchedule.t)
    (completed_trains : Z) : list TrainSchedule.t * Z :=
  match trains with
  | [] => (solution_trains, completed_trains)
  | train :: rest =>
      match train_vars !! Train.train_id train with
      | Some vars =>
          let train_schedule :=
            TrainSchedule.mk (Train.train_id train) (Train.train_number train)
              (TrainPriority.value (Train.priority train))
              (extract_sections vars
                 (SimpleTrainScheduler._get_train_route network train)) in
          extract_loop train_vars rest (solution_trains ++ [train_schedule])
            (completed_trains + 1)
      | None => extract_loop train_vars rest solution_trains completed_trains
      end
  end.

Definition _extract_solution (trains : list Train.t)
    (train_vars : gmap string (gmap string (IntVar * IntVar))) : Schedule.t :=
  let total_delay := 0 in
  let '(solution_trains, completed_trains) := extract_loop train_vars trains [] 0 in
  Schedule.mk "optimal" solution_trains
    (Some (Metrics.mk (Z.of_nat (length trains)) completed_trains
             (inject_Z total_delay / inject_Z (Z.max completed_trains 1))%Q
             WallTime StatusName)).

End Extract.

End Self.

End TrainScheduler.

(** [RealTimeOptimizer.update_schedule] (scheduler.py, lines 323-352), without
    its time stamp.  [_apply_disruptions] and [_calculate_schedule_impact] are
    those of [SimpleRealTimeOptimizer], line for line.  [_apply_disruptions]
    changes the trains it is given in place, so the train list after the call
    is part of the outcome, also when the optimization raises; the other part
    is the new value of [self.current_schedule] with the returned schedule and
    impact.  [disruptions = None] is the default of the parameter. *)
Module RealTimeOptimizer.

Section Self.

Variable CpModel : Type.
Variable declare_constraints : list Train.t → Z → Py.result CpModel.
Variable add_objective_term : CpModel → Train.t → Q → Py.result CpModel.
Variable solve : CpModel → list Train.t → Py.result Schedule.t.

Definition update_schedule (current_schedule : option Schedule.t)
    (trains : list Train.t) (disruptions : option (list Disruption.t))
    : list Train.t * Py.result (option Schedule.t * (Schedule.t * Impact.t)) :=
  let '(trains, applied) :=
    match disruptions with
    | Some (d :: ds) => SimpleRealTimeOptimizer._apply_disruptions trains (d :: ds)
    | _ => (trains, Py.Ok tt)
    end in
  (trains,
   _ ← applied;
   new_schedule ← TrainScheduler.optimize_schedule CpModel declare_constraints
                    add_objective_term solve trains 24;
   let impact :=
     SimpleRealTimeOptimizer._calculate_schedule_impact current_schedule
       (Some new_schedule) in
   Py.Ok (Some new_schedule, (new_schedule, impact))).

End Self.

End RealTimeOptimizer.

(** ** api/main.py

    The endpoints of the FastAPI application that work on the train registry
    [active_trains] and on the schedules, as functions from the state before
    a request to the response and the state after it.  An endpoint returns
    its body or raises [HTTPException], which FastAPI answers with the status
    code of the exception.  The detail string of the exception is left out:
    in the handlers [except Exception as e] it is [str(e)], the text of an
    exception of the runtime.  [HTTPException] derives from [Exception], so
    such a handler also catches the [HTTPException] raised inside its own
    [try] block.  A returned dict of strings is an association list. *)
Module Api.

Inductive response (A : Type) : Type :=
| Returned (body : A)
| HTTPException (status_code : Z).

Arguments Returned {A} body.
Arguments HTTPException {A} status_code.

(** How a [try] block ends: with its value, with an [HTTPException] raised
    in it, or with another exception. *)
Inductive outcome (A : Type) : Type :=
| Value (a : A)
| RaisedHTTP (status_code : Z)
| Raised (e : Py.exn).

Arguments Value {A} a.
Arguments RaisedHTTP {A} status_code.
Arguments Raised {A} e.

(** [try: ... except Exception as e: raise HTTPException(status_code=500,
    detail=str(e))] *)
Definition except_Exception {A : Type} (o : outcome A) : response A :=
  match o with
  | Value a => Returned a
  | RaisedHTTP _ | Raised _ => HTTPException 500
  end.

Definition of_result {A : Type} (r : Py.result A) : outcome A :=
  match r with
  | Py.Ok a => Value a
  | Py.Err e => Raised e
  end.

(** [next((t for t in active_trains if t.train_id == train_id), None)] *)
Definition find_train (active_trains : list Train.t) (train_id : string) : option Train.t :=
  List.find (λ t, bool_decide (Train.train_id t = train_id)) active_trains.

(** [next((i for i, t in enumerate(active_trains) if t.train_id == train_id),
    None)], together with the train at that index. *)
Fixpoint find_index (active_trains : list Train.t) (train_id : string)
    : option (nat * Train.t) :=
  match active_trains with
  | [] => None
  | t :: rest =>
      if bool_decide (Train.train_id t = train_id) then Some (0%nat, t)
      else
        match find_index rest train_id with
        | Some (i, t') => Some (S i, t')
        | None => None
        end
  end.

(** [train.route_sections = route] *)
Definition set_route_sections (train : Train.t) (route : list string) : Train.t :=
  Train.mk (Train.train_id train) (Train.train_number train)
    (Train.train_name train) (Train.train_type train) (Train.priority train)
    (Train.origin_station train) (Train.destination_station train)
    (Train.scheduled_departure train) (Train.scheduled_arrival train)
    (Train.actual_departure train) (Train.max_speed train) route.

(** [POST /api/trains] (lines 64-86) *)
Definition create_train (railway_network : RailwayNetwork.t)
    (active_trains : list Train.t) (train : Train.t)
    : response (list (string * string)) * list Train.t :=
  match find_train active_trains (Train.train_id train) with
  | Some existing_train => (except_Exception (RaisedHTTP 400), active_trains)
  | None =>
      let train :=
        match Train.route_sections train with
        | [] =>
            set_route_sections train
              (RailwayNetwork.get_route_sections railway_network
                 (Train.origin_station train) (Train.destination_station train))
        | _ :: _ => train
        end in
      (except_Exception
         (Value [("status", "success");
                 ("message", "Train " +:+ Train.train_id train +:+ " created successfully");
                 ("train_id", Train.train_id train)]),
       active_trains ++ [train])
  end.

(** [GET /api/trains/{train_id}] (lines 95-101): no [try] block here. *)
Definition get_train (active_trains : list Train.t) (train_id : string)
    : response Train.t :=
  match find_train active_trains train_id with
  | Some train => Returned train
  | None => HTTPException 404
  end.

(** [PUT /api/trains/{train_id}] (lines 104-119) *)
Definition update_train (active_trains : list Train.t) (train_id : string)
    (train_update : Train.t) : response (list (string * string)) * list Train.t :=
  match find_index active_trains train_id with
  | None => (except_Exception (RaisedHTTP 404), active_trains)
  | Some (train_index, _) =>
      (except_Exception
         (Value [("status", "success");
                 ("message", "Train " +:+ train_id +:+ " updated successfully")]),
       <[train_index := train_update]> active_trains)
  end.

(** [DELETE /api/trains/{train_id}] (lines 122-138) *)
Definition delete_train (active_trains : list Train.t) (train_id : string)
    : response (list (string * string)) * list Train.t :=
  match find_index active_trains train_id with
  | None => (except_Exception (RaisedHTTP 404), active_trains)
  | Some (train_index, removed_train) =>
      (except_Exception
         (Value [("status", "success");
                 ("message", "Train " +:+ train_id +:+ " removed successfully");
                 ("removed_train", Train.train_number removed_train)]),
       delete train_index active_trains)
  end.

(** [POST /api/conflicts/resolve] (lines 263-271) *)
Definition resolve_conflicts (railway_network : RailwayNetwork.t)
    (active_trains : list Train.t) : response (list Resolution.t) :=
  let conflicts := SimpleTrainScheduler.detect_conflicts railway_network active_trains in
  except_Exception (of_result (TrainScheduler.resolve_conflicts conflicts active_trains)).

Section Scheduler.

(** The solver behind [scheduler = TrainScheduler(railway_network)]. *)
Variable CpModel : Type.
Variable declare_constraints : list Train.t → Z → Py.result CpModel.
Variable add_objective_term : CpModel → Train.t → Q → Py.result CpModel.
Variable solve : CpModel → list Train.t → Py.result Schedule.t.

(** [POST /api/optimize] (lines 216-234): the response and the global
    [current_schedule] after the request. *)
Definition optimize_schedule (active_trains : list Train.t)
    (current_schedule : option Schedule.t) (time_horizon : Z)
    : response (list (string * string) * Schedule.t) * option Schedule.t :=
  match active_trains with
  | [] => (except_Exception (RaisedHTTP 400), current_schedule)
  | _ :: _ =>
      match TrainScheduler.optimize_schedule CpModel declare_constraints
              add_objective_term solve active_trains time_horizon with
      | Py.Ok schedule =>
          (except_Exception
             (Value ([("status", "success");
                      ("message", "Schedule optimized successfully")], schedule)),
           Some schedule)
      | Py.Err e => (except_Exception (Raised e), current_schedule)
      end
  end.

(** The state the real-time endpoint works on: the registry, the global
    [current_schedule] and [real_time_optimizer.current_schedule]. *)
Record state : Type := mk_state {
  active_trains : list Train.t;
  current_schedule : option Schedule.t;
  optimizer_schedule : option Schedule.t
}.

(** [POST /api/realtime/update] (lines 276-291) *)
Definition update_realtime (st : state) (disruptions : option (list Disruption.t))
    : response (list (string * string) * (Schedule.t * Impact.t)) * state :=
  let '(trains, result) :=
    RealTimeOptimizer.update_schedule CpModel declare_constraints add_objective_term
      solve (optimizer_schedule st) (active_trains st) disruptions in
  match result with
  | Py.Ok (optimizer_schedule', (schedule, impact)) =>
      (except_Exception
         (Value ([("status", "success"); ("message", "Real-time update completed")],
                 (schedule, impact))),
       mk_state trains (Some schedule) optimizer_schedule')
  | Py.Err e =>
      (except_Exception (Raised e),
       mk_state trains (current_schedule st) (optimizer_schedule st))
  end.

End Scheduler.

End Api.

(** ** Inputs

    The three trains of test_system.py, with [datetime.min] in place of the
    clock reading [datetime.now()], and the further trains, networks and
    schedules the examples use. *)

Definition T001 : Train.t :=
  Train.mk "T001" "12345" "Express 1" TrainType.EXPRESS TrainPriority.HIGH
    "SEC_001" "SEC_004" 0 (timedelta_minutes 120) None 100
    ["SEC_001"; "SEC_003"; "SEC_004"].

Definition T002 : Train.t :=
  Train.mk "T002" "67890" "Local 1" TrainType.LOCAL TrainPriority.MEDIUM
    "SEC_002" "SEC_005" (timedelta_minutes 30) (timedelta_minutes 150) None 100
    ["SEC_002"; "SEC_003"; "SEC_005"].

Definition T003 : Train.t :=
  Train.mk "T003" "11111" "Freight 1" TrainType.FREIGHT TrainPriority.LOW
    "SEC_001" "SEC_002" (timedelta_minutes 60) (timedelta_minutes 240) None 100
    ["SEC_001"; "SEC_003"; "SEC_002"].

(** A freight train limited to 10 km/h: 94 minutes on [SEC_001] alone. *)
Definition T900 : Train.t :=
  Train.mk "T900" "90000" "Slow freight" TrainType.FREIGHT TrainPriority.LOW
    "SEC_001" "SEC_003" 0 (timedelta_minutes 180) None 10
    ["SEC_001"; "SEC_003"].

(** A second express with the priority of [T001]. *)
Definition T004 : Train.t :=
  Train.mk "T004" "12346" "Express 2" TrainType.EXPRESS TrainPriority.HIGH
    "SEC_002" "SEC_005" 0 (timedelta_minutes 120) None 100
    ["SEC_002"; "SEC_003"; "SEC_005"].

(** A train that leaves [SEC_001], turns at the junction and comes back. *)
Definition T100 : Train.t :=
  Train.mk "T100" "10000" "Shuttle" TrainType.LOCAL TrainPriority.MEDIUM
    "SEC_001" "SEC_001" 0 (timedelta_minutes 60) None 100
    ["SEC_001"; "SEC_003"; "SEC_001"].

(** A network with one siding of 300 m limited to 18 km/h. *)
Definition siding_network : RailwayNetwork.t :=
  RailwayNetwork.add_section
    (RailwayNetwork.mk "siding_001" "Network with a short siding" ∅ ∅)
    (TrackSection.mk "SID_1" "Siding" SectionType.SINGLE_LINE 0.3%float 18 1 []
       SectionStatus.AVAILABLE [] None).

(** A network with one yard that admits two trains at once. *)
Definition yard_network : RailwayNetwork.t :=
  RailwayNetwork.add_section
    (RailwayNetwork.mk "yard_001" "Network with a two-train yard" ∅ ∅)
    (TrackSection.mk "YARD_1" "Yard" SectionType.YARD 1%float 40 2 []
       SectionStatus.AVAILABLE [] None).

(** Two schedules of [T001] on [SEC_001]: ten minutes, then ninety-four. *)
Definition schedule_before : Schedule.t :=
  Schedule.mk "optimal"
    [TrainSchedule.mk "T001" "12345" 3 [SectionSchedule.mk "SEC_001" 0 10 10]]
    (Some (Metrics.mk 1 1 0 (1 # 10) "OPTIMAL")).

Definition schedule_after : Schedule.t :=
  Schedule.mk "optimal"
    [TrainSchedule.mk "T001" "12345" 3 [SectionSchedule.mk "SEC_001" 0 94 94]]
    (Some (Metrics.mk 1 1 0 (1 # 10) "OPTIMAL")).

(** A network with one platform closed for maintenance, and the same with a
    train still standing at the platform. *)
Definition closed_network : RailwayNetwork.t :=
  RailwayNetwork.add_section
    (RailwayNetwork.mk "closed_001" "Network with a closed platform" ∅ ∅)
    (TrackSection.mk "P_CLOSED" "Closed platform" SectionType.PLATFORM 0.4%float 100 1 []
       SectionStatus.MAINTENANCE [] None).

Definition closing_network : RailwayNetwork.t :=
  RailwayNetwork.add_section
    (RailwayNetwork.mk "closed_002" "Network with a platform being closed" ∅ ∅)
    (TrackSection.mk "P_CLOSED" "Closed platform" SectionType.PLATFORM 0.4%float 100 1 []
       SectionStatus.MAINTENANCE ["T001"] None).

(** A train without a listed route, from [SEC_001] to [SEC_004]: two sections
    that are linked through the junction [SEC_003] only. *)
Definition T005 : Train.t :=
  Train.mk "T005" "50000" "Unrouted express" TrainType.EXPRESS TrainPriority.HIGH
    "SEC_001" "SEC_004" 0 (timedelta_minutes 120) None 100 [].

(** ** Vocabulary of the stated properties *)

(** The priority score as the specification words it: the base priority value
    scaled by a multiplier per train kind, plus a delay penalty in hours capped
    at 2. *)
Definition spec_type_multiplier (k : TrainType.t) : Q :=
  match k with
  | TrainType.EXPRESS => 3 # 2
  | TrainType.LOCAL => 1
  | TrainType.FREIGHT => 8 # 10
  | TrainType.MAINTENANCE => 1 # 2
  | TrainType.SPECIAL => 1
  end.

Definition spec_priority_score (train : Train.t) : Q :=
  (inject_Z (TrainPriority.value (Train.priority train))
   * spec_type_multiplier (Train.train_type train)
   + delay_penalty train)%Q.

(** The occupants of a section; a section the network does not know has none. *)
Definition occupants (net : RailwayNetwork.t) (sid : string) : list string :=
  match RailwayNetwork.sections net !! sid with
  | Some section => TrackSection.occupying_trains section
  | None => []
  end.

(** [len(occupying_trains) <= max_trains] for the section [sid]. *)
Definition within_capacity (net : RailwayNetwork.t) (sid : string) : Prop :=
  ∀ section, RailwayNetwork.sections net !! sid = Some section →
    Z.of_nat (length (TrackSection.occupying_trains section))
    <= TrackSection.max_trains section.

(** Calls of the three occupancy operations, and a sequence of such calls run
    on a network; the boolean results are dropped. *)
Inductive Op : Type :=
| Reserve (section_id train_id : string)
| Occupy (section_id train_id : string)
| Release (section_id train_id : string).

Definition call (op : Op) (net : RailwayNetwork.t) : Py.result (bool * RailwayNetwork.t) :=
  match op with
  | Reserve sid tid => RailwayNetwork.reserve_section net sid tid
  | Occupy sid tid => RailwayNetwork.occupy_section net sid tid
  | Release sid tid => RailwayNetwork.release_section net sid tid
  end.

Fixpoint run (ops : list Op) (net : RailwayNetwork.t) : Py.result RailwayNetwork.t :=
  match ops with
  | [] => Py.Ok net
  | op :: rest => r ← call op net; run rest (snd r)
  end.

(** What one successful occupancy operation does to the section it names. *)
Inductive section_step : TrackSection.t → TrackSection.t → Prop :=
| step_reserve (s : TrackSection.t) (train_id : string) :
    TrackSection.current_status s = SectionStatus.AVAILABLE →
    TrackSection.reserved_for s = None →
    section_step s
      (TrackSection.set_state s SectionStatus.RESERVED
         (TrackSection.occupying_trains s) (Some train_id))
| step_occupy (s : TrackSection.t) (train_id : string) :
    TrackSection.current_status s = SectionStatus.AVAILABLE
    ∨ TrackSection.current_status s = SectionStatus.RESERVED →
    Z.of_nat (length (TrackSection.occupying_trains s)) < TrackSection.max_trains s →
    section_step s
      (TrackSection.set_state s SectionStatus.OCCUPIED
         (TrackSection.occupying_trains s ++ [train_id]) None)
| step_release (s : TrackSection.t) (train_id : string) (occ : list string) :
    train_id ∈ TrackSection.occupying_trains s →
    Py.remove train_id (TrackSection.occupying_trains s) = Py.Ok occ →
    section_step s
      (TrackSection.set_state s
         (match occ with
          | [] => SectionStatus.AVAILABLE
          | _ :: _ => TrackSection.current_status s
          end)
         occ (TrackSection.reserved_for s)).

(** While a section has occupants its status is [OCCUPIED]. *)
Definition occupied_while_held (s : TrackSection.t) : Prop :=
  TrackSection.occupying_trains s ≠ [] →
  TrackSection.current_status s = SectionStatus.OCCUPIED.

(** [train_id] is not (or no longer) an occupant of the section. *)
Definition released (net : RailwayNetwork.t) (sid train_id : string) : Prop :=
  train_id ∉ occupants net sid.

(** At most one occupant, and [OCCUPIED] while there is one. *)
Definition single_occupancy (s : TrackSection.t) : Prop :=
  (length (TrackSection.occupying_trains s) ≤ 1)%nat ∧ occupied_while_held s.

(** A segment runs during [start_time <= t < end_time], and holds its section
    while it runs. *)
Definition running (t : Z) (seg : SectionSchedule.t) : bool :=
  (SectionSchedule.start_time seg <=? t) && (t <? SectionSchedule.end_time seg).

Definition active (sid : string) (t : Z) (seg : SectionSchedule.t) : bool :=
  bool_decide (SectionSchedule.section_id seg = sid) && running t seg.

(** The number of a train's segments that hold section [sid] at instant [t]. *)
Definition train_occupancy (sid : string) (t : Z) (ts : TrainSchedule.t) : nat :=
  length (List.filter (active sid t) (TrainSchedule.sections ts)).

(** The number of scheduled segments that hold section [sid] at instant [t]. *)
Definition occupancy (sched : Schedule.t) (sid : string) (t : Z) : nat :=
  sum_list (map (train_occupancy sid t) (Schedule.trains sched)).

(** The train has a segment on section [sid]. *)
Definition routed_through (sid : string) (ts : TrainSchedule.t) : bool :=
  existsb (λ seg, bool_decide (SectionSchedule.section_id seg = sid))
    (TrainSchedule.sections ts).

(** The number of scheduled trains with a segment on section [sid]. *)
Definition users (sched : Schedule.t) (sid : string) : nat :=
  length (List.filter (routed_through sid) (Schedule.trains sched)).

(** Each segment starts no earlier than the one before it ends. *)
Definition chained (segs : list SectionSchedule.t) : Prop :=
  ∀ (i : nat) (a b : SectionSchedule.t),
    segs !! i = Some a → segs !! S i = Some b →
    SectionSchedule.end_time a <= SectionSchedule.start_time b.

(** The delay [optimize_schedule] charges for one scheduled train. *)
Definition completion_delay (ts : TrainSchedule.t) : Z :=
  match last (TrainSchedule.sections ts) with
  | Some last_section => Z.max 0 (SectionSchedule.end_time last_section - 120)
  | None => 0
  end.

(** The buffer per section kind, as a function of the kind. *)
Definition section_buffer (k : SectionType.t) : Z :=
  match k with
  | SectionType.PLATFORM => 5
  | SectionType.JUNCTION => 3
  | SectionType.SINGLE_LINE => 2
  | SectionType.DOUBLE_LINE => 1
  | SectionType.MULTIPLE_LINE | SectionType.YARD => 2
  end.

(** The rational number a finite double stands for (0 for an infinity and for
    a NaN): the mantissa scaled by the power of two of the exponent. *)
Definition float_value (x : float) : Q :=
  match Prim2SF x with
  | S754_finite s m e =>
      let magnitude :=
        match e with
        | Z0 => inject_Z (Zpos m)
        | Zpos p => inject_Z (Zpos m * 2 ^ Zpos p)
        | Zneg p => Zpos m # 2 ^ p
        end in
      if s then (- magnitude)%Q else magnitude
  | _ => 0%Q
  end.

(** The integer part of a rational, rounded toward zero. *)
Definition truncate (x : Q) : Z := Z.quot (Qnum x) (Zpos (Qden x)).

(** The travel time as the specification words it, on the numbers
    themselves: the floor of [length_km / speed * 60], plus the buffer of the
    section kind, and at least 1. *)
Definition spec_travel_time (length_km : Q) (speed : Z) (kind : SectionType.t) : Z :=
  Z.max (Qfloor (length_km / inject_Z speed * 60)%Q + section_buffer kind) 1.

(** The value of a computation that returns, [d] for one that raises. *)
Definition value_or {A : Type} (d : A) (r : Py.result A) : A :=
  match r with
  | Py.Ok a => a
  | Py.Err _ => d
  end.

(** The entry [_schedule_single_train] gives a train: its schedule, none for
    a train without a route (and none when the call raises). *)
Definition entry_of (net : RailwayNetwork.t) (train : Train.t) : option TrainSchedule.t :=
  value_or None (SimpleTrainScheduler._schedule_single_train net train).

(** The score a key gives a train (0 when the key raises on it). *)
Definition score_of (key : Train.t → Py.result Q) (train : Train.t) : Q :=
  value_or 0%Q (key train).

(** What the estimator and the route resolver read of a network: per section
    its kind, length and speed limit, and the adjacency table. *)
Definition static_attributes (s : TrackSection.t) : SectionType.t * float * Z :=
  (TrackSection.section_type s, TrackSection.length_km s, TrackSection.max_speed_limit s).

Definition same_topology (net net' : RailwayNetwork.t) : Prop :=
  RailwayNetwork.adjacency_matrix net = RailwayNetwork.adjacency_matrix net'
  ∧ ∀ sid, static_attributes <$> RailwayNetwork.sections net !! sid
           = static_attributes <$> RailwayNetwork.sections net' !! sid.

(** The specification's priority score as a key function. *)
Definition spec_key (train : Train.t) : Py.result Q :=
  Py.Ok (spec_priority_score train).

(** The sum of the delays charged for a list of scheduled trains. *)
Definition total_completion_delay (l : list TrainSchedule.t) : Z :=
  foldr Z.add 0 (map completion_delay l).

(** The metrics [optimize_schedule] computes for [n] input trains and the
    list [scheduled] of train schedules. *)
Definition metrics_of (n : nat) (scheduled : list TrainSchedule.t) : Metrics.t :=
  Metrics.mk (Z.of_nat n) (Z.of_nat (length scheduled))
    (inject_Z (total_completion_delay scheduled)
     / inject_Z (Z.max (Z.of_nat (length scheduled)) 1))%Q
    (1 # 10) "OPTIMAL".

#[global] Instance SectionSchedule_eq_dec : EqDecision SectionSchedule.t.
Proof. solve_decision. Defined.

(** The segments a schedule gives the train [tid]: those of its first entry
    for that identifier, [None] when it has no entry. *)
Definition segments_of (sched : Schedule.t) (tid : string)
    : option (list SectionSchedule.t) :=
  TrainSchedule.sections
    <$> List.find (λ ts, bool_decide (TrainSchedule.train_id ts = tid))
          (Schedule.trains sched).

(** The count the specification asks of the impact summary: the trains, among
    those of either schedule, whose segments are not the same in both. *)
Definition spec_changed_count (old new : Schedule.t) : Z :=
  Z.of_nat
    (length
       (List.filter
          (λ tid, negb (bool_decide (segments_of old tid = segments_of new tid)))
          (remove_dups
             (map TrainSchedule.train_id (Schedule.trains old)
              ++ map TrainSchedule.train_id (Schedule.trains new))))).

(** The visits of a train list: one pair of a section and a train for every
    entry of every resolved route, in the order [detect_conflicts] reads
    them. *)
Definition visits (net : RailwayNetwork.t) (trains : list Train.t)
    : list (string * Train.t) :=
  flat_map
    (λ train, map (λ sid, (sid, train)) (SimpleTrainScheduler._get_train_route net train))
    trains.

(** The trains behind the visits of section [sid], one per visit. *)
Definition visitors (sid : string) (vs : list (string * Train.t)) : list Train.t :=
  map snd (List.filter (λ v, bool_decide (fst v = sid)) vs).

(** The distinct elements of a list in the order of their first occurrence. *)
Fixpoint first_visits (l : list string) : list string :=
  match l with
  | [] => []
  | x :: l' => x :: List.filter (λ y, negb (bool_decide (y = x))) (first_visits l')
  end.

(** The trains whose resolved route holds section [sid], in input order. *)
Definition routed_trains (net : RailwayNetwork.t) (sid : string) (trains : list Train.t)
    : list Train.t :=
  List.filter
    (λ train, bool_decide (sid ∈ SimpleTrainScheduler._get_train_route net train))
    trains.

(** The section an operation names. *)
Definition op_section (op : Op) : string :=
  match op with
  | Reserve sid _ | Occupy sid _ | Release sid _ => sid
  end.

(** The bookkeeping of a section is consistent: it is [OCCUPIED] while it has
    occupants, and it carries a reservation exactly while it is [RESERVED]. *)
Definition consistent (s : TrackSection.t) : Prop :=
  occupied_while_held s
  ∧ (is_Some (TrackSection.reserved_for s)
     ↔ TrackSection.current_status s = SectionStatus.RESERVED).

(** [len(conflicting_trains) >= 2]: the conflict names at least two trains of
    the list (a train counting once per time it is named). *)
Definition resolvable (trains : list Train.t) (c : TrainConflict.t) : bool :=
  (2 <=? length (conflicting_trains trains c))%nat.

(** The resolution [r] answers the conflict [c] by priority: it carries the
    identifier of [c], lets a train of [c] with the highest score proceed and
    asks another train of [c], whose score is not higher, to wait. *)
Definition resolves (score : Train.t → Q) (trains : list Train.t)
    (c : TrainConflict.t) (r : Resolution.t) : Prop :=
  Resolution.conflict_id r = TrainConflict.conflict_id c
  ∧ Resolution.strategy r = "priority_based_delay"
  ∧ ∃ higher lower,
      higher ∈ conflicting_trains trains c
      ∧ lower ∈ conflicting_trains trains c
      ∧ Resolution.priority_train r = Train.train_id higher
      ∧ Resolution.affected_train r = Train.train_id lower
      ∧ (score lower <= score higher)%Q
      ∧ ∀ train, train ∈ conflicting_trains trains c → (score train <= score higher)%Q.

(** The train with its scheduled departure and arrival moved by [m] minutes. *)
Definition delayed (m : Z) (train : Train.t) : Train.t :=
  Train.mk (Train.train_id train) (Train.train_number train)
    (Train.train_name train) (Train.train_type train) (Train.priority train)
    (Train.origin_station train) (Train.destination_station train)
    (Train.scheduled_departure train + timedelta_minutes m)
    (Train.scheduled_arrival train + timedelta_minutes m)
    (Train.actual_departure train) (Train.max_speed train)
    (Train.route_sections train).

(** The minutes of delay a list of disruptions addresses to the train [tid]:
    the sum of [delay_minutes] (0 when absent) over the disruptions of type
    ['delay'] that name [tid]. *)
Definition addressed_to (tid : string) (d : Disruption.t) : bool :=
  bool_decide (Disruption.type d = Some "delay")
  && bool_decide (Disruption.train_id d = Some tid).

Definition total_delay (tid : string) (ds : list Disruption.t) : Z :=
  foldr Z.add 0
    (map (λ d, default 0 (Disruption.delay_minutes d)) (List.filter (addressed_to tid) ds)).

(** What identifies a conflict: its identifier, its trains and its section. *)
Definition conflict_parties (c : TrainConflict.t) : string * list string * string :=
  (TrainConflict.conflict_id c, TrainConflict.train_ids c, TrainConflict.section_id c).

(** Two trains with the same identifier and the same route data. *)
Definition same_route (train train' : Train.t) : Prop :=
  Train.train_id train = Train.train_id train'
  ∧ Train.route_sections train = Train.route_sections train'
  ∧ Train.origin_station train = Train.origin_station train'
  ∧ Train.destination_station train = Train.destination_station train'.

(** The entry [_extract_solution] writes for a train: none when the train
    has no variables. *)
Definition extracted_entry {IntVar : Type} (Value : IntVar → Z) (net : RailwayNetwork.t)
    (train_vars : gmap string (gmap string (IntVar * IntVar))) (train : Train.t)
    : option TrainSchedule.t :=
  match train_vars !! Train.train_id train with
  | Some vars =>
      Some (TrainSchedule.mk (Train.train_id train) (Train.train_number train)
              (TrainPriority.value (Train.priority train))
              (TrainScheduler.extract_sections IntVar Value vars
                 (SimpleTrainScheduler._get_train_route net train)))
  | None => None
  end.

(** The request is answered with its body (HTTP 200) or with HTTP 500. *)
Definition ok_or_500 {A : Type} (r : Api.response A) : Prop :=
  match r with
  | Api.Returned _ => True
  | Api.HTTPException status_code => status_code = 500
  end.

#[global] Instance consistent_dec (s : TrackSection.t) : Decision (consistent s).
Proof. unfold consistent, occupied_while_held. apply _. Defined.

(** * Properties *)

(** ** The result monad and the Python helpers *)

Lemma bind_Ok {A B : Type} (m : Py.result A) (k : A → Py.result B) (b : B) :
  (x ← m; k x) = Py.Ok b → ∃ a, m = Py.Ok a ∧ k a = Py.Ok b.
Proof. destruct m as [a|e]; simpl; [eauto | discriminate]. Qed.

Lemma contains_spec (x : string) (l : list string) :
  Py.contains x l = true ↔ x ∈ l.
Proof. unfold Py.contains. apply bool_decide_eq_true. Qed.

(** [l.remove(x)] succeeds exactly on a list that holds [x]; it shortens the
    list by one and keeps what stays in its place. *)
Lemma remove_elem (x : string) (l : list string) :
  x ∈ l →
  ∃ l', Py.remove x l = Py.Ok l' ∧ length l = S (length l')
        ∧ (∀ y, y ∈ l' → y ∈ l) ∧ (NoDup l → x ∉ l').
Proof.
  induction l as [|y l IH]; intros Hin.
  - inversion Hin.
  - simpl. destruct (decide (x = y)) as [->|Hne].
    + exists l. repeat split; auto.
      * intros z Hz. now constructor.
      * intros Hnd. now inversion Hnd.
    + assert (Hl : x ∈ l) by (inversion Hin; subst; [congruence | assumption]).
      destruct (IH Hl) as (l' & Hr & Hlen & Hsub & Hnd).
      exists (y :: l'). rewrite Hr. simpl. repeat split.
      * now rewrite Hlen.
      * intros z Hz. inversion Hz; subst; [constructor | constructor; auto].
      * intros Hnd' Hx. inversion Hnd'; subst.
        inversion Hx; subst; [congruence | now apply Hnd].
Qed.

(** ** models/train.py *)

Lemma getattr_EMERGENCY : TrainType.getattr "EMERGENCY" = Py.Err Py.AttributeError.
Proof. reflexivity. Qed.

Lemma type_multipliers_raises : type_multipliers = Py.Err Py.AttributeError.
Proof. reflexivity. Qed.

(** Every call raises: the multiplier table is built before anything else. *)
Lemma calculate_priority_score_AttributeError (train : Train.t) :
  calculate_priority_score train = Py.Err Py.AttributeError.
Proof. unfold calculate_priority_score. now rewrite type_multipliers_raises. Qed.

(** C3.  [calculate_priority_score] does not return the score the
    specification describes: building its multiplier table evaluates
    [TrainType.EMERGENCY], which is not a member of [TrainType], so every call
    raises [AttributeError], whatever the train. *)
Theorem calculate_priority_score_raises (train : Train.t) :
  calculate_priority_score train = Py.Err Py.AttributeError
  ∧ calculate_priority_score train ≠ Py.Ok (spec_priority_score train).
Proof.
  rewrite calculate_priority_score_AttributeError. split; [reflexivity | discriminate].
Qed.

(** ** models/infrastructure.py: the occupancy operations *)

Section Occupancy.

Variable net : RailwayNetwork.t.
Variables sid tid : string.

Lemma reserve_section_inv (b : bool) (net' : RailwayNetwork.t) :
  RailwayNetwork.reserve_section net sid tid = Py.Ok (b, net') →
  (b = false ∧ net' = net)
  ∨ ∃ s, RailwayNetwork.sections net !! sid = Some s
         ∧ TrackSection.current_status s = SectionStatus.AVAILABLE
         ∧ TrackSection.reserved_for s = None
         ∧ b = true
         ∧ net' = RailwayNetwork.store net sid
                    (TrackSection.set_state s SectionStatus.RESERVED
                       (TrackSection.occupying_trains s) (Some tid)).
Proof.
  unfold RailwayNetwork.reserve_section.
  destruct (RailwayNetwork.sections net !! sid) as [s|] eqn:Hs.
  - destruct (bool_decide _ && bool_decide _) eqn:Hc; intros [= <- <-]; [|now left].
    apply andb_true_iff in Hc as [H1 H2].
    apply bool_decide_eq_true in H1, H2. right. exists s. auto.
  - intros [= <- <-]. now left.
Qed.

Lemma occupy_section_inv (b : bool) (net' : RailwayNetwork.t) :
  RailwayNetwork.occupy_section net sid tid = Py.Ok (b, net') →
  (b = false ∧ net' = net)
  ∨ ∃ s, RailwayNetwork.sections net !! sid = Some s
         ∧ (TrackSection.current_status s = SectionStatus.AVAILABLE
            ∨ TrackSection.current_status s = SectionStatus.RESERVED)
         ∧ Z.of_nat (length (TrackSection.occupying_trains s)) < TrackSection.max_trains s
         ∧ b = true
         ∧ net' = RailwayNetwork.store net sid
                    (TrackSection.set_state s SectionStatus.OCCUPIED
                       (TrackSection.occupying_trains s ++ [tid]) None).
Proof.
  unfold RailwayNetwork.occupy_section.
  destruct (RailwayNetwork.sections net !! sid) as [s|] eqn:Hs.
  - destruct ((bool_decide _ || bool_decide _) && _) eqn:Hc; intros [= <- <-]; [|now left].
    apply andb_true_iff in Hc as [H1 H2].
    apply orb_true_iff in H1. rewrite !bool_decide_eq_true in H1.
    apply Z.ltb_lt in H2. right. exists s. auto.
  - intros [= <- <-]. now left.
Qed.

Lemma release_section_inv (b : bool) (net' : RailwayNetwork.t) :
  RailwayNetwork.release_section net sid tid = Py.Ok (b, net') →
  (b = false ∧ net' = net ∧ released net sid tid)
  ∨ ∃ s occ, RailwayNetwork.sections net !! sid = Some s
         ∧ tid ∈ TrackSection.occupying_trains s
         ∧ Py.remove tid (TrackSection.occupying_trains s) = Py.Ok occ
         ∧ b = true
         ∧ net' = RailwayNetwork.store net sid
                    (TrackSection.set_state s
                       (match occ with
                        | [] => SectionStatus.AVAILABLE
                        | _ :: _ => TrackSection.current_status s
                        end)
                       occ (TrackSection.reserved_for s)).
Proof.
  unfold RailwayNetwork.release_section, released, occupants.
  destruct (RailwayNetwork.sections net !! sid) as [s|] eqn:Hs.
  - destruct (Py.contains tid (TrackSection.occupying_trains s)) eqn:Hc.
    + apply contains_spec in Hc.
      destruct (remove_elem _ _ Hc) as (occ & Hr & _).
      rewrite Hr. simpl. intros [= <- <-]. right. exists s, occ. auto.
    + intros [= <- <-]. left. repeat split.
      intros Hin. apply contains_spec in Hin. congruence.
  - intros [= <- <-]. left. repeat split. apply not_elem_of_nil.
Qed.

(** None of the three operations raises. *)
Lemma reserve_section_returns :
  ∃ b net', RailwayNetwork.reserve_section net sid tid = Py.Ok (b, net').
Proof.
  unfold RailwayNetwork.reserve_section.
  destruct (RailwayNetwork.sections net !! sid); [|eauto].
  destruct (_ && _); eauto.
Qed.

Lemma occupy_section_returns :
  ∃ b net', RailwayNetwork.occupy_section net sid tid = Py.Ok (b, net').
Proof.
  unfold RailwayNetwork.occupy_section.
  destruct (RailwayNetwork.sections net !! sid); [|eauto].
  destruct (_ && _); eauto.
Qed.

Lemma release_section_returns :
  ∃ b net', RailwayNetwork.release_section net sid tid = Py.Ok (b, net').
Proof.
  unfold RailwayNetwork.release_section.
  destruct (RailwayNetwork.sections net !! sid) as [s|]; [|eauto].
  destruct (Py.contains tid (TrackSection.occupying_trains s)) eqn:Hc; [|eauto].
  apply contains_spec in Hc. destruct (remove_elem _ _ Hc) as (occ & -> & _).
  simpl. eauto.
Qed.

(** Releasing a train that is not an occupant fails and changes nothing. *)
Lemma release_section_released :
  released net sid tid →
  RailwayNetwork.release_section net sid tid = Py.Ok (false, net).
Proof.
  unfold released, occupants, RailwayNetwork.release_section.
  destruct (RailwayNetwork.sections net !! sid) as [s|]; [|reflexivity].
  intros Hnin. destruct (Py.contains tid _) eqn:Hc; [|reflexivity].
  apply contains_spec in Hc. contradiction.
Qed.

End Occupancy.

Lemma store_lookup (net : RailwayNetwork.t) (sid : string) (s : TrackSection.t) :
  RailwayNetwork.sections (RailwayNetwork.store net sid s) !! sid = Some s.
Proof. unfold RailwayNetwork.store. simpl. apply lookup_insert_eq. Qed.

Lemma store_lookup_ne (net : RailwayNetwork.t) (sid sid' : string) (s : TrackSection.t) :
  sid ≠ sid' →
  RailwayNetwork.sections (RailwayNetwork.store net sid s) !! sid'
  = RailwayNetwork.sections net !! sid'.
Proof. intros. unfold RailwayNetwork.store. simpl. now apply lookup_insert_ne. Qed.

(** One call either leaves a given section as it was or takes it through a
    [section_step]. *)
Lemma call_section (op : Op) (net net' : RailwayNetwork.t) (b : bool) (sid : string) :
  call op net = Py.Ok (b, net') →
  RailwayNetwork.sections net' !! sid = RailwayNetwork.sections net !! sid
  ∨ ∃ s s', RailwayNetwork.sections net !! sid = Some s
            ∧ RailwayNetwork.sections net' !! sid = Some s'
            ∧ section_step s s'.
Proof.
  destruct op as [k t|k t|k t]; simpl; intros H.
  - apply reserve_section_inv in H as [[_ ->]|(s & Hs & Hst & Hres & _ & ->)]; [now left|].
    destruct (decide (k = sid)) as [->|Hne].
    + right. exists s. eexists. split; [exact Hs|]. split; [apply store_lookup|].
      now constructor.
    + left. now apply store_lookup_ne.
  - apply occupy_section_inv in H as [[_ ->]|(s & Hs & Hst & Hlen & _ & ->)]; [now left|].
    destruct (decide (k = sid)) as [->|Hne].
    + right. exists s. eexists. split; [exact Hs|]. split; [apply store_lookup|].
      now constructor.
    + left. now apply store_lookup_ne.
  - apply release_section_inv in H as [(_ & -> & _)|(s & occ & Hs & Hin & Hr & _ & ->)]; [now left|].
    destruct (decide (k = sid)) as [->|Hne].
    + right. exists s. eexists. split; [exact Hs|]. split; [apply store_lookup|].
      now apply (step_release s t occ).
    + left. now apply store_lookup_ne.
Qed.

Lemma call_returns (op : Op) (net : RailwayNetwork.t) :
  ∃ b net', call op net = Py.Ok (b, net').
Proof.
  destruct op; simpl;
    [apply reserve_section_returns | apply occupy_section_returns
     | apply release_section_returns].
Qed.

(** A sequence of calls always runs to the end. *)
Lemma run_returns (ops : list Op) (net : RailwayNetwork.t) :
  ∃ net', run ops net = Py.Ok net'.
Proof.
  revert net. induction ops as [|op ops IH]; intros net; simpl; [eauto|].
  destruct (call_returns op net) as (b & net1 & ->). simpl. apply IH.
Qed.

(** A property of sections kept by every [section_step] is kept, section by
    section, by every sequence of calls. *)
Lemma run_invariant (P : TrackSection.t → Prop) :
  (∀ s s', section_step s s' → P s → P s') →
  ∀ (ops : list Op) (net net' : RailwayNetwork.t) (sid : string),
    run ops net = Py.Ok net' →
    (∀ s, RailwayNetwork.sections net !! sid = Some s → P s) →
    ∀ s, RailwayNetwork.sections net' !! sid = Some s → P s.
Proof.
  intros Hstep ops. induction ops as [|op ops IH]; intros net net' sid; simpl.
  - intros [= <-]. auto.
  - intros Hrun HP.
    apply bind_Ok in Hrun as ([b net1] & Hcall & Hrun). simpl in Hrun.
    apply (IH net1 net' sid Hrun).
    intros s1 Hs1.
    destruct (call_section _ _ _ _ sid Hcall) as [Heq|(s & s' & Hs & Hs' & Hst)].
    + apply HP. congruence.
    + assert (s' = s1) as -> by congruence. eauto.
Qed.

Lemma step_within_capacity (s s' : TrackSection.t) :
  section_step s s' →
  Z.of_nat (length (TrackSection.occupying_trains s)) <= TrackSection.max_trains s →
  Z.of_nat (length (TrackSection.occupying_trains s')) <= TrackSection.max_trains s'.
Proof.
  intros Hst Hle. destruct Hst as [s t H1 H2|s t H1 H2|s t occ Hin Hr]; simpl; auto.
  - rewrite length_app. simpl. lia.
  - destruct (remove_elem _ _ Hin) as (occ' & Hr' & Hlen & _).
    assert (occ' = occ) as -> by congruence. lia.
Qed.

Lemma step_occupied_while_held (s s' : TrackSection.t) :
  section_step s s' → occupied_while_held s → occupied_while_held s'.
Proof.
  unfold occupied_while_held.
  intros Hst HK. destruct Hst as [s t H1 H2|s t H1 H2|s t occ Hin Hr]; simpl; auto.
  - intros Hne. specialize (HK Hne). congruence.
  - destruct occ as [|x occ]; [congruence|]. intros _. apply HK.
    intros Hnil. rewrite Hnil in Hin. inversion Hin.
Qed.

Lemma step_single_occupancy (s s' : TrackSection.t) :
  section_step s s' → single_occupancy s → single_occupancy s'.
Proof.
  intros Hst [Hlen HK]. split; [|now apply (step_occupied_while_held s)].
  destruct Hst as [s t H1 H2|s t [H1|H1] H2|s t occ Hin Hr]; simpl; auto.
  - destruct (TrackSection.occupying_trains s) as [|x l] eqn:Hocc; [simpl; lia|].
    assert (TrackSection.current_status s = SectionStatus.OCCUPIED)
      by (apply HK; rewrite Hocc; congruence).
    congruence.
  - destruct (TrackSection.occupying_trains s) as [|x l] eqn:Hocc; [simpl; lia|].
    assert (TrackSection.current_status s = SectionStatus.OCCUPIED)
      by (apply HK; rewrite Hocc; congruence).
    congruence.
  - destruct (remove_elem _ _ Hin) as (occ' & Hr' & Hlen' & _).
    assert (occ' = occ) as -> by congruence. lia.
Qed.

Lemma occupy_section_occupied (net : RailwayNetwork.t) (sid tid : string) (s : TrackSection.t) :
  RailwayNetwork.sections net !! sid = Some s →
  TrackSection.current_status s = SectionStatus.OCCUPIED →
  RailwayNetwork.occupy_section net sid tid = Py.Ok (false, net).
Proof.
  intros Hs Hst. unfold RailwayNetwork.occupy_section. rewrite Hs, Hst.
  reflexivity.
Qed.

Lemma release_section_twice (net net1 : RailwayNetwork.t) (sid tid : string) :
  NoDup (occupants net sid) →
  RailwayNetwork.release_section net sid tid = Py.Ok (true, net1) →
  released net1 sid tid.
Proof.
  intros Hnd H.
  apply release_section_inv in H as [(? & _)|(s & occ & Hs & Hin & Hr & _ & ->)];
    [discriminate|].
  unfold released, occupants in *. rewrite store_lookup. rewrite Hs in Hnd. simpl.
  destruct (remove_elem _ _ Hin) as (occ' & Hr' & _ & _ & Hfresh).
  assert (occ' = occ) as -> by congruence. auto.
Qed.

(** C7.  [reserve_section], [occupy_section] and [release_section] always
    return a boolean with the network (they never raise); a call that returns
    [False] leaves the whole network, hence the section's status, occupants
    and reservation, as it was; and releasing a train again once it is no
    longer an occupant of the section fails and changes nothing.  The last
    conjunct covers two calls in a row on a section that lists no train
    twice. *)
Theorem occupancy_operations_fail_safe (net : RailwayNetwork.t) (sid tid : string) :
  (∃ b net', RailwayNetwork.reserve_section net sid tid = Py.Ok (b, net'))
  ∧ (∃ b net', RailwayNetwork.occupy_section net sid tid = Py.Ok (b, net'))
  ∧ (∃ b net', RailwayNetwork.release_section net sid tid = Py.Ok (b, net'))
  ∧ (∀ net', RailwayNetwork.reserve_section net sid tid = Py.Ok (false, net') → net' = net)
  ∧ (∀ net', RailwayNetwork.occupy_section net sid tid = Py.Ok (false, net') → net' = net)
  ∧ (∀ net', RailwayNetwork.release_section net sid tid = Py.Ok (false, net') → net' = net)
  ∧ (∀ b net1, RailwayNetwork.release_section net sid tid = Py.Ok (b, net1) →
       released net1 sid tid →
       RailwayNetwork.release_section net1 sid tid = Py.Ok (false, net1))
  ∧ (NoDup (occupants net sid) →
     ∀ net1, RailwayNetwork.release_section net sid tid = Py.Ok (true, net1) →
       RailwayNetwork.release_section net1 sid tid = Py.Ok (false, net1)).
Proof.
  split; [apply reserve_section_returns|].
  split; [apply occupy_section_returns|].
  split; [apply release_section_returns|].
  split.
  { intros net' H. apply reserve_section_inv in H as [[_ ->]|(s & _ & _ & _ & Hb & _)];
      [reflexivity | discriminate]. }
  split.
  { intros net' H. apply occupy_section_inv in H as [[_ ->]|(s & _ & _ & _ & Hb & _)];
      [reflexivity | discriminate]. }
  split.
  { intros net' H.
    apply release_section_inv in H as [(_ & -> & _)|(s & occ & _ & _ & _ & Hb & _)];
      [reflexivity | discriminate]. }
  split.
  { intros b net1 _ Hrel. now apply release_section_released. }
  intros Hnd net1 H. apply release_section_released.
  now apply (release_section_twice net).
Qed.

(** The test script's sequence on the sample network: reserve, occupy and
    release [SEC_001] for [T001] succeed; a second release fails and leaves
    the network as it is. *)
Lemma occupancy_operations_fail_safe_witness :
  ∃ net1 net2 net3,
    RailwayNetwork.reserve_section create_sample_network "SEC_001" "T001" = Py.Ok (true, net1)
    ∧ RailwayNetwork.occupy_section net1 "SEC_001" "T001" = Py.Ok (true, net2)
    ∧ RailwayNetwork.release_section net2 "SEC_001" "T001" = Py.Ok (true, net3)
    ∧ RailwayNetwork.release_section net3 "SEC_001" "T001" = Py.Ok (false, net3).
Proof.
  eexists _, _, _.
  split; [vm_compute; reflexivity|].
  split; [vm_compute; reflexivity|].
  assert (H : ∀ (net2 net3 : RailwayNetwork.t),
             NoDup (occupants net2 "SEC_001") →
             RailwayNetwork.release_section net2 "SEC_001" "T001" = Py.Ok (true, net3) →
             RailwayNetwork.release_section net2 "SEC_001" "T001" = Py.Ok (true, net3)
             ∧ RailwayNetwork.release_section net3 "SEC_001" "T001" = Py.Ok (false, net3)).
  { intros net2 net3 Hnd Hrel. split; [exact Hrel|].
    exact (proj2 (proj2 (proj2 (proj2 (proj2 (proj2 (proj2
             (occupancy_operations_fail_safe net2 "SEC_001" "T001")))))))
             Hnd net3 Hrel). }
  apply H.
  - vm_compute. repeat constructor. apply not_elem_of_nil.
  - vm_compute. reflexivity.
Defined.

(** C10.  [occupy_section] succeeds only on a section whose status is
    available or reserved and whose occupants are below capacity, and leaves
    it occupied; after a successful occupy, whatever calls follow, a further
    [occupy_section] on that section fails as long as it has an occupant; so a
    section that starts without occupants never holds more than one train,
    whatever its [max_trains]; and [len(occupying_trains) <= max_trains] is
    kept by every sequence of reserve, occupy and release calls, each of which
    runs to its end. *)
Theorem occupy_section_single_occupancy (net : RailwayNetwork.t) (sid tid : string) :
  (∀ net', RailwayNetwork.occupy_section net sid tid = Py.Ok (true, net') →
     ∃ s, RailwayNetwork.sections net !! sid = Some s
          ∧ (TrackSection.current_status s = SectionStatus.AVAILABLE
             ∨ TrackSection.current_status s = SectionStatus.RESERVED)
          ∧ Z.of_nat (length (TrackSection.occupying_trains s)) < TrackSection.max_trains s
          ∧ RailwayNetwork.sections net' !! sid
            = Some (TrackSection.set_state s SectionStatus.OCCUPIED
                      (TrackSection.occupying_trains s ++ [tid]) None))
  ∧ (∀ net1 ops net2 tid',
       RailwayNetwork.occupy_section net sid tid = Py.Ok (true, net1) →
       run ops net1 = Py.Ok net2 →
       occupants net2 sid ≠ [] →
       RailwayNetwork.occupy_section net2 sid tid' = Py.Ok (false, net2))
  ∧ (∀ ops, ∃ net', run ops net = Py.Ok net')
  ∧ (∀ ops net', occupants net sid = [] → run ops net = Py.Ok net' →
       (length (occupants net' sid) ≤ 1)%nat)
  ∧ (∀ ops net', within_capacity net sid → run ops net = Py.Ok net' →
       within_capacity net' sid).
Proof.
  split.
  { intros net' H.
    apply occupy_section_inv in H as [[? _]|(s & Hs & Hst & Hlen & _ & ->)];
      [discriminate|].
    exists s. rewrite store_lookup. auto. }
  split.
  { intros net1 ops net2 tid' Hocc Hrun Hne.
    apply occupy_section_inv in Hocc as [[? _]|(s & Hs & Hst & Hlen & _ & ->)];
      [discriminate|].
    unfold occupants in Hne.
    destruct (RailwayNetwork.sections net2 !! sid) as [s2|] eqn:Hs2; [|congruence].
    apply (occupy_section_occupied _ _ _ s2 Hs2).
    apply (run_invariant occupied_while_held step_occupied_while_held
             ops _ net2 sid Hrun); [|exact Hs2|exact Hne].
    intros s1. rewrite store_lookup. intros [= <-] _. reflexivity. }
  split; [intros ops; apply run_returns|].
  split.
  { intros ops net' Hempty Hrun. unfold occupants in *.
    destruct (RailwayNetwork.sections net' !! sid) as [s'|] eqn:Hs'; [|simpl; lia].
    apply (run_invariant single_occupancy step_single_occupancy
             ops net net' sid Hrun); [|exact Hs'].
    intros s Hs. rewrite Hs in Hempty. split; [rewrite Hempty; simpl; lia|].
    intros Hne. congruence. }
  intros ops net' Hcap Hrun s' Hs'.
  apply (run_invariant
           (λ s, Z.of_nat (length (TrackSection.occupying_trains s))
                 <= TrackSection.max_trains s)
           step_within_capacity ops net net' sid Hrun); auto.
Qed.

(** A yard that admits two trains: once [T001] is in, [T002] is refused,
    although [check_section_capacity] still reports room. *)
Lemma occupy_section_single_occupancy_witness :
  ∃ net1,
    RailwayNetwork.occupy_section yard_network "YARD_1" "T001" = Py.Ok (true, net1)
    ∧ RailwayNetwork.check_section_capacity net1 "YARD_1" = true
    ∧ RailwayNetwork.occupy_section net1 "YARD_1" "T002" = Py.Ok (false, net1).
Proof.
  eexists. split; [vm_compute; reflexivity|]. split; [vm_compute; reflexivity|].
  eapply (proj1 (proj2 (occupy_section_single_occupancy yard_network "YARD_1" "T001"))
            _ [] _ "T002").
  - vm_compute. reflexivity.
  - reflexivity.
  - vm_compute. discriminate.
Defined.

(** ** optimization/simple_scheduler.py: sorting *)

Section SortedFacts.
Context {A : Type}.

Lemma insert_desc_perm (x : Q * A) (l : list (Q * A)) :
  Permutation (PySort.insert_desc x l) (x :: l).
Proof.
  induction l as [|y l IH]; simpl; [reflexivity|].
  destruct (Qle_bool (fst y) (fst x)); [reflexivity|].
  rewrite IH. apply perm_swap.
Qed.

Lemma sort_desc_perm (l : list (Q * A)) : Permutation (PySort.sort_desc l) l.
Proof.
  induction l as [|x l IH]; simpl; [reflexivity|].
  rewrite insert_desc_perm. now constructor.
Qed.

Lemma map_result_keyed (key : A → Py.result Q) (l : list A) (ks : list (Q * A)) :
  Py.map_result (PySort.keyed key) l = Py.Ok ks → map snd ks = l.
Proof.
  revert ks. induction l as [|x l IH]; simpl; intros ks.
  - intros [= <-]. reflexivity.
  - unfold PySort.keyed at 1.
    destruct (key x) as [q|e]; simpl; [|discriminate].
    destruct (Py.map_result (PySort.keyed key) l) as [ks'|e]; simpl; [|discriminate].
    intros [= <-]. simpl. f_equal. now apply IH.
Qed.

Lemma map_result_total (key : A → Py.result Q) (l : list A) :
  (∀ x, x ∈ l → ∃ q, key x = Py.Ok q) →
  ∃ ks, Py.map_result (PySort.keyed key) l = Py.Ok ks.
Proof.
  induction l as [|x l IH]; simpl; intros Hkey; [eauto|].
  destruct (Hkey x) as [q Hq]; [constructor|].
  destruct IH as [ks Hks]; [intros y Hy; apply Hkey; now constructor|].
  unfold PySort.keyed at 1. rewrite Hq. simpl. rewrite Hks. simpl. eauto.
Qed.

(** When the sort returns, every key was computed. *)
Lemma map_result_keys (key : A → Py.result Q) (l : list A) (ks : list (Q * A)) :
  Py.map_result (PySort.keyed key) l = Py.Ok ks →
  ∀ x, x ∈ l → ∃ q, key x = Py.Ok q.
Proof.
  revert ks. induction l as [|y l IH]; simpl; intros ks Hks x Hx.
  - inversion Hx.
  - unfold PySort.keyed at 1 in Hks.
    destruct (key y) as [q|e] eqn:Hq; simpl in Hks; [|discriminate].
    destruct (Py.map_result (PySort.keyed key) l) as [ks'|e] eqn:Hl; simpl in Hks;
      [|discriminate].
    inversion Hx; subst; [eauto|]. now apply (IH ks').
Qed.

(** [sorted] returns a rearrangement of its input. *)
Lemma sorted_reverse_perm (key : A → Py.result Q) (l l' : list A) :
  PySort.sorted_reverse key l = Py.Ok l' → Permutation l' l.
Proof.
  unfold PySort.sorted_reverse. intros H.
  apply bind_Ok in H as (ks & Hks & [= <-]).
  rewrite <- (map_result_keyed key l ks Hks).
  apply Permutation_map, sort_desc_perm.
Qed.

Lemma sorted_reverse_total (key : A → Py.result Q) (l : list A) :
  (∀ x, x ∈ l → ∃ q, key x = Py.Ok q) →
  ∃ l', PySort.sorted_reverse key l = Py.Ok l'.
Proof.
  intros Hkey. destruct (map_result_total key l Hkey) as [ks Hks].
  unfold PySort.sorted_reverse. rewrite Hks. simpl. eauto.
Qed.

Lemma sorted_reverse_keys (key : A → Py.result Q) (l l' : list A) :
  PySort.sorted_reverse key l = Py.Ok l' →
  ∀ x, x ∈ l → ∃ q, key x = Py.Ok q.
Proof.
  unfold PySort.sorted_reverse. intros H.
  apply bind_Ok in H as (ks & Hks & _). now apply (map_result_keys key l ks).
Qed.

(** A key that raises on the first element makes [sorted] raise. *)
Lemma sorted_reverse_raises (key : A → Py.result Q) (x : A) (l : list A) (e : Py.exn) :
  key x = Py.Err e → PySort.sorted_reverse key (x :: l) = Py.Err e.
Proof.
  intros He. unfold PySort.sorted_reverse. simpl. unfold PySort.keyed at 1.
  now rewrite He.
Qed.

End SortedFacts.

(** ** optimization/simple_scheduler.py: the travel-time estimator *)

Lemma buffer_get_kind (k : SectionType.t) :
  buffer_get (SectionType.value k) 2 = section_buffer k.
Proof. destruct k; reflexivity. Qed.

(** [int] returns the integer part of the number its argument stands for. *)
Lemma int_truncate (x : float) (m : Z) :
  Py.int x = Py.Ok m → m = truncate (float_value x).
Proof.
  unfold Py.int, float_value, truncate.
  destruct (Prim2SF x) as [s|s| |s mx e]; try discriminate.
  - intros [= <-]. reflexivity.
  - intros [= <-]. destruct e as [|p|p].
    + change (0 <=? 0) with true. cbv iota.
      destruct s; simpl; rewrite ?Z.quot_1_r; lia.
    + change (0 <=? Z.pos p) with true. cbv iota.
      destruct s; unfold Qopp, inject_Z; cbn [Qnum Qden];
        rewrite Z.quot_1_r; reflexivity.
    + change (0 <=? Z.neg p) with false. cbv iota.
      change (- Z.neg p) with (Z.pos p).
      assert (Z.pos (2 ^ p) = 2 ^ Z.pos p) as Hpow by apply Pos2Z.inj_pow.
      destruct s; unfold Qopp; cbn [Qnum Qden]; rewrite Hpow.
      * rewrite Z.quot_opp_l by lia. f_equal.
        symmetry. apply Z.quot_div_nonneg; lia.
      * symmetry. apply Z.quot_div_nonneg; lia.
Qed.

(** On a number that is not negative the integer part is the floor. *)
Lemma truncate_floor (x : Q) : (0 <= x)%Q → truncate x = Qfloor x.
Proof.
  destruct x as [n d]. unfold Qle, truncate, Qfloor. simpl. intros Hn.
  rewrite Z.mul_1_r in Hn. apply Z.quot_div_nonneg; lia.
Qed.

Lemma float_of_int_60 : Py.float_of_int 60 = Py.Ok 60%float.
Proof. vm_compute. reflexivity. Qed.

(** The estimate for a known section and a positive speed that converts to
    the double [v]. *)
Lemma estimate_known (net : RailwayNetwork.t) (train : Train.t) (sid : string)
    (section : TrackSection.t) (v : float) :
  RailwayNetwork.sections net !! sid = Some section →
  0 < Z.min (Train.max_speed train) (TrackSection.max_speed_limit section) →
  Py.float_of_int (Z.min (Train.max_speed train) (TrackSection.max_speed_limit section))
  = Py.Ok v →
  SimpleTrainScheduler._estimate_section_travel_time net train sid
  = (travel_minutes ← Py.int (TrackSection.length_km section / v * 60)%float;
     Py.Ok (Z.max (travel_minutes + section_buffer (TrackSection.section_type section)) 1)).
Proof.
  intros Hs Hspeed Hv. unfold SimpleTrainScheduler._estimate_section_travel_time.
  rewrite Hs. cbv zeta.
  rewrite (proj2 (Z.ltb_lt _ _) Hspeed).
  unfold Py.truediv, Py.mul.
  rewrite (proj2 (Z.eqb_neq _ _)) by lia.
  rewrite Hv, float_of_int_60. cbn [mbind result_bind Py.bind].
  now rewrite buffer_get_kind.
Qed.

Lemma estimate_unconvertible (net : RailwayNetwork.t) (train : Train.t) (sid : string)
    (section : TrackSection.t) (e : Py.exn) :
  RailwayNetwork.sections net !! sid = Some section →
  0 < Z.min (Train.max_speed train) (TrackSection.max_speed_limit section) →
  Py.float_of_int (Z.min (Train.max_speed train) (TrackSection.max_speed_limit section))
  = Py.Err e →
  SimpleTrainScheduler._estimate_section_travel_time net train sid = Py.Err e.
Proof.
  intros Hs Hspeed Hv. unfold SimpleTrainScheduler._estimate_section_travel_time.
  rewrite Hs. cbv zeta.
  rewrite (proj2 (Z.ltb_lt _ _) Hspeed).
  unfold Py.truediv.
  rewrite (proj2 (Z.eqb_neq _ _)) by lia.
  now rewrite Hv.
Qed.

Lemma estimate_unknown (net : RailwayNetwork.t) (train : Train.t) (sid : string) :
  RailwayNetwork.sections net !! sid = None →
  SimpleTrainScheduler._estimate_section_travel_time net train sid = Py.Ok 10.
Proof.
  intros Hs. unfold SimpleTrainScheduler._estimate_section_travel_time.
  now rewrite Hs.
Qed.

(** An estimate that is returned is at least one minute, on every train and
    section id. *)
Lemma estimate_positive (net : RailwayNetwork.t) (train : Train.t) (sid : string) (d : Z) :
  SimpleTrainScheduler._estimate_section_travel_time net train sid = Py.Ok d → 1 <= d.
Proof.
  unfold SimpleTrainScheduler._estimate_section_travel_time.
  destruct (RailwayNetwork.sections net !! sid) as [s|]; [|intros [= <-]; lia].
  cbv zeta. destruct (0 <? _); [|intros [= <-]; lia].
  destruct (Py.truediv _ _) as [hours|e]; [|discriminate].
  cbn [mbind result_bind Py.bind].
  destruct (Py.mul _ _) as [product|e]; [|discriminate].
  cbn [mbind result_bind Py.bind].
  destruct (Py.int _) as [minutes|e]; [|discriminate].
  cbn [mbind result_bind Py.bind]. intros [= <-]. lia.
Qed.

(** C9, as the code has it.  For a section of the topology and a positive
    effective speed, the estimate is computed in double precision: the speed
    is converted to a double, the length is divided by it and the quotient
    multiplied by 60, each of the two results being rounded to the nearest
    double.  When that product is finite the estimate is its integer part,
    rounded toward zero, plus the buffer of the section kind (platform 5,
    junction 3, single line 2, double line 1, any other kind 2), and at
    least 1; the rounding is the floor whenever the product is not negative.
    When the product is an infinity or a NaN, [int] raises and there is no
    estimate.  For a section that is not in the topology the estimate
    is 10. *)
Theorem estimate_section_travel_time_formula
    (net : RailwayNetwork.t) (train : Train.t) (sid : string) :
  (∀ section v product,
     RailwayNetwork.sections net !! sid = Some section →
     0 < Z.min (Train.max_speed train) (TrackSection.max_speed_limit section) →
     Py.float_of_int (Z.min (Train.max_speed train) (TrackSection.max_speed_limit section))
     = Py.Ok v →
     product = (TrackSection.length_km section / v * 60)%float →
     (∀ minutes,
        Py.int product = Py.Ok minutes →
        SimpleTrainScheduler._estimate_section_travel_time net train sid
        = Py.Ok (Z.max (truncate (float_value product)
                        + section_buffer (TrackSection.section_type section)) 1)
        ∧ ((0 <= float_value product)%Q →
           SimpleTrainScheduler._estimate_section_travel_time net train sid
           = Py.Ok (Z.max (Qfloor (float_value product)
                           + section_buffer (TrackSection.section_type section)) 1)))
     ∧ (∀ e,
          Py.int product = Py.Err e →
          SimpleTrainScheduler._estimate_section_travel_time net train sid = Py.Err e))
  ∧ (RailwayNetwork.sections net !! sid = None →
     SimpleTrainScheduler._estimate_section_travel_time net train sid = Py.Ok 10).
Proof.
  split; [|apply estimate_unknown].
  intros section v product Hs Hspeed Hv ->.
  rewrite (estimate_known net train sid section v Hs Hspeed Hv).
  split.
  - intros minutes Hint. rewrite Hint. cbn [mbind result_bind Py.bind].
    rewrite (int_truncate _ _ Hint).
    split; [reflexivity|].
    intros Hnn. now rewrite truncate_floor.
  - intros e Hint. now rewrite Hint.
Qed.

(** On the sample network [T001] needs 10 minutes for [SEC_001]
    (15.5 km at 100 km/h is 9.3 minutes, plus 1 for a double line), and 10
    minutes for a section the network does not know. *)
Lemma estimate_section_travel_time_formula_witness :
  SimpleTrainScheduler._estimate_section_travel_time create_sample_network T001 "SEC_001"
  = Py.Ok 10
  ∧ SimpleTrainScheduler._estimate_section_travel_time create_sample_network T001 "SEC_404"
    = Py.Ok 10.
Proof.
  pose proof (estimate_section_travel_time_formula create_sample_network T001 "SEC_001")
    as [Hknown _].
  pose proof (estimate_section_travel_time_formula create_sample_network T001 "SEC_404")
    as [_ Hunknown].
  split.
  - destruct (Hknown (TrackSection.new "SEC_001" "Main Line Section 1"
                        SectionType.DOUBLE_LINE 15.5%float)
                100%float (15.5 / 100 * 60)%float) as [Hfinite _].
    + vm_compute. reflexivity.
    + vm_compute. reflexivity.
    + vm_compute. reflexivity.
    + reflexivity.
    + destruct (Hfinite 9) as [_ Hfloor]; [vm_compute; reflexivity|].
      rewrite Hfloor; [vm_compute; reflexivity | vm_compute; discriminate].
  - apply Hunknown. vm_compute. reflexivity.
Defined.

(** C9 as stated fails: on a siding of 0.3 km run at 18 km/h the exact value
    of [length_km / speed * 60] lies just below 1, the double nearest to 0.3
    being smaller than 0.3, and its floor is 0; in double precision the
    quotient and the product are rounded and the product is exactly 1.  The
    code returns 1 + 2 = 3 minutes, the formula of the claim gives 2. *)
Lemma estimate_floor_counterexample :
  ∃ section,
    RailwayNetwork.sections siding_network !! "SID_1" = Some section
    ∧ 0 < Z.min (Train.max_speed T001) (TrackSection.max_speed_limit section)
    ∧ SimpleTrainScheduler._estimate_section_travel_time siding_network T001 "SID_1"
      = Py.Ok 3
    ∧ spec_travel_time (float_value (TrackSection.length_km section))
        (Z.min (Train.max_speed T001) (TrackSection.max_speed_limit section))
        (TrackSection.section_type section)
      = 2.
Proof.
  eexists. split; [vm_compute; reflexivity|].
  repeat split; vm_compute; reflexivity.
Qed.

(** ** optimization/simple_scheduler.py: scheduling one train *)

Section SingleTrain.

Variable net : RailwayNetwork.t.
Variable train : Train.t.

Abbreviation estimate := (SimpleTrainScheduler._estimate_section_travel_time net train).
Abbreviation route_loop := (SimpleTrainScheduler.route_loop net train).

(** One turn of the loop that returns: the estimate was returned, and so was
    the rest of the loop, started when the first segment ends. *)
Lemma route_loop_cons (sid : string) (route : list string) (c : Z)
    (segs : list SectionSchedule.t) :
  route_loop (sid :: route) c = Py.Ok segs →
  ∃ d rest,
    estimate sid = Py.Ok d
    ∧ route_loop route (c + d) = Py.Ok rest
    ∧ segs = SectionSchedule.mk sid c (c + d) d :: rest.
Proof.
  cbn [SimpleTrainScheduler.route_loop]. intros H.
  apply bind_Ok in H as (d & Hd & H).
  apply bind_Ok in H as (rest & Hrest & H).
  injection H as <-. eauto.
Qed.

Lemma route_loop_sections (route : list string) (c : Z) (segs : list SectionSchedule.t) :
  route_loop route c = Py.Ok segs →
  map SectionSchedule.section_id segs = route.
Proof.
  revert c segs. induction route as [|sid route IH]; intros c segs H.
  - injection H as <-. reflexivity.
  - apply route_loop_cons in H as (d & rest & _ & Hrest & ->).
    simpl. now rewrite (IH _ _ Hrest).
Qed.

(** Every segment lasts exactly the estimate for its section. *)
Lemma route_loop_durations (route : list string) (c : Z) (segs : list SectionSchedule.t) :
  route_loop route c = Py.Ok segs →
  Forall
    (λ seg,
       estimate (SectionSchedule.section_id seg) = Py.Ok (SectionSchedule.duration seg)
       ∧ SectionSchedule.end_time seg
         = SectionSchedule.start_time seg + SectionSchedule.duration seg)
    segs.
Proof.
  revert c segs. induction route as [|sid route IH]; intros c segs H.
  - injection H as <-. constructor.
  - apply route_loop_cons in H as (d & rest & Hd & Hrest & ->).
    constructor; [simpl; auto | now apply (IH (c + d))].
Qed.

(** No segment starts before the loop's start time. *)
Lemma route_loop_starts (route : list string) (c : Z) (segs : list SectionSchedule.t) :
  route_loop route c = Py.Ok segs →
  Forall (λ seg, c <= SectionSchedule.start_time seg) segs.
Proof.
  revert c segs. induction route as [|sid route IH]; intros c segs H.
  - injection H as <-. constructor.
  - apply route_loop_cons in H as (d & rest & Hd & Hrest & ->).
    constructor; [simpl; lia|].
    pose proof (estimate_positive net train sid d Hd).
    eapply Forall_impl; [apply (IH _ _ Hrest)|]. simpl. intros seg Hseg. lia.
Qed.

Lemma route_loop_head (route : list string) (c : Z) (segs : list SectionSchedule.t)
    (seg : SectionSchedule.t) :
  route_loop route c = Py.Ok segs →
  segs !! 0%nat = Some seg → SectionSchedule.start_time seg = c.
Proof.
  destruct route as [|sid route]; intros H.
  - injection H as <-. discriminate.
  - apply route_loop_cons in H as (d & rest & _ & _ & ->). now intros [= <-].
Qed.

(** Each segment starts when the one before it ends. *)
Lemma route_loop_back_to_back (route : list string) (c : Z) (segs : list SectionSchedule.t)
    (i : nat) (a b : SectionSchedule.t) :
  route_loop route c = Py.Ok segs →
  segs !! i = Some a → segs !! S i = Some b →
  SectionSchedule.start_time b = SectionSchedule.end_time a.
Proof.
  revert c segs i. induction route as [|sid route IH]; intros c segs i H.
  - injection H as <-. discriminate.
  - apply route_loop_cons in H as (d & rest & _ & Hrest & ->).
    destruct i as [|i]; simpl.
    + intros [= <-] Hb. simpl. now apply (route_loop_head route (c + d) rest).
    + now apply (IH (c + d)).
Qed.

Lemma route_loop_chained (route : list string) (c : Z) (segs : list SectionSchedule.t) :
  route_loop route c = Py.Ok segs → chained segs.
Proof.
  intros H i a b Ha Hb. rewrite (route_loop_back_to_back route c segs i a b H Ha Hb). lia.
Qed.

(** At any instant at most one segment of the train is running. *)
Lemma route_loop_one_at_a_time (route : list string) (c t : Z)
    (segs : list SectionSchedule.t) :
  route_loop route c = Py.Ok segs →
  (length (List.filter (running t) segs) ≤ 1)%nat.
Proof.
  revert c segs. induction route as [|sid route IH]; intros c segs H.
  - injection H as <-. simpl. lia.
  - apply route_loop_cons in H as (d & rest & Hd & Hrest & ->).
    cbn [List.filter]. unfold running at 1. simpl.
    destruct ((c <=? t) && (t <? c + d)) eqn:Hact; [|now apply (IH (c + d))].
    simpl. apply andb_true_iff in Hact as [_ Hlt]. apply Z.ltb_lt in Hlt.
    assert (Hnone : List.filter (running t) rest = []).
    { pose proof (route_loop_starts route (c + d) rest Hrest) as Hst.
      clear Hrest.
      induction Hst as [|seg l Hseg _ IHl]; simpl; [reflexivity|].
      unfold running at 1.
      replace (SectionSchedule.start_time seg <=? t) with false
        by (symmetry; apply Z.leb_gt; lia).
      simpl. exact IHl. }
    rewrite Hnone. simpl. lia.
Qed.

Lemma filter_active_le (sid : string) (t : Z) (segs : list SectionSchedule.t) :
  (length (List.filter (active sid t) segs)
   ≤ length (List.filter (running t) segs))%nat.
Proof.
  induction segs as [|seg segs IH]; simpl; [lia|].
  unfold active at 1.
  destruct (bool_decide (SectionSchedule.section_id seg = sid)); simpl;
    destruct (running t seg); simpl; lia.
Qed.

Lemma filter_active_routed (sid : string) (t : Z) (segs : list SectionSchedule.t) :
  existsb (λ seg, bool_decide (SectionSchedule.section_id seg = sid)) segs = false →
  List.filter (active sid t) segs = [].
Proof.
  induction segs as [|seg segs IH]; simpl; [reflexivity|].
  intros H. apply orb_false_iff in H as [Hseg Hrest].
  unfold active at 1. rewrite Hseg. simpl. auto.
Qed.

(** What [_schedule_single_train] returns: nothing for a train without a
    route, else the segments of [route_loop] from minute 0. *)
Lemma schedule_single_train_inv (ts : TrainSchedule.t) :
  SimpleTrainScheduler._schedule_single_train net train = Py.Ok (Some ts) →
  SimpleTrainScheduler._get_train_route net train ≠ []
  ∧ ∃ segs,
      route_loop (SimpleTrainScheduler._get_train_route net train) 0 = Py.Ok segs
      ∧ ts = TrainSchedule.mk (Train.train_id train) (Train.train_number train)
               (TrainPriority.value (Train.priority train)) segs.
Proof.
  unfold SimpleTrainScheduler._schedule_single_train.
  destruct (SimpleTrainScheduler._get_train_route net train) as [|sid route];
    [discriminate|].
  intros H. apply bind_Ok in H as (segs & Hsegs & H). injection H as <-.
  split; [discriminate | eauto].
Qed.

(** A train is left out exactly when it has no route. *)
Lemma schedule_single_train_none :
  SimpleTrainScheduler._schedule_single_train net train = Py.Ok None
  ↔ SimpleTrainScheduler._get_train_route net train = [].
Proof.
  unfold SimpleTrainScheduler._schedule_single_train.
  destruct (SimpleTrainScheduler._get_train_route net train) as [|sid route].
  - split; reflexivity.
  - split; [|discriminate].
    destruct (SimpleTrainScheduler.route_loop net train (sid :: route) 0); discriminate.
Qed.

(** A scheduled train holds a section with at most one segment at a time, and
    with none when it is not routed through the section. *)
Lemma train_occupancy_bound (ts : TrainSchedule.t) (sid : string) (t : Z) :
  SimpleTrainScheduler._schedule_single_train net train = Py.Ok (Some ts) →
  (train_occupancy sid t ts ≤ if routed_through sid ts then 1 else 0)%nat.
Proof.
  intros Hts. apply schedule_single_train_inv in Hts as [_ (segs & Hsegs & ->)].
  unfold train_occupancy, routed_through. simpl.
  destruct (existsb _ _) eqn:Hr.
  - etransitivity; [apply filter_active_le|].
    exact (route_loop_one_at_a_time _ 0 t segs Hsegs).
  - rewrite filter_active_routed; [simpl; lia | exact Hr].
Qed.

End SingleTrain.

(** ** optimization/simple_scheduler.py: [optimize_schedule] *)

Lemma total_completion_delay_app (l1 l2 : list TrainSchedule.t) :
  total_completion_delay (l1 ++ l2)
  = total_completion_delay l1 + total_completion_delay l2.
Proof.
  unfold total_completion_delay. induction l1 as [|x l1 IH]; simpl; [reflexivity|].
  rewrite IH. lia.
Qed.

Lemma total_completion_delay_perm (l1 l2 : list TrainSchedule.t) :
  Permutation l1 l2 → total_completion_delay l1 = total_completion_delay l2.
Proof.
  unfold total_completion_delay.
  induction 1 as [|x l l' _ IH|x y l|l l' l'' _ IH1 _ IH2]; simpl; lia.
Qed.

Lemma total_completion_delay_cons (ts : TrainSchedule.t) (l : list TrainSchedule.t) :
  total_completion_delay (ts :: l) = completion_delay ts + total_completion_delay l.
Proof. reflexivity. Qed.

Lemma omap_cons {A B : Type} (f : A → option B) (x : A) (l : list A) :
  omap f (x :: l)
  = match f x with
    | Some y => y :: omap f l
    | None => omap f l
    end.
Proof. reflexivity. Qed.

Lemma entry_of_returned (net : RailwayNetwork.t) (train : Train.t)
    (entry : option TrainSchedule.t) :
  SimpleTrainScheduler._schedule_single_train net train = Py.Ok entry →
  entry_of net train = entry.
Proof. unfold entry_of. now intros ->. Qed.

(** The loop of [optimize_schedule], when it returns, has scheduled every
    train without an exception; it has collected, in order, the schedules of
    the trains that have a route, and added up their delays. *)
Lemma train_loop_spec (net : RailwayNetwork.t) (sorted : list Train.t)
    (acc : list TrainSchedule.t) (d : Z) (r : list TrainSchedule.t * Z) :
  SimpleTrainScheduler.train_loop net sorted acc d = Py.Ok r →
  Forall (λ train, SimpleTrainScheduler._schedule_single_train net train
                   = Py.Ok (entry_of net train)) sorted
  ∧ r = (acc ++ omap (entry_of net) sorted,
         d + total_completion_delay (omap (entry_of net) sorted)).
Proof.
  revert acc d. induction sorted as [|train sorted IH]; intros acc d H.
  - injection H as <-. split; [constructor|].
    simpl. rewrite app_nil_r. unfold total_completion_delay. simpl. f_equal. lia.
  - cbn [SimpleTrainScheduler.train_loop] in H.
    apply bind_Ok in H as (entry & Hentry & H).
    rewrite omap_cons, (entry_of_returned net train entry Hentry).
    destruct entry as [ts|]; apply IH in H as [Hall ->].
    + split; [constructor; [now rewrite (entry_of_returned net train _ Hentry) | exact Hall]|].
      rewrite total_completion_delay_cons, <- app_assoc. f_equal.
      unfold completion_delay. destruct (last (TrainSchedule.sections ts)); lia.
    + split; [constructor; [now rewrite (entry_of_returned net train _ Hentry) | exact Hall]|].
      reflexivity.
Qed.

(** What [optimize_schedule] returns when it returns. *)
Lemma optimize_schedule_by_inv (net : RailwayNetwork.t) (key : Train.t → Py.result Q)
    (trains : list Train.t) (h : Z) (sched : Schedule.t) :
  SimpleTrainScheduler.optimize_schedule_by net key trains h = Py.Ok sched →
  ∃ sorted,
    PySort.sorted_reverse key trains = Py.Ok sorted
    ∧ Forall (λ train, SimpleTrainScheduler._schedule_single_train net train
                       = Py.Ok (entry_of net train)) sorted
    ∧ sched = Schedule.mk "optimal" (omap (entry_of net) sorted)
                (Some (metrics_of (length trains) (omap (entry_of net) sorted))).
Proof.
  unfold SimpleTrainScheduler.optimize_schedule_by. intros H.
  apply bind_Ok in H as (sorted & Hsorted & H). exists sorted. split; [exact Hsorted|].
  apply bind_Ok in H as (r & Hloop & H).
  apply train_loop_spec in Hloop as [Hall ->]. split; [exact Hall|].
  cbv beta iota in H.
  apply bind_Ok in H as (average & Havg & H). injection H as <-.
  unfold Py.truediv_int in Havg.
  destruct (_ =? 0); [discriminate|]. destruct (_ <=? _); [discriminate|].
  injection Havg as <-.
  unfold metrics_of. rewrite Z.add_0_l. reflexivity.
Qed.

(** Every entry of a returned schedule is the schedule of one input train. *)
Lemma optimize_schedule_by_entries (net : RailwayNetwork.t) (key : Train.t → Py.result Q)
    (trains : list Train.t) (h : Z) (sched : Schedule.t) :
  SimpleTrainScheduler.optimize_schedule_by net key trains h = Py.Ok sched →
  ∀ ts, ts ∈ Schedule.trains sched →
    ∃ train, train ∈ trains
             ∧ SimpleTrainScheduler._schedule_single_train net train = Py.Ok (Some ts).
Proof.
  intros H ts Hts.
  apply optimize_schedule_by_inv in H as (sorted & Hsorted & Hall & ->). simpl in Hts.
  apply list_elem_of_omap in Hts as (train & Hin & Hsome).
  exists train. split.
  - now rewrite <- (sorted_reverse_perm key trains sorted Hsorted).
  - rewrite Forall_forall in Hall. now rewrite (Hall train Hin), Hsome.
Qed.

(** With the key as written the call raises as soon as there is a train. *)
Lemma optimize_schedule_raises (net : RailwayNetwork.t) (train : Train.t)
    (trains : list Train.t) (h : Z) :
  SimpleTrainScheduler.optimize_schedule net (train :: trains) h
  = Py.Err Py.AttributeError.
Proof.
  unfold SimpleTrainScheduler.optimize_schedule, SimpleTrainScheduler.optimize_schedule_by.
  rewrite (sorted_reverse_raises calculate_priority_score train trains Py.AttributeError);
    [reflexivity | apply calculate_priority_score_AttributeError].
Qed.

(** C5.  In every schedule [optimize_schedule] returns, whatever key orders
    the trains ([calculate_priority_score] or any other), each entry belongs
    to an input train and lists that train's resolved route in order; each segment starts no earlier than the one
    before it ends; and each segment lasts at least the estimated travel time
    of that train on that section, an estimate the estimator returns. *)
Theorem optimize_schedule_precedence_and_duration
    (net : RailwayNetwork.t) (key : Train.t → Py.result Q)
    (trains : list Train.t) (h : Z) (sched : Schedule.t) :
  SimpleTrainScheduler.optimize_schedule_by net key trains h = Py.Ok sched →
  ∀ ts, ts ∈ Schedule.trains sched →
    ∃ train,
      train ∈ trains
      ∧ TrainSchedule.train_id ts = Train.train_id train
      ∧ map SectionSchedule.section_id (TrainSchedule.sections ts)
        = SimpleTrainScheduler._get_train_route net train
      ∧ chained (TrainSchedule.sections ts)
      ∧ Forall
          (λ seg,
             ∃ estimate,
               SimpleTrainScheduler._estimate_section_travel_time net train
                 (SectionSchedule.section_id seg) = Py.Ok estimate
               ∧ estimate
                 <= SectionSchedule.end_time seg - SectionSchedule.start_time seg)
          (TrainSchedule.sections ts).
Proof.
  intros Hopt ts Hts.
  destruct (optimize_schedule_by_entries net key trains h sched Hopt ts Hts)
    as (train & Hin & Hsome).
  exists train. apply schedule_single_train_inv in Hsome as [_ (segs & Hsegs & ->)]. simpl.
  split; [exact Hin|]. split; [reflexivity|].
  split; [exact (route_loop_sections net train _ 0 segs Hsegs)|].
  split; [exact (route_loop_chained net train _ 0 segs Hsegs)|].
  eapply Forall_impl; [exact (route_loop_durations net train _ 0 segs Hsegs)|].
  simpl. intros seg [Hd He]. exists (SectionSchedule.duration seg). split; [exact Hd | lia].
Qed.

(** The three trains of the test script on the sample network, ordered by the
    specification's score. *)
Lemma optimize_schedule_precedence_and_duration_witness :
  ∃ sched,
    SimpleTrainScheduler.optimize_schedule_by create_sample_network spec_key
      [T003; T001; T002] 24 = Py.Ok sched
    ∧ map TrainSchedule.train_id (Schedule.trains sched) = ["T001"; "T002"; "T003"]
    ∧ ∀ ts, ts ∈ Schedule.trains sched →
        ∃ train,
          train ∈ [T003; T001; T002]
          ∧ TrainSchedule.train_id ts = Train.train_id train
          ∧ map SectionSchedule.section_id (TrainSchedule.sections ts)
            = SimpleTrainScheduler._get_train_route create_sample_network train
          ∧ chained (TrainSchedule.sections ts)
          ∧ Forall
              (λ seg,
                 ∃ estimate,
                   SimpleTrainScheduler._estimate_section_travel_time
                     create_sample_network train (SectionSchedule.section_id seg)
                   = Py.Ok estimate
                   ∧ estimate
                     <= SectionSchedule.end_time seg - SectionSchedule.start_time seg)
              (TrainSchedule.sections ts).
Proof.
  eexists. split; [vm_compute; reflexivity|]. split; [reflexivity|].
  apply (optimize_schedule_precedence_and_duration create_sample_network spec_key
           [T003; T001; T002] 24).
  vm_compute. reflexivity.
Defined.

Lemma sum_occupancy_bound (sid : string) (t : Z) (l : list TrainSchedule.t) :
  Forall (λ ts, (train_occupancy sid t ts ≤ if routed_through sid ts then 1 else 0)%nat) l →
  (sum_list (map (train_occupancy sid t) l)
   ≤ length (List.filter (routed_through sid) l))%nat.
Proof.
  induction 1 as [|ts l Hts _ IH]; simpl; [lia|].
  destruct (routed_through sid ts); simpl; lia.
Qed.

(** The scheduling loop reads no capacity.  In a schedule returned under any
    key every scheduled train enters the first section of its route at
    minute 0, and at any instant a section is held by at most one segment of
    each train, so by no more segments than there are scheduled trains routed
    through it. *)
Lemma optimize_schedule_by_occupancy
    (net : RailwayNetwork.t) (key : Train.t → Py.result Q)
    (trains : list Train.t) (h : Z) (sched : Schedule.t) :
  SimpleTrainScheduler.optimize_schedule_by net key trains h = Py.Ok sched →
  (∀ ts, ts ∈ Schedule.trains sched →
     ∃ seg, TrainSchedule.sections ts !! 0%nat = Some seg
            ∧ SectionSchedule.start_time seg = 0)
  ∧ (∀ sid t, (occupancy sched sid t ≤ users sched sid)%nat).
Proof.
  intros Hopt. split.
  - intros ts Hts.
    destruct (optimize_schedule_by_entries net key trains h sched Hopt ts Hts)
      as (train & _ & Hsome).
    apply schedule_single_train_inv in Hsome as [Hroute (segs & Hsegs & ->)]. simpl.
    destruct (SimpleTrainScheduler._get_train_route net train) as [|sid route];
      [congruence|].
    apply route_loop_cons in Hsegs as (d & rest & _ & _ & ->).
    simpl. eauto.
  - intros sid t. unfold occupancy, users. apply sum_occupancy_bound.
    apply Forall_forall. intros ts Hts.
    destruct (optimize_schedule_by_entries net key trains h sched Hopt ts Hts)
      as (train & _ & Hsome).
    now apply (train_occupancy_bound net train).
Qed.



(** C4, at the failing input.  The three trains of the test script have
    non-empty routes that fit a horizon of 24 hours: scheduled alone, each
    completes its route within 1440 minutes.  Yet [optimize_schedule] on the
    sample network returns no schedule for them, neither a feasible one nor
    one reported infeasible: it raises [AttributeError]. *)
Theorem optimize_schedule_raises_on_feasible_input :
  (∀ train, train ∈ [T001; T002; T003] →
     ∃ ts last_section,
       SimpleTrainScheduler._schedule_single_train create_sample_network train
       = Py.Ok (Some ts)
       ∧ last (TrainSchedule.sections ts) = Some last_section
       ∧ SectionSchedule.end_time last_section <= 24 * 60)
  ∧ SimpleTrainScheduler.optimize_schedule create_sample_network [T001; T002; T003] 24
    = Py.Err Py.AttributeError.
Proof.
  split; [|apply optimize_schedule_raises].
  intros train Hin. rewrite !elem_of_cons, elem_of_nil in Hin.
  destruct Hin as [->|[->|[->|[]]]]; eexists _, _;
    (split; [vm_compute; reflexivity|]); (split; [reflexivity|]);
    vm_compute; discriminate.
Qed.

(** ** Determinism *)

Section SameTopology.

Variables net net' : RailwayNetwork.t.
Hypothesis Hsame : same_topology net net'.

Lemma get_train_route_same (train : Train.t) :
  SimpleTrainScheduler._get_train_route net train
  = SimpleTrainScheduler._get_train_route net' train.
Proof.
  unfold SimpleTrainScheduler._get_train_route, RailwayNetwork.get_route_sections.
  destruct Hsame as [-> _]. reflexivity.
Qed.

Lemma estimate_same (train : Train.t) (sid : string) :
  SimpleTrainScheduler._estimate_section_travel_time net train sid
  = SimpleTrainScheduler._estimate_section_travel_time net' train sid.
Proof.
  unfold SimpleTrainScheduler._estimate_section_travel_time.
  destruct Hsame as [_ Hsec]. specialize (Hsec sid).
  destruct (RailwayNetwork.sections net !! sid) as [s|],
           (RailwayNetwork.sections net' !! sid) as [s'|];
    simpl in Hsec; try discriminate; [|reflexivity].
  unfold static_attributes in Hsec. injection Hsec as -> -> ->. reflexivity.
Qed.

Lemma route_loop_same (train : Train.t) (route : list string) (c : Z) :
  SimpleTrainScheduler.route_loop net train route c
  = SimpleTrainScheduler.route_loop net' train route c.
Proof.
  revert c. induction route as [|sid route IH]; intros c; simpl; [reflexivity|].
  rewrite estimate_same.
  destruct (SimpleTrainScheduler._estimate_section_travel_time net' train sid) as [d|e];
    simpl; [|reflexivity].
  now rewrite IH.
Qed.

Lemma schedule_single_train_same (train : Train.t) :
  SimpleTrainScheduler._schedule_single_train net train
  = SimpleTrainScheduler._schedule_single_train net' train.
Proof.
  unfold SimpleTrainScheduler._schedule_single_train.
  rewrite get_train_route_same.
  destruct (SimpleTrainScheduler._get_train_route net' train); [reflexivity|].
  now rewrite route_loop_same.
Qed.

Lemma train_loop_same (sorted : list Train.t) (acc : list TrainSchedule.t) (d : Z) :
  SimpleTrainScheduler.train_loop net sorted acc d
  = SimpleTrainScheduler.train_loop net' sorted acc d.
Proof.
  revert acc d. induction sorted as [|train sorted IH]; intros acc d; simpl;
    [reflexivity|].
  rewrite schedule_single_train_same.
  destruct (SimpleTrainScheduler._schedule_single_train net' train) as [[ts|]|e];
    simpl; [apply IH | apply IH | reflexivity].
Qed.

Lemma optimize_schedule_by_same (key : Train.t → Py.result Q)
    (trains : list Train.t) (h h' : Z) :
  SimpleTrainScheduler.optimize_schedule_by net key trains h
  = SimpleTrainScheduler.optimize_schedule_by net' key trains h'.
Proof.
  unfold SimpleTrainScheduler.optimize_schedule_by.
  destruct (PySort.sorted_reverse key trains) as [sorted|e]; simpl; [|reflexivity].
  now rewrite train_loop_same.
Qed.

End SameTopology.

Lemma same_topology_refl (net : RailwayNetwork.t) : same_topology net net.
Proof. split; reflexivity. Qed.

(** The occupancy operations change no attribute the scheduler reads. *)
Lemma step_static (s s' : TrackSection.t) :
  section_step s s' → static_attributes s' = static_attributes s.
Proof. destruct 1; reflexivity. Qed.

Lemma run_same_topology (ops : list Op) (net net' : RailwayNetwork.t) :
  run ops net = Py.Ok net' → same_topology net net'.
Proof.
  revert net. induction ops as [|op ops IH]; intros net; simpl.
  - intros [= <-]. apply same_topology_refl.
  - intros Hrun. apply bind_Ok in Hrun as ([b net1] & Hcall & Hrun). simpl in Hrun.
    specialize (IH net1 Hrun). destruct IH as [Hadj Hsec].
    assert (Hadj1 : RailwayNetwork.adjacency_matrix net = RailwayNetwork.adjacency_matrix net1).
    { destruct op as [k t|k t|k t]; simpl in Hcall.
      - apply reserve_section_inv in Hcall as [[_ ->]|(s & _ & _ & _ & _ & ->)]; reflexivity.
      - apply occupy_section_inv in Hcall as [[_ ->]|(s & _ & _ & _ & _ & ->)]; reflexivity.
      - apply release_section_inv in Hcall as [(_ & -> & _)|(s & occ & _ & _ & _ & _ & ->)];
          reflexivity. }
    split; [congruence|].
    intros sid. rewrite <- Hsec.
    destruct (call_section op net net1 b sid Hcall) as [->|(s & s' & -> & -> & Hst)];
      [reflexivity|].
    simpl. now rewrite (step_static s s' Hst).
Qed.

(** C2.  Whatever key orders the trains, the schedule [optimize_schedule]
    returns (or the exception it raises) is a function of the train list and
    of the topology alone: two
    calls on the same trains agree, whatever the horizons and whatever
    reserve, occupy and release calls were made on the network in between;
    and two calls on the same trains listed in a different order, when both
    return, return the same train entries up to their order, with the same
    status and metrics. *)
Theorem optimize_schedule_deterministic
    (net : RailwayNetwork.t) (key : Train.t → Py.result Q)
    (trains : list Train.t) (h1 h2 : Z) :
  SimpleTrainScheduler.optimize_schedule_by net key trains h1
  = SimpleTrainScheduler.optimize_schedule_by net key trains h2
  ∧ (∀ ops net',
       run ops net = Py.Ok net' →
       SimpleTrainScheduler.optimize_schedule_by net' key trains h2
       = SimpleTrainScheduler.optimize_schedule_by net key trains h1)
  ∧ (∀ trains' sched sched',
       Permutation trains trains' →
       SimpleTrainScheduler.optimize_schedule_by net key trains h1 = Py.Ok sched →
       SimpleTrainScheduler.optimize_schedule_by net key trains' h2 = Py.Ok sched' →
       Permutation (Schedule.trains sched) (Schedule.trains sched')
       ∧ Schedule.status sched = Schedule.status sched'
       ∧ Schedule.metrics sched = Schedule.metrics sched').
Proof.
  split; [reflexivity|]. split.
  - intros ops net' Hrun. symmetry.
    apply optimize_schedule_by_same. now apply (run_same_topology ops).
  - intros trains' sched sched' Hperm H1 H2.
    apply optimize_schedule_by_inv in H1 as (sorted & Hsorted & _ & ->).
    apply optimize_schedule_by_inv in H2 as (sorted' & Hsorted' & _ & ->).
    simpl.
    assert (Hp : Permutation (omap (entry_of net) sorted) (omap (entry_of net) sorted')).
    { apply omap_Permutation.
      rewrite (sorted_reverse_perm key trains sorted Hsorted).
      rewrite (sorted_reverse_perm key trains' sorted' Hsorted').
      exact Hperm. }
    split; [exact Hp|]. split; [reflexivity|].
    unfold metrics_of.
    rewrite (Permutation_length Hperm), (Permutation_length Hp).
    now rewrite (total_completion_delay_perm _ _ Hp).
Qed.

(** [T001] and [T004] have the same score: each call keeps them in the order
    of its input, so the two schedules list the same entries in different
    orders, with the same metrics. *)
Lemma optimize_schedule_deterministic_witness :
  ∃ sched sched',
    SimpleTrainScheduler.optimize_schedule_by create_sample_network spec_key
      [T001; T004] 24 = Py.Ok sched
    ∧ SimpleTrainScheduler.optimize_schedule_by create_sample_network spec_key
        [T004; T001] 24 = Py.Ok sched'
    ∧ map TrainSchedule.train_id (Schedule.trains sched) = ["T001"; "T004"]
    ∧ map TrainSchedule.train_id (Schedule.trains sched') = ["T004"; "T001"]
    ∧ Permutation (Schedule.trains sched) (Schedule.trains sched')
    ∧ Schedule.status sched = Schedule.status sched'
    ∧ Schedule.metrics sched = Schedule.metrics sched'.
Proof.
  eexists _, _.
  split; [vm_compute; reflexivity|]. split; [vm_compute; reflexivity|].
  split; [reflexivity|]. split; [reflexivity|].
  eapply (proj2 (proj2 (optimize_schedule_deterministic create_sample_network spec_key
                          [T001; T004] 24 24)) [T004; T001]).
  - apply perm_swap.
  - vm_compute. reflexivity.
  - vm_compute. reflexivity.
Defined.

(** ** optimization/simple_scheduler.py: [detect_conflicts] *)

(** C6, at the failing input.  [T100] is the only train and visits [SEC_001]
    twice; [detect_conflicts] counts it twice on [SEC_001], finds the capacity
    of 1 exceeded and reports a conflict of [T100] with itself. *)
Theorem detect_conflicts_counts_revisits :
  SimpleTrainScheduler.detect_conflicts create_sample_network [T100]
  = [TrainConflict.mk "CONF_T100_T100_SEC_001" ["T100"; "T100"] "SEC_001"
       "capacity_exceeded" 0 (timedelta_minutes 60) 3 None false].
Proof. vm_compute. reflexivity. Qed.

(** ** optimization/simple_scheduler.py: the impact summary *)

Lemma improvement_flag_spec (old new : Schedule.t) (m_old m_new : Metrics.t) :
  Schedule.metrics old = Some m_old → Schedule.metrics new = Some m_new →
  SimpleRealTimeOptimizer.improvement_flag old new = true
  ↔ (Metrics.average_delay m_new < Metrics.average_delay m_old)%Q.
Proof.
  intros Ho Hn. unfold SimpleRealTimeOptimizer.improvement_flag. rewrite Ho, Hn.
  rewrite negb_true_iff. split.
  - intros H. apply Qnot_le_lt. intros Hle. apply Qle_bool_iff in Hle. congruence.
  - intros Hlt. destruct (Qle_bool _ _) eqn:Hle; [|reflexivity].
    apply Qle_bool_iff in Hle. exfalso. now apply (Qlt_not_le _ _ Hlt).
Qed.

Lemma segments_of_scheduled (sched : Schedule.t) (tid : string) :
  segments_of sched tid ≠ None →
  tid ∈ map TrainSchedule.train_id (Schedule.trains sched).
Proof.
  unfold segments_of.
  destruct (List.find _ _) as [ts|] eqn:Hfind; [intros _|simpl; congruence].
  apply find_some in Hfind as [Hin Hid]. apply bool_decide_eq_true in Hid.
  subst tid. apply list_elem_of_In, in_map, Hin.
Qed.

(** C8, as the code has it.  For a previous and a new schedule the impact
    summary reports the absolute difference between the numbers of trains in
    the two schedules; the identifiers of all trains of the new schedule,
    hence of every train the new schedule holds, changed or not; and a flag
    that is true exactly when the new average delay is strictly less than the
    previous one.  Without a previous schedule it reports no change, no
    affected train and no flag. *)
Theorem calculate_schedule_impact_summary (old new : Schedule.t) :
  let impact := SimpleRealTimeOptimizer._calculate_schedule_impact (Some old) (Some new) in
  Impact.changes impact
  = Z.abs (Z.of_nat (length (Schedule.trains new))
           - Z.of_nat (length (Schedule.trains old)))
  ∧ Impact.affected_trains impact = map TrainSchedule.train_id (Schedule.trains new)
  ∧ (∀ X, segments_of new X ≠ None → X ∈ Impact.affected_trains impact)
  ∧ (∀ X, segments_of new X ≠ segments_of old X →
          X ∈ Impact.affected_trains impact ∨ segments_of new X = None)
  ∧ (∀ m_old m_new,
       Schedule.metrics old = Some m_old → Schedule.metrics new = Some m_new →
       ∃ b, Impact.improvement impact = Some b
            ∧ (b = true ↔ (Metrics.average_delay m_new < Metrics.average_delay m_old)%Q))
  ∧ SimpleRealTimeOptimizer._calculate_schedule_impact None (Some new)
    = Impact.mk 0 [] None.
Proof.
  simpl. split; [reflexivity|]. split; [reflexivity|].
  split; [intros X; apply segments_of_scheduled|].
  split.
  - intros X _. destruct (segments_of new X) eqn:Hseg; [left|now right].
    apply segments_of_scheduled. congruence.
  - split; [|reflexivity]. intros m_old m_new Ho Hn.
    eexists. split; [reflexivity|]. now apply improvement_flag_spec.
Qed.

(** On the two schedules of [T001] the summary lists [T001] as affected and
    reports no improvement. *)
Lemma calculate_schedule_impact_summary_witness :
  "T001" ∈ Impact.affected_trains
             (SimpleRealTimeOptimizer._calculate_schedule_impact
                (Some schedule_before) (Some schedule_after)).
Proof.
  apply (proj1 (proj2 (proj2
           (calculate_schedule_impact_summary schedule_before schedule_after)))).
  vm_compute. discriminate.
Defined.

(** C8 as stated fails: between the two schedules the segments of [T001]
    change, so one train's schedule changed, yet the summary reports 0
    changes. *)
Lemma calculate_schedule_impact_counterexample :
  segments_of schedule_before "T001" ≠ segments_of schedule_after "T001"
  ∧ spec_changed_count schedule_before schedule_after = 1
  ∧ Impact.changes
      (SimpleRealTimeOptimizer._calculate_schedule_impact
         (Some schedule_before) (Some schedule_after)) = 0.
Proof.
  split; [vm_compute; discriminate|]. split; vm_compute; reflexivity.
Qed.

(** ** [detect_conflicts]: the grouping and the pairs *)

Lemma first_visits_elem (l : list string) (x : string) : x ∈ first_visits l ↔ x ∈ l.
Proof.
  induction l as [|y l IH]; simpl; [reflexivity|].
  rewrite !elem_of_cons, <- IH, list_elem_of_In, filter_In, <- list_elem_of_In.
  rewrite negb_true_iff, bool_decide_eq_false. destruct (decide (x = y)); tauto.
Qed.

Lemma NoDup_List_filter {A : Type} (f : A → bool) (l : list A) :
  NoDup l → NoDup (List.filter f l).
Proof.
  induction 1 as [|x l Hx Hl IH]; simpl; [constructor|].
  destruct (f x); [|exact IH]. constructor; [|exact IH].
  rewrite list_elem_of_In, filter_In, <- list_elem_of_In. tauto.
Qed.

Lemma first_visits_NoDup (l : list string) : NoDup (first_visits l).
Proof.
  induction l as [|x l IH]; simpl; constructor.
  - rewrite list_elem_of_In, filter_In, negb_true_iff, bool_decide_eq_false. tauto.
  - now apply NoDup_List_filter.
Qed.

Lemma first_visits_snoc (l : list string) (k : string) :
  first_visits (l ++ [k])
  = if bool_decide (k ∈ l) then first_visits l else first_visits l ++ [k].
Proof.
  induction l as [|x l IH]; simpl; [reflexivity|].
  rewrite IH. destruct (decide (k = x)) as [->|Hne].
  - rewrite (bool_decide_eq_true_2 (x ∈ x :: l)) by constructor.
    destruct (bool_decide (x ∈ l)); [reflexivity|].
    rewrite List.filter_app. simpl.
    rewrite (bool_decide_eq_true_2 (x = x)) by reflexivity. simpl.
    now rewrite app_nil_r.
  - destruct (decide (k ∈ l)) as [Hin|Hnin].
    + rewrite (bool_decide_eq_true_2 (k ∈ l)) by exact Hin.
      rewrite (bool_decide_eq_true_2 (k ∈ x :: l)) by (now constructor).
      reflexivity.
    + rewrite (bool_decide_eq_false_2 (k ∈ l)) by exact Hnin.
      rewrite (bool_decide_eq_false_2 (k ∈ x :: l))
        by (rewrite elem_of_cons; tauto).
      rewrite List.filter_app. simpl.
      rewrite (bool_decide_eq_false_2 (k = x)) by exact Hne. reflexivity.
Qed.

Lemma visitors_snoc (sid : string) (vs : list (string * Train.t)) (v : string * Train.t) :
  visitors sid (vs ++ [v])
  = visitors sid vs ++ (if bool_decide (fst v = sid) then [snd v] else []).
Proof.
  unfold visitors. rewrite List.filter_app, map_app. simpl.
  destruct (bool_decide (fst v = sid)); reflexivity.
Qed.

Lemma visitors_app (sid : string) (vs vs' : list (string * Train.t)) :
  visitors sid (vs ++ vs') = visitors sid vs ++ visitors sid vs'.
Proof. unfold visitors. now rewrite List.filter_app, map_app. Qed.

Section Grouping.

Variable net : RailwayNetwork.t.

(** Appending a train to the entry of a section, in a grouping with one entry
    per key. *)
Lemma usage_add_keyed (f : string → list Train.t) (ks : list string)
    (k : string) (t : Train.t) :
  NoDup ks →
  SimpleTrainScheduler.usage_add (map (λ k', (k', f k')) ks) k t
  = if bool_decide (k ∈ ks)
    then map (λ k', (k', f k' ++ (if bool_decide (k = k') then [t] else []))) ks
    else map (λ k', (k', f k')) ks ++ [(k, [t])].
Proof.
  induction 1 as [|x ks Hx Hks IH]; simpl; [reflexivity|].
  destruct (decide (x = k)) as [->|Hne].
  - rewrite (bool_decide_eq_true_2 (k ∈ k :: ks)) by constructor.
    rewrite (bool_decide_eq_true_2 (k = k)) by reflexivity. f_equal.
    apply map_ext_in. intros k' Hk'. apply list_elem_of_In in Hk'.
    rewrite (bool_decide_eq_false_2 (k = k')) by congruence.
    now rewrite app_nil_r.
  - rewrite IH. rewrite (bool_decide_eq_false_2 (k = x)) by congruence.
    rewrite app_nil_r.
    destruct (decide (k ∈ ks)) as [Hin|Hnin].
    + rewrite (bool_decide_eq_true_2 (k ∈ ks)) by exact Hin.
      rewrite (bool_decide_eq_true_2 (k ∈ x :: ks)) by (now constructor).
      reflexivity.
    + rewrite (bool_decide_eq_false_2 (k ∈ ks)) by exact Hnin.
      rewrite (bool_decide_eq_false_2 (k ∈ x :: ks))
        by (rewrite elem_of_cons; intros [?|?]; [congruence|tauto]).
      reflexivity.
Qed.

(** The grouping loop over a list of visits. *)
Lemma group_visits (vs : list (string * Train.t)) :
  fold_left (λ usage v, SimpleTrainScheduler.usage_add usage (fst v) (snd v)) vs []
  = map (λ sid, (sid, visitors sid vs)) (first_visits (map fst vs)).
Proof.
  induction vs as [|v vs IH] using rev_ind; [reflexivity|].
  rewrite fold_left_app, IH. simpl.
  rewrite usage_add_keyed by apply first_visits_NoDup.
  rewrite (map_app fst vs [v]). change (map fst [v]) with [fst v].
  rewrite first_visits_snoc.
  rewrite (bool_decide_ext (fst v ∈ first_visits (map fst vs)) (fst v ∈ map fst vs))
    by apply first_visits_elem.
  destruct (bool_decide (fst v ∈ map fst vs)) eqn:Hin.
  - apply map_ext. intros k. now rewrite visitors_snoc.
  - rewrite map_app. simpl. f_equal.
    + apply map_ext_in. intros k Hk. rewrite visitors_snoc.
      rewrite <- list_elem_of_In, first_visits_elem in Hk.
      apply bool_decide_eq_false in Hin.
      rewrite (bool_decide_eq_false_2 (fst v = k)) by (intros <-; contradiction).
      now rewrite app_nil_r.
    + f_equal. f_equal. rewrite visitors_snoc.
      rewrite (bool_decide_eq_true_2 (fst v = fst v)) by reflexivity.
      apply bool_decide_eq_false in Hin.
      assert (Hnone : visitors (fst v) vs = []).
      { unfold visitors. clear IH. induction vs as [|w vs IHvs]; [reflexivity|].
        simpl in *. rewrite elem_of_cons in Hin.
        rewrite (bool_decide_eq_false_2 (fst w = fst v)) by (intros Heq; auto).
        apply IHvs. tauto. }
      now rewrite Hnone.
Qed.

Lemma inner_loop_visits (train : Train.t) (route : list string)
    (usage : list (string * list Train.t)) :
  fold_left (λ usage sid, SimpleTrainScheduler.usage_add usage sid train) route usage
  = fold_left (λ usage v, SimpleTrainScheduler.usage_add usage (fst v) (snd v))
      (map (λ sid, (sid, train)) route) usage.
Proof.
  revert usage. induction route as [|sid route IH]; intros usage; simpl; [reflexivity|].
  apply IH.
Qed.

Lemma group_by_section_fold (trains : list Train.t) (usage : list (string * list Train.t)) :
  fold_left
    (λ usage train,
       fold_left (λ usage sid, SimpleTrainScheduler.usage_add usage sid train)
         (SimpleTrainScheduler._get_train_route net train) usage)
    trains usage
  = fold_left (λ usage v, SimpleTrainScheduler.usage_add usage (fst v) (snd v))
      (visits net trains) usage.
Proof.
  revert usage. induction trains as [|train trains IH]; intros usage; [reflexivity|].
  unfold visits. simpl. rewrite fold_left_app, <- inner_loop_visits. apply IH.
Qed.

(** [section_usage] after the grouping loop: the sections in the order of
    their first visit, each with one copy of a train per visit. *)
Lemma group_by_section_spec (trains : list Train.t) :
  SimpleTrainScheduler.group_by_section net trains
  = map (λ sid, (sid, visitors sid (visits net trains)))
      (first_visits (map fst (visits net trains))).
Proof.
  unfold SimpleTrainScheduler.group_by_section.
  rewrite group_by_section_fold. apply group_visits.
Qed.

End Grouping.

Section Conflicts.

Variable net : RailwayNetwork.t.

(** [detect_conflicts] visits the sections in the order of their first use and
    looks, for each, at one copy of a train per visit. *)
Lemma detect_conflicts_spec (trains : list Train.t) :
  SimpleTrainScheduler.detect_conflicts net trains
  = flat_map
      (λ sid, SimpleTrainScheduler.section_conflicts net
                (sid, visitors sid (visits net trains)))
      (first_visits (map fst (visits net trains))).
Proof.
  unfold SimpleTrainScheduler.detect_conflicts. rewrite group_by_section_spec.
  generalize (first_visits (map fst (visits net trains))). intros ks.
  induction ks as [|k ks IH]; simpl; [reflexivity|]. now rewrite IH.
Qed.

Lemma make_conflict_fields (sid : string) (train1 train2 : Train.t) :
  let c := SimpleTrainScheduler.make_conflict sid (train1, train2) in
  TrainConflict.section_id c = sid
  ∧ TrainConflict.train_ids c = [Train.train_id train1; Train.train_id train2]
  ∧ TrainConflict.conflict_start c
    = Z.min (Train.scheduled_departure train1) (Train.scheduled_departure train2)
  ∧ TrainConflict.conflict_end c
    = Z.max (Train.scheduled_arrival train1) (Train.scheduled_arrival train2)
  ∧ TrainConflict.severity c = 3.
Proof. simpl. auto. Qed.

Lemma section_conflicts_section (sid : string) (ts : list Train.t) :
  Forall (λ c, TrainConflict.section_id c = sid)
    (SimpleTrainScheduler.section_conflicts net (sid, ts)).
Proof.
  unfold SimpleTrainScheduler.section_conflicts.
  destruct (1 <? _); [|constructor].
  destruct (RailwayNetwork.sections net !! sid) as [s|]; [|constructor].
  destruct (_ <? _); [|constructor].
  apply Forall_forall. intros c Hc. apply list_elem_of_In, in_map_iff in Hc
    as ([t1 t2] & <- & _). reflexivity.
Qed.

(** The pairs taken from fewer than two trains are none, so the guard
    [len(trains_in_section) > 1] changes nothing. *)
Lemma section_conflicts_known (sid : string) (ts : list Train.t) (s : TrackSection.t) :
  RailwayNetwork.sections net !! sid = Some s →
  SimpleTrainScheduler.section_conflicts net (sid, ts)
  = if TrackSection.max_trains s <? Z.of_nat (length ts)
    then map (SimpleTrainScheduler.make_conflict sid) (SimpleTrainScheduler.index_pairs ts)
    else [].
Proof.
  intros Hs. unfold SimpleTrainScheduler.section_conflicts. rewrite Hs.
  destruct (1 <? Z.of_nat (length ts)) eqn:Hlen; [reflexivity|].
  apply Z.ltb_ge in Hlen.
  destruct ts as [|t [|t' ts]]; simpl in *; try lia; now destruct (_ <? _).
Qed.

Lemma section_conflicts_unknown (sid : string) (ts : list Train.t) :
  RailwayNetwork.sections net !! sid = None →
  SimpleTrainScheduler.section_conflicts net (sid, ts) = [].
Proof.
  intros Hs. unfold SimpleTrainScheduler.section_conflicts. rewrite Hs.
  now destruct (1 <? _).
Qed.

Lemma filter_none (sid : string) (l : list TrainConflict.t) :
  Forall (λ c, TrainConflict.section_id c ≠ sid) l →
  List.filter (λ c, bool_decide (TrainConflict.section_id c = sid)) l = [].
Proof.
  induction 1 as [|c l Hc _ IH]; simpl; [reflexivity|].
  now rewrite bool_decide_eq_false_2.
Qed.

Lemma filter_all (sid : string) (l : list TrainConflict.t) :
  Forall (λ c, TrainConflict.section_id c = sid) l →
  List.filter (λ c, bool_decide (TrainConflict.section_id c = sid)) l = l.
Proof.
  induction 1 as [|c l Hc _ IH]; simpl; [reflexivity|].
  rewrite bool_decide_eq_true_2 by exact Hc. now rewrite IH.
Qed.

(** The conflicts reported for one section are those of its own entry. *)
Lemma filter_section_conflicts (g : string → list Train.t) (ks : list string) (sid : string) :
  NoDup ks →
  List.filter (λ c, bool_decide (TrainConflict.section_id c = sid))
    (flat_map (λ k, SimpleTrainScheduler.section_conflicts net (k, g k)) ks)
  = if bool_decide (sid ∈ ks)
    then SimpleTrainScheduler.section_conflicts net (sid, g sid)
    else [].
Proof.
  induction 1 as [|k ks Hk Hks IH]; [reflexivity|].
  cbn [flat_map]. rewrite List.filter_app, IH.
  destruct (decide (k = sid)) as [->|Hne].
  - rewrite (bool_decide_eq_true_2 (sid ∈ sid :: ks)) by constructor.
    rewrite (bool_decide_eq_false_2 (sid ∈ ks)) by exact Hk.
    rewrite app_nil_r. apply filter_all, section_conflicts_section.
  - rewrite filter_none.
    + simpl. rewrite (bool_decide_ext (sid ∈ k :: ks) (sid ∈ ks)); [reflexivity|].
      rewrite elem_of_cons. split; [|tauto]. intros [?|?]; [congruence|assumption].
    + eapply Forall_impl; [apply section_conflicts_section|].
      simpl. intros c ->. exact Hne.
Qed.

(** A train whose route holds no section twice is one visitor of each of its
    sections. *)
Lemma visitors_route (sid : string) (train : Train.t) (route : list string) :
  NoDup route →
  visitors sid (map (λ s, (s, train)) route)
  = if bool_decide (sid ∈ route) then [train] else [].
Proof.
  unfold visitors.
  induction 1 as [|s route Hs Hroute IH]; simpl; [reflexivity|].
  destruct (decide (s = sid)) as [->|Hne].
  - rewrite (bool_decide_eq_true_2 (sid = sid)) by reflexivity.
    rewrite (bool_decide_eq_true_2 (sid ∈ sid :: route)) by constructor.
    simpl. rewrite IH. now rewrite (bool_decide_eq_false_2 (sid ∈ route)).
  - rewrite (bool_decide_eq_false_2 (s = sid)) by exact Hne. rewrite IH.
    rewrite (bool_decide_ext (sid ∈ s :: route) (sid ∈ route)); [reflexivity|].
    rewrite elem_of_cons. split; [|tauto]. intros [?|?]; [congruence|assumption].
Qed.

Lemma visitors_routed_trains (sid : string) (trains : list Train.t) :
  Forall (λ train, NoDup (SimpleTrainScheduler._get_train_route net train)) trains →
  visitors sid (visits net trains) = routed_trains net sid trains.
Proof.
  unfold visits, routed_trains.
  induction 1 as [|train trains Hroute _ IH]; [reflexivity|].
  simpl. rewrite visitors_app, IH, (visitors_route sid train _ Hroute).
  now destruct (bool_decide (sid ∈ SimpleTrainScheduler._get_train_route net train)).
Qed.

(** The pairs of [index_pairs] are the pairs of positions [i < j]. *)
Lemma index_pairs_elem {A : Type} (l : list A) (a b : A) :
  (a, b) ∈ SimpleTrainScheduler.index_pairs l
  ↔ ∃ i j, (i < j)%nat ∧ l !! i = Some a ∧ l !! j = Some b.
Proof.
  induction l as [|x l IH]; simpl.
  - split; [intros H; inversion H | intros (i & j & _ & H & _); discriminate].
  - rewrite elem_of_app, IH, list_elem_of_In, in_map_iff. split.
    + intros [(y & [= <- <-] & Hy)|(i & j & Hij & Hi & Hj)].
      * apply list_elem_of_In, list_elem_of_lookup in Hy as [j Hj].
        exists 0%nat, (S j). repeat split; [lia | exact Hj].
      * exists (S i), (S j). repeat split; [lia | exact Hi | exact Hj].
    + intros (i & j & Hij & Hi & Hj). destruct j as [|j]; [lia|]. simpl in Hj.
      destruct i as [|i]; simpl in Hi.
      * left. injection Hi as ->. exists b. split; [reflexivity|].
        apply list_elem_of_In, list_elem_of_lookup. eauto.
      * right. exists i, j. repeat split; [lia | exact Hi | exact Hj].
Qed.

Lemma index_pairs_length {A : Type} (l : list A) :
  (2 * length (SimpleTrainScheduler.index_pairs l) = length l * (length l - 1))%nat.
Proof.
  induction l as [|x l IH]; simpl; [reflexivity|].
  rewrite length_app, length_map. nia.
Qed.

End Conflicts.

Lemma visitors_nil (sid : string) (vs : list (string * Train.t)) :
  sid ∉ map fst vs → visitors sid vs = [].
Proof.
  unfold visitors. induction vs as [|v vs IH]; simpl; [reflexivity|].
  rewrite elem_of_cons. intros Hnin.
  rewrite bool_decide_eq_false_2 by (intros Heq; apply Hnin; left; congruence).
  apply IH. tauto.
Qed.

Lemma section_conflicts_of_visits
    (net : RailwayNetwork.t) (trains : list Train.t) (sid : string) :
  List.filter (λ c, bool_decide (TrainConflict.section_id c = sid))
    (SimpleTrainScheduler.detect_conflicts net trains)
  = match RailwayNetwork.sections net !! sid with
    | Some section =>
        if TrackSection.max_trains section
           <? Z.of_nat (length (visitors sid (visits net trains)))
        then map (SimpleTrainScheduler.make_conflict sid)
               (SimpleTrainScheduler.index_pairs (visitors sid (visits net trains)))
        else []
    | None => []
    end.
Proof.
  rewrite detect_conflicts_spec.
  rewrite (filter_section_conflicts net (λ k, visitors k (visits net trains)))
    by apply first_visits_NoDup.
  rewrite (bool_decide_ext _ _ (first_visits_elem (map fst (visits net trains)) sid)).
  destruct (decide (sid ∈ map fst (visits net trains))) as [Hin|Hnin].
  - rewrite bool_decide_eq_true_2 by exact Hin.
    destruct (RailwayNetwork.sections net !! sid) as [s|] eqn:Hs.
    + now apply section_conflicts_known.
    + now apply section_conflicts_unknown.
  - rewrite bool_decide_eq_false_2 by exact Hnin.
    rewrite (visitors_nil sid _ Hnin). simpl.
    destruct (RailwayNetwork.sections net !! sid) as [s|]; [|reflexivity].
    now destruct (_ <? _).
Qed.

(** X4.  The conflicts [detect_conflicts] reports for one section: for a
    section of the topology visited more often than it admits trains, one
    conflict for each pair of visits, in order; no conflict otherwise.  A
    train counts once for every time its route holds the section. *)
Theorem detect_conflicts_per_section
    (net : RailwayNetwork.t) (trains : list Train.t) (sid : string) :
  List.filter (λ c, bool_decide (TrainConflict.section_id c = sid))
    (SimpleTrainScheduler.detect_conflicts net trains)
  = match RailwayNetwork.sections net !! sid with
    | Some section =>
        if TrackSection.max_trains section
           <? Z.of_nat (length (visitors sid (visits net trains)))
        then map (SimpleTrainScheduler.make_conflict sid)
               (SimpleTrainScheduler.index_pairs (visitors sid (visits net trains)))
        else []
    | None => []
    end.
Proof. apply section_conflicts_of_visits. Qed.

(** X5.  When no resolved route holds a section twice, the visitors of a section
    are the trains routed through it: for a section of the topology used by
    more trains than it admits, [detect_conflicts] reports one conflict for
    each pair of those trains, with the earlier departure, the later arrival
    and severity 3; for any other section it reports none. *)
Theorem detect_conflicts_simple_routes
    (net : RailwayNetwork.t) (trains : list Train.t) (sid : string) :
  Forall (λ train, NoDup (SimpleTrainScheduler._get_train_route net train)) trains →
  List.filter (λ c, bool_decide (TrainConflict.section_id c = sid))
    (SimpleTrainScheduler.detect_conflicts net trains)
  = match RailwayNetwork.sections net !! sid with
    | Some section =>
        if TrackSection.max_trains section
           <? Z.of_nat (length (routed_trains net sid trains))
        then map (SimpleTrainScheduler.make_conflict sid)
               (SimpleTrainScheduler.index_pairs (routed_trains net sid trains))
        else []
    | None => []
    end.
Proof.
  intros Hroutes. rewrite section_conflicts_of_visits.
  now rewrite (visitors_routed_trains net sid trains Hroutes).
Qed.

(** The three trains of the test script all pass the junction [SEC_003],
    which admits one: three conflicts, one per pair. *)
Lemma detect_conflicts_simple_routes_witness :
  map TrainConflict.train_ids
    (List.filter (λ c, bool_decide (TrainConflict.section_id c = "SEC_003"))
       (SimpleTrainScheduler.detect_conflicts create_sample_network [T001; T002; T003]))
  = [["T001"; "T002"]; ["T001"; "T003"]; ["T002"; "T003"]].
Proof.
  rewrite (detect_conflicts_simple_routes create_sample_network [T001; T002; T003] "SEC_003").
  - vm_compute. reflexivity.
  - apply (bool_decide_unpack _). vm_compute. exact I.
Defined.

(** ** The schedulers as written *)

Lemma optimize_schedule_cases
    (net : RailwayNetwork.t) (trains : list Train.t) (h : Z) :
  SimpleTrainScheduler.optimize_schedule net trains h
  = match trains with
    | [] => Py.Ok (Schedule.mk "optimal" [] (Some (metrics_of 0 [])))
    | _ :: _ => Py.Err Py.AttributeError
    end.
Proof.
  destruct trains as [|train trains]; [reflexivity|].
  apply optimize_schedule_raises.
Qed.

(** X1.  [optimize_schedule] as written returns only for an empty train list, with
    an empty ['optimal'] schedule; on any other list the first score
    computation raises [AttributeError]. *)
Theorem optimize_schedule_as_written
    (net : RailwayNetwork.t) (trains : list Train.t) (h : Z) :
  SimpleTrainScheduler.optimize_schedule net trains h
  = match trains with
    | [] => Py.Ok (Schedule.mk "optimal" [] (Some (metrics_of 0 [])))
    | _ :: _ => Py.Err Py.AttributeError
    end.
Proof. apply optimize_schedule_cases. Qed.

Lemma timedelta_of_minutes_raises (m : Z) (e : Py.exn) :
  timedelta_of_minutes m = Py.Err e → e = Py.OverflowError.
Proof. unfold timedelta_of_minutes. destruct (_ <=? _); congruence. Qed.

Lemma datetime_add_raises (t : datetime) (delta : timedelta) (e : Py.exn) :
  datetime_add t delta = Py.Err e → e = Py.OverflowError.
Proof. unfold datetime_add. destruct (_ && _); congruence. Qed.

Lemma shifted_raises (m : Z) (t : datetime) (e : Py.exn) :
  (delta ← timedelta_of_minutes m; datetime_add t delta) = Py.Err e →
  e = Py.OverflowError.
Proof.
  destruct (timedelta_of_minutes m) as [delta|e'] eqn:Hd; simpl.
  - apply datetime_add_raises.
  - intros [= <-]. now apply (timedelta_of_minutes_raises m).
Qed.

(** The only exception of the two assignments is [OverflowError]. *)
Lemma delay_train_raises (m : Z) (train : Train.t) (e : Py.exn) :
  snd (SimpleRealTimeOptimizer.delay_train m train) = Py.Err e → e = Py.OverflowError.
Proof.
  unfold SimpleRealTimeOptimizer.delay_train.
  destruct (delta ← timedelta_of_minutes m;
            datetime_add (Train.scheduled_departure train) delta)
    as [departure|e1] eqn:H1.
  - destruct (delta ← timedelta_of_minutes m;
              datetime_add
                (Train.scheduled_arrival
                   (SimpleRealTimeOptimizer.set_scheduled_departure train departure))
                delta)
      as [arrival|e2] eqn:H2; simpl; [discriminate|].
    intros [= <-]. now apply shifted_raises in H2.
  - simpl. intros [= <-]. now apply shifted_raises in H1.
Qed.

(** A delay of 5258964900 minutes moves the departure of [T001] to the last
    hour of the year 9999 and would move its arrival into the year 10000: the
    second assignment raises, and the departure stays moved. *)
Lemma delay_train_partial :
  SimpleRealTimeOptimizer.delay_train 5258964900 T001
  = (SimpleRealTimeOptimizer.set_scheduled_departure T001 (timedelta_minutes 5258964900),
     Py.Err Py.OverflowError).
Proof. vm_compute. reflexivity. Qed.

Lemma delay_first_raises (tid : option string) (m : Z) (trains : list Train.t) (e : Py.exn) :
  snd (SimpleRealTimeOptimizer.delay_first tid m trains) = Py.Err e → e = Py.OverflowError.
Proof.
  induction trains as [|train trains IH]; simpl; [discriminate|].
  destruct (bool_decide _).
  - pose proof (delay_train_raises m train e) as H.
    destruct (SimpleRealTimeOptimizer.delay_train m train) as [train' outcome]. exact H.
  - destruct (SimpleRealTimeOptimizer.delay_first tid m trains) as [rest outcome].
    exact IH.
Qed.

Lemma apply_disruptions_raises (trains : list Train.t) (ds : list Disruption.t) (e : Py.exn) :
  snd (SimpleRealTimeOptimizer._apply_disruptions trains ds) = Py.Err e →
  e = Py.OverflowError.
Proof.
  revert trains. induction ds as [|d ds IH]; intros trains; simpl; [discriminate|].
  destruct (bool_decide _); [|apply IH].
  pose proof (delay_first_raises (Disruption.train_id d)
                (default 0 (Disruption.delay_minutes d)) trains e) as H.
  destruct (SimpleRealTimeOptimizer.delay_first _ _ trains) as [trains' [[]|e']];
    [apply IH | exact H].
Qed.

Lemma delay_first_length (tid : option string) (d : Z) (trains : list Train.t) :
  length (fst (SimpleRealTimeOptimizer.delay_first tid d trains)) = length trains.
Proof.
  induction trains as [|train trains IH]; simpl; [reflexivity|].
  destruct (bool_decide _).
  - now destruct (SimpleRealTimeOptimizer.delay_train d train).
  - destruct (SimpleRealTimeOptimizer.delay_first tid d trains). simpl in *. now rewrite IH.
Qed.

Lemma apply_disruptions_length (trains : list Train.t) (ds : list Disruption.t) :
  length (fst (SimpleRealTimeOptimizer._apply_disruptions trains ds)) = length trains.
Proof.
  revert trains. induction ds as [|d ds IH]; intros trains; simpl; [reflexivity|].
  destruct (bool_decide _); [|apply IH].
  pose proof (delay_first_length (Disruption.train_id d)
                (default 0 (Disruption.delay_minutes d)) trains) as H.
  destruct (SimpleRealTimeOptimizer.delay_first _ _ trains) as [trains' [[]|e]];
    simpl in H; [now rewrite IH | exact H].
Qed.

(** A delay for a train that is not in the list changes nothing, and no
    [timedelta] is built for it. *)
Lemma delay_first_unknown (tid : option string) (d : Z) (trains : list Train.t) :
  (∀ train, train ∈ trains → Some (Train.train_id train) ≠ tid) →
  SimpleRealTimeOptimizer.delay_first tid d trains = (trains, Py.Ok tt).
Proof.
  induction trains as [|train trains IH]; intros H; simpl; [reflexivity|].
  rewrite bool_decide_eq_false_2 by (apply H; constructor).
  rewrite IH; [reflexivity|]. intros t Ht. apply H. now constructor.
Qed.

(** X6.  A disruption naming no train of the list is ignored, like one that
    is not a delay: the call returns and leaves the trains as they were,
    whatever the minutes of the disruption. *)
Theorem apply_disruptions_unknown_train
    (trains : list Train.t) (disruptions : list Disruption.t) :
  (∀ d train, d ∈ disruptions → train ∈ trains →
              Some (Train.train_id train) ≠ Disruption.train_id d) →
  SimpleRealTimeOptimizer._apply_disruptions trains disruptions = (trains, Py.Ok tt).
Proof.
  induction disruptions as [|d ds IH]; intros H; simpl; [reflexivity|].
  assert (Hds : SimpleRealTimeOptimizer._apply_disruptions trains ds = (trains, Py.Ok tt)).
  { apply IH. intros d' train Hd' Htrain. apply H; [now constructor | exact Htrain]. }
  destruct (bool_decide _); [|exact Hds].
  rewrite delay_first_unknown; [exact Hds|].
  intros train Htrain. apply (H d train); [constructor | exact Htrain].
Qed.

(** A delay of 15 minutes for [T999] leaves the three trains of the test
    script as they are. *)
Lemma apply_disruptions_unknown_train_witness :
  SimpleRealTimeOptimizer._apply_disruptions [T001; T002; T003]
    [Disruption.mk (Some "delay") (Some "T999") (Some 15)]
  = ([T001; T002; T003], Py.Ok tt).
Proof.
  apply apply_disruptions_unknown_train.
  intros d train Hd Htrain.
  apply list_elem_of_singleton in Hd. subst d. simpl.
  rewrite !elem_of_cons, elem_of_nil in Htrain.
  destruct Htrain as [->|[->|[->|[]]]]; discriminate.
Defined.

(** X2.  [update_schedule] as written: with no train it returns the empty schedule
    and the impact against the retained one; with any train it raises,
    whatever the disruptions, and neither a schedule nor an impact summary is
    produced: [OverflowError] when applying the disruptions raises (a delay
    that no [timedelta] holds, or that moves a train out of the range of
    [datetime]), and [AttributeError] from the re-optimization otherwise. *)
Theorem update_schedule_as_written
    (net : RailwayNetwork.t) (current : option Schedule.t)
    (trains : list Train.t) (disruptions : list Disruption.t) :
  SimpleRealTimeOptimizer.update_schedule net current trains disruptions
  = match trains with
    | [] =>
        let empty := Schedule.mk "optimal" [] (Some (metrics_of 0 [])) in
        Py.Ok (Some empty,
               (empty,
                SimpleRealTimeOptimizer._calculate_schedule_impact current (Some empty)))
    | _ :: _ =>
        match snd (SimpleRealTimeOptimizer._apply_disruptions trains disruptions) with
        | Py.Ok _ => Py.Err Py.AttributeError
        | Py.Err _ => Py.Err Py.OverflowError
        end
    end.
Proof.
  unfold SimpleRealTimeOptimizer.update_schedule.
  destruct trains as [|train trains].
  - rewrite apply_disruptions_unknown_train; [reflexivity|].
    intros d train _ Htrain. inversion Htrain.
  - pose proof (apply_disruptions_length (train :: trains) disruptions) as Hlen.
    pose proof (apply_disruptions_raises (train :: trains) disruptions) as Hraises.
    destruct (SimpleRealTimeOptimizer._apply_disruptions (train :: trains) disruptions)
      as [trains' [[]|e]]; simpl in *.
    + rewrite optimize_schedule_cases.
      destruct trains'; [discriminate | reflexivity].
    + now rewrite (Hraises e eq_refl).
Qed.

(** X3.  [TrainScheduler.optimize_schedule] returns no schedule for a non-empty
    train list, whatever the solver does: once the constraints are declared,
    the weight of the first train is computed and raises. *)
Theorem cp_optimize_schedule_as_written
    (CpModel : Type)
    (declare_constraints : list Train.t → Z → Py.result CpModel)
    (add_objective_term : CpModel → Train.t → Q → Py.result CpModel)
    (solve : CpModel → list Train.t → Py.result Schedule.t)
    (train : Train.t) (trains : list Train.t) (h : Z) :
  TrainScheduler.optimize_schedule CpModel declare_constraints add_objective_term solve
    (train :: trains) h
  = match declare_constraints (train :: trains) h with
    | Py.Ok _ => Py.Err Py.AttributeError
    | Py.Err e => Py.Err e
    end.
Proof.
  unfold TrainScheduler.optimize_schedule.
  destruct (declare_constraints (train :: trains) h) as [model|e]; [|reflexivity].
  cbn [mbind result_bind Py.bind TrainScheduler.objective_loop].
  now rewrite calculate_priority_score_AttributeError.
Qed.

(** ** models/infrastructure.py: round trip, frame and bookkeeping *)

Lemma store_id (net : RailwayNetwork.t) (sid : string) (s : TrackSection.t) :
  RailwayNetwork.sections net !! sid = Some s → RailwayNetwork.store net sid s = net.
Proof.
  intros Hs. unfold RailwayNetwork.store, RailwayNetwork.set_sections.
  rewrite insert_id by exact Hs. now destruct net.
Qed.

Lemma store_store (net : RailwayNetwork.t) (sid : string) (s s' : TrackSection.t) :
  RailwayNetwork.store (RailwayNetwork.store net sid s) sid s'
  = RailwayNetwork.store net sid s'.
Proof.
  unfold RailwayNetwork.store, RailwayNetwork.set_sections. simpl.
  now rewrite insert_insert_eq.
Qed.

Lemma store_dom (net : RailwayNetwork.t) (sid : string) (s s' : TrackSection.t) :
  RailwayNetwork.sections net !! sid = Some s →
  dom (RailwayNetwork.sections (RailwayNetwork.store net sid s'))
  = dom (RailwayNetwork.sections net).
Proof.
  intros Hs. unfold RailwayNetwork.store. simpl.
  apply dom_insert_lookup_L. now rewrite Hs.
Qed.

(** One call changes at most the section it names, and neither the set of
    section identifiers nor the adjacency table. *)
Lemma call_frame (op : Op) (net net' : RailwayNetwork.t) (b : bool) :
  call op net = Py.Ok (b, net') →
  dom (RailwayNetwork.sections net') = dom (RailwayNetwork.sections net)
  ∧ RailwayNetwork.adjacency_matrix net' = RailwayNetwork.adjacency_matrix net
  ∧ ∀ sid, sid ≠ op_section op →
      RailwayNetwork.sections net' !! sid = RailwayNetwork.sections net !! sid.
Proof.
  destruct op as [k t|k t|k t]; simpl; intros H.
  - apply reserve_section_inv in H as [[_ ->]|(s & Hs & _ & _ & _ & ->)]; [auto|].
    split; [now apply (store_dom net k s)|]. split; [reflexivity|].
    intros sid Hne. now apply store_lookup_ne.
  - apply occupy_section_inv in H as [[_ ->]|(s & Hs & _ & _ & _ & ->)]; [auto|].
    split; [now apply (store_dom net k s)|]. split; [reflexivity|].
    intros sid Hne. now apply store_lookup_ne.
  - apply release_section_inv in H as [(_ & -> & _)|(s & occ & Hs & _ & _ & _ & ->)]; [auto|].
    split; [now apply (store_dom net k s)|]. split; [reflexivity|].
    intros sid Hne. now apply store_lookup_ne.
Qed.

(** X7.  Round trip: on a section that is AVAILABLE, unreserved, empty and
    admits at least one train, reserving it for a train, occupying it with
    that train and releasing it all succeed, the train being the only
    occupant in between, and the network is back in its initial state. *)
Theorem reserve_occupy_release_round_trip
    (net : RailwayNetwork.t) (sid tid : string) (s : TrackSection.t) :
  RailwayNetwork.sections net !! sid = Some s →
  TrackSection.current_status s = SectionStatus.AVAILABLE →
  TrackSection.reserved_for s = None →
  TrackSection.occupying_trains s = [] →
  0 < TrackSection.max_trains s →
  ∃ net1 net2,
    RailwayNetwork.reserve_section net sid tid = Py.Ok (true, net1)
    ∧ RailwayNetwork.occupy_section net1 sid tid = Py.Ok (true, net2)
    ∧ occupants net2 sid = [tid]
    ∧ RailwayNetwork.release_section net2 sid tid = Py.Ok (true, net).
Proof.
  intros Hs Hst Hres Hocc Hmax.
  eexists. eexists. split.
  { unfold RailwayNetwork.reserve_section. rewrite Hs, Hst, Hres. reflexivity. }
  split.
  { unfold RailwayNetwork.occupy_section. rewrite store_lookup. simpl.
    rewrite Hocc. simpl. change (Z.of_nat 0) with 0. apply Z.ltb_lt in Hmax.
    rewrite Hmax. reflexivity. }
  split.
  { unfold occupants. rewrite store_lookup. reflexivity. }
  unfold RailwayNetwork.release_section. rewrite store_lookup. simpl.
  unfold Py.contains. rewrite bool_decide_eq_true_2 by (apply list_elem_of_singleton; reflexivity).
  simpl. rewrite decide_True by reflexivity. simpl.
  rewrite !store_store. f_equal. f_equal. apply store_id.
  rewrite Hs. f_equal. destruct s. simpl in *. now subst.
Qed.

Lemma reserve_occupy_release_round_trip_witness :
  ∃ net1 net2,
    RailwayNetwork.reserve_section create_sample_network "SEC_003" "T001"
    = Py.Ok (true, net1)
    ∧ RailwayNetwork.occupy_section net1 "SEC_003" "T001" = Py.Ok (true, net2)
    ∧ occupants net2 "SEC_003" = ["T001"]
    ∧ RailwayNetwork.release_section net2 "SEC_003" "T001"
      = Py.Ok (true, create_sample_network).
Proof.
  apply (reserve_occupy_release_round_trip create_sample_network "SEC_003" "T001"
           (TrackSection.new "SEC_003" "Junction A" SectionType.JUNCTION 2.1%float));
    [vm_compute; reflexivity | reflexivity | reflexivity | reflexivity | reflexivity].
Defined.

(** X8.  Frame: every sequence of reserve, occupy and release calls runs to
    its end, adds and removes no section, leaves the adjacency table as it
    was, and leaves every section that no call names exactly as it was. *)
Theorem occupancy_operations_frame (ops : list Op) (net : RailwayNetwork.t) :
  ∃ net',
    run ops net = Py.Ok net'
    ∧ dom (RailwayNetwork.sections net') = dom (RailwayNetwork.sections net)
    ∧ RailwayNetwork.adjacency_matrix net' = RailwayNetwork.adjacency_matrix net
    ∧ ∀ sid, sid ∉ map op_section ops →
        RailwayNetwork.sections net' !! sid = RailwayNetwork.sections net !! sid.
Proof.
  revert net. induction ops as [|op ops IH]; intros net; simpl.
  - exists net. auto.
  - destruct (call_returns op net) as (b & net1 & Hcall). rewrite Hcall. simpl.
    destruct (call_frame _ _ _ _ Hcall) as (Hdom & Hadj & Hfr).
    destruct (IH net1) as (net' & Hrun & Hdom' & Hadj' & Hfr').
    exists net'. split; [exact Hrun|]. split; [congruence|]. split; [congruence|].
    intros sid Hnin. apply not_elem_of_cons in Hnin as [Hne Hnin].
    rewrite Hfr' by exact Hnin. now apply Hfr.
Qed.

(** X9.  A reservation is not enforced: once [reserve_section] has reserved a
    section with spare capacity for one train, [occupy_section] lets any
    train in, the holder or another one, and the reservation is dropped. *)
Theorem occupy_section_ignores_reservation
    (net net1 : RailwayNetwork.t) (sid holder other : string) :
  RailwayNetwork.reserve_section net sid holder = Py.Ok (true, net1) →
  RailwayNetwork.check_section_capacity net sid = true →
  ∃ net2 s2,
    RailwayNetwork.occupy_section net1 sid other = Py.Ok (true, net2)
    ∧ RailwayNetwork.sections net2 !! sid = Some s2
    ∧ TrackSection.occupying_trains s2 = occupants net sid ++ [other]
    ∧ TrackSection.current_status s2 = SectionStatus.OCCUPIED
    ∧ TrackSection.reserved_for s2 = None.
Proof.
  intros Hres Hcap.
  apply reserve_section_inv in Hres as [[? _]|(s & Hs & Hst & Hnone & _ & ->)];
    [discriminate|].
  unfold RailwayNetwork.check_section_capacity in Hcap. rewrite Hs in Hcap.
  unfold RailwayNetwork.occupy_section. rewrite store_lookup. simpl.
  rewrite Hcap. simpl. eexists. eexists. split; [reflexivity|].
  rewrite store_lookup. split; [reflexivity|]. simpl.
  unfold occupants. rewrite Hs. auto.
Qed.

Lemma occupy_section_ignores_reservation_witness :
  ∃ net1,
    RailwayNetwork.reserve_section create_sample_network "SEC_004" "T001"
    = Py.Ok (true, net1)
    ∧ ∃ net2 s2,
        RailwayNetwork.occupy_section net1 "SEC_004" "T002" = Py.Ok (true, net2)
        ∧ RailwayNetwork.sections net2 !! "SEC_004" = Some s2
        ∧ TrackSection.occupying_trains s2
          = occupants create_sample_network "SEC_004" ++ ["T002"]
        ∧ TrackSection.current_status s2 = SectionStatus.OCCUPIED
        ∧ TrackSection.reserved_for s2 = None.
Proof.
  eexists. split; [vm_compute; reflexivity|].
  apply (occupy_section_ignores_reservation create_sample_network _
           "SEC_004" "T001" "T002"); vm_compute; reflexivity.
Defined.

(** No operation applies to a closed section without occupants. *)
Lemma closed_step_impossible (s s' : TrackSection.t) :
  section_step s s' →
  TrackSection.current_status s = SectionStatus.BLOCKED
  ∨ TrackSection.current_status s = SectionStatus.MAINTENANCE →
  TrackSection.occupying_trains s = [] →
  False.
Proof.
  intros Hst Hclosed Hocc.
  destruct Hst as [s t H1 H2|s t [H1|H1] H2|s t occ Hin Hr].
  - destruct Hclosed; congruence.
  - destruct Hclosed; congruence.
  - destruct Hclosed; congruence.
  - rewrite Hocc in Hin. inversion Hin.
Qed.

(** X10.  A section that is BLOCKED or under MAINTENANCE and has no occupant
    is out of reach of the three operations: whatever calls are made, it is
    afterwards exactly as it was, so no train gets in and no reservation is
    taken. *)
Theorem closed_section_inert
    (ops : list Op) (net : RailwayNetwork.t) (sid : string) (s : TrackSection.t) :
  RailwayNetwork.sections net !! sid = Some s →
  TrackSection.current_status s = SectionStatus.BLOCKED
  ∨ TrackSection.current_status s = SectionStatus.MAINTENANCE →
  TrackSection.occupying_trains s = [] →
  ∃ net', run ops net = Py.Ok net' ∧ RailwayNetwork.sections net' !! sid = Some s.
Proof.
  intros Hs Hclosed Hocc. revert net Hs.
  induction ops as [|op ops IH]; intros net Hs; simpl; [eauto|].
  destruct (call_returns op net) as (b & net1 & Hcall). rewrite Hcall. simpl.
  apply IH.
  destruct (call_section _ _ _ _ sid Hcall) as [Heq|(s0 & s' & Hs0 & _ & Hst)];
    [congruence|].
  assert (s0 = s) as -> by congruence.
  destruct (closed_step_impossible _ _ Hst Hclosed Hocc).
Qed.

Lemma closed_section_inert_witness :
  ∃ net',
    run [Reserve "P_CLOSED" "T001"; Occupy "P_CLOSED" "T002"; Release "P_CLOSED" "T001"]
      closed_network = Py.Ok net'
    ∧ RailwayNetwork.sections net' !! "P_CLOSED"
      = Some (TrackSection.mk "P_CLOSED" "Closed platform" SectionType.PLATFORM 0.4%float
                100 1 [] SectionStatus.MAINTENANCE [] None).
Proof.
  apply closed_section_inert; [vm_compute; reflexivity | right; reflexivity | reflexivity].
Defined.

(** X11.  When its only occupant leaves, [release_section] marks the section
    AVAILABLE whatever its status was: a section closed (BLOCKED or
    MAINTENANCE) while a train stood in it is reopened by the departure of
    that train; a reservation it carried is kept. *)
Theorem release_section_reopens
    (net : RailwayNetwork.t) (sid tid : string) (s : TrackSection.t) :
  RailwayNetwork.sections net !! sid = Some s →
  TrackSection.occupying_trains s = [tid] →
  ∃ net' s',
    RailwayNetwork.release_section net sid tid = Py.Ok (true, net')
    ∧ RailwayNetwork.sections net' !! sid = Some s'
    ∧ TrackSection.current_status s' = SectionStatus.AVAILABLE
    ∧ TrackSection.occupying_trains s' = []
    ∧ TrackSection.reserved_for s' = TrackSection.reserved_for s
    ∧ RailwayNetwork.check_section_capacity net' sid
      = (0 <? TrackSection.max_trains s).
Proof.
  intros Hs Hocc. unfold RailwayNetwork.release_section. rewrite Hs, Hocc.
  unfold Py.contains.
  rewrite bool_decide_eq_true_2 by (apply list_elem_of_singleton; reflexivity).
  simpl. rewrite decide_True by reflexivity. simpl.
  eexists. eexists. split; [reflexivity|].
  unfold RailwayNetwork.check_section_capacity.
  rewrite store_lookup. simpl. auto.
Qed.

Lemma release_section_reopens_witness :
  ∃ net' s',
    RailwayNetwork.release_section closing_network "P_CLOSED" "T001" = Py.Ok (true, net')
    ∧ RailwayNetwork.sections net' !! "P_CLOSED" = Some s'
    ∧ TrackSection.current_status s' = SectionStatus.AVAILABLE
    ∧ TrackSection.occupying_trains s' = []
    ∧ TrackSection.reserved_for s' = None
    ∧ RailwayNetwork.check_section_capacity net' "P_CLOSED" = (0 <? 1).
Proof.
  apply (release_section_reopens closing_network "P_CLOSED" "T001"
           (TrackSection.mk "P_CLOSED" "Closed platform" SectionType.PLATFORM 0.4%float
              100 1 [] SectionStatus.MAINTENANCE ["T001"] None));
    [vm_compute; reflexivity | reflexivity].
Defined.

Lemma step_consistent (s s' : TrackSection.t) :
  section_step s s' → consistent s → consistent s'.
Proof.
  intros Hst [HK Hres]. split; [now apply (step_occupied_while_held s)|].
  destruct Hst as [s t H1 H2|s t H1 H2|s t occ Hin Hr]; simpl.
  - split; [reflexivity | intros _; eexists; reflexivity].
  - split; [intros [x Hx] | intros Hx]; discriminate.
  - assert (TrackSection.current_status s = SectionStatus.OCCUPIED) as Hocc.
    { apply HK. intros Hnil. rewrite Hnil in Hin. inversion Hin. }
    assert (TrackSection.reserved_for s = None) as Hnone.
    { destruct (TrackSection.reserved_for s) eqn:E; [|reflexivity].
      assert (TrackSection.current_status s = SectionStatus.RESERVED)
        by (apply Hres; eauto).
      congruence. }
    rewrite Hnone, Hocc.
    split; [intros [x Hx]; discriminate | destruct occ; discriminate].
Qed.

Lemma get_available_sections_elem (net : RailwayNetwork.t) (sid : string) :
  sid ∈ get_available_sections net
  ↔ ∃ s, RailwayNetwork.sections net !! sid = Some s
         ∧ TrackSection.current_status s = SectionStatus.AVAILABLE.
Proof.
  unfold get_available_sections. rewrite list_elem_of_In, in_map_iff. split.
  - intros ([k s] & <- & Hin). apply filter_In in Hin as [Hin Hb].
    apply list_elem_of_In, elem_of_map_to_list in Hin.
    apply bool_decide_eq_true in Hb. eauto.
  - intros (s & Hs & Hst). exists (sid, s). split; [reflexivity|].
    apply filter_In. split.
    + now apply list_elem_of_In, elem_of_map_to_list.
    + now apply bool_decide_eq_true.
Qed.

(** X12.  Started from a network whose sections all have consistent
    bookkeeping (OCCUPIED while occupied, a reservation exactly while
    RESERVED), every sequence of operations ends in such a network; there,
    every section [get_available_sections] lists has no occupant and can be
    reserved for any train. *)
Theorem available_sections_reservable (ops : list Op) (net : RailwayNetwork.t) :
  (∀ sid s, RailwayNetwork.sections net !! sid = Some s → consistent s) →
  ∃ net',
    run ops net = Py.Ok net'
    ∧ (∀ sid s, RailwayNetwork.sections net' !! sid = Some s → consistent s)
    ∧ ∀ sid tid, sid ∈ get_available_sections net' →
        occupants net' sid = []
        ∧ ∃ net'', RailwayNetwork.reserve_section net' sid tid = Py.Ok (true, net'').
Proof.
  intros Hnet. destruct (run_returns ops net) as [net' Hrun]. exists net'.
  split; [exact Hrun|].
  assert (∀ sid s, RailwayNetwork.sections net' !! sid = Some s → consistent s) as Hnet'.
  { intros sid. apply (run_invariant consistent step_consistent ops net net' sid Hrun).
    apply Hnet. }
  split; [exact Hnet'|].
  intros sid tid Hav. apply get_available_sections_elem in Hav as (s & Hs & Hst).
  destruct (Hnet' sid s Hs) as [HK Hres].
  assert (TrackSection.occupying_trains s = []) as Hocc.
  { destruct (TrackSection.occupying_trains s) eqn:E; [reflexivity|].
    assert (TrackSection.current_status s = SectionStatus.OCCUPIED)
      by (apply HK; rewrite E; discriminate).
    congruence. }
  assert (TrackSection.reserved_for s = None) as Hnone.
  { destruct (TrackSection.reserved_for s) eqn:E; [|reflexivity].
    assert (TrackSection.current_status s = SectionStatus.RESERVED)
      by (apply Hres; eauto).
    congruence. }
  split.
  - unfold occupants. now rewrite Hs.
  - unfold RailwayNetwork.reserve_section. rewrite Hs, Hst, Hnone. simpl. eauto.
Qed.

Lemma available_sections_reservable_witness :
  ∃ net',
    run [Reserve "SEC_001" "T001"; Occupy "SEC_001" "T001"; Reserve "SEC_003" "T002";
         Release "SEC_001" "T001"] create_sample_network = Py.Ok net'
    ∧ (∀ sid s, RailwayNetwork.sections net' !! sid = Some s → consistent s)
    ∧ ∀ sid tid, sid ∈ get_available_sections net' →
        occupants net' sid = []
        ∧ ∃ net'', RailwayNetwork.reserve_section net' sid tid = Py.Ok (true, net'').
Proof.
  apply available_sections_reservable.
  apply (proj1 (map_Forall_lookup (λ (_ : string) s, consistent s) _)).
  apply (bool_decide_unpack _). vm_compute. exact I.
Defined.

(** ** models/infrastructure.py: building the network and finding routes *)

(** X13.  [add_section] stores the section under its identifier, replacing a
    section already stored there and touching no other; the adjacency entry
    of the identifier is set from [connected_sections] only when there is
    none yet, so adding a section again under a known identifier replaces the
    section but changes no route [get_route_sections] finds. *)
Theorem add_section_lookup (net : RailwayNetwork.t) (section : TrackSection.t) :
  RailwayNetwork.sections (RailwayNetwork.add_section net section)
    !! TrackSection.section_id section = Some section
  ∧ (∀ sid, sid ≠ TrackSection.section_id section →
       RailwayNetwork.sections (RailwayNetwork.add_section net section) !! sid
       = RailwayNetwork.sections net !! sid)
  ∧ RailwayNetwork.adjacency_matrix (RailwayNetwork.add_section net section)
      !! TrackSection.section_id section
    = Some (default (TrackSection.connected_sections section)
              (RailwayNetwork.adjacency_matrix net !! TrackSection.section_id section))
  ∧ (∀ sid, sid ≠ TrackSection.section_id section →
       RailwayNetwork.adjacency_matrix (RailwayNetwork.add_section net section) !! sid
       = RailwayNetwork.adjacency_matrix net !! sid)
  ∧ (is_Some (RailwayNetwork.adjacency_matrix net !! TrackSection.section_id section) →
     ∀ origin destination,
       RailwayNetwork.get_route_sections (RailwayNetwork.add_section net section)
         origin destination
       = RailwayNetwork.get_route_sections net origin destination).
Proof.
  unfold RailwayNetwork.add_section. simpl.
  destruct (RailwayNetwork.adjacency_matrix net !! TrackSection.section_id section)
    as [adj|] eqn:Hadj; simpl.
  - split; [apply lookup_insert_eq|].
    split; [intros sid Hne; now apply lookup_insert_ne|].
    split; [exact Hadj|]. split; [reflexivity|]. reflexivity.
  - split; [apply lookup_insert_eq|].
    split; [intros sid Hne; now apply lookup_insert_ne|].
    split; [apply lookup_insert_eq|].
    split; [intros sid Hne; now apply lookup_insert_ne|].
    intros [x Hx]. discriminate.
Qed.

(** X14.  A train that lists no route is routed by [get_route_sections]: it
    is scheduled on its origin alone when origin and destination coincide
    (whether or not the network knows that section), on origin then
    destination when the adjacency table links them directly, and is left
    without a schedule in every other case, in particular when the two are
    linked through intermediate sections only. *)
Theorem schedule_single_train_fallback_route (net : RailwayNetwork.t) (train : Train.t) :
  Train.route_sections train = [] →
  (SimpleTrainScheduler._schedule_single_train net train = Py.Ok None
   ↔ Train.origin_station train ≠ Train.destination_station train
     ∧ ∀ adjacent,
         RailwayNetwork.adjacency_matrix net !! Train.origin_station train = Some adjacent →
         Train.destination_station train ∉ adjacent)
  ∧ ∀ ts, SimpleTrainScheduler._schedule_single_train net train = Py.Ok (Some ts) →
      map SectionSchedule.section_id (TrainSchedule.sections ts)
      = if decide (Train.origin_station train = Train.destination_station train)
        then [Train.origin_station train]
        else [Train.origin_station train; Train.destination_station train].
Proof.
  intros Hroute.
  assert (SimpleTrainScheduler._get_train_route net train
          = RailwayNetwork.get_route_sections net
              (Train.origin_station train) (Train.destination_station train)) as Hr.
  { unfold SimpleTrainScheduler._get_train_route. now rewrite Hroute. }
  split.
  - rewrite schedule_single_train_none, Hr.
    unfold RailwayNetwork.get_route_sections.
    destruct (decide (Train.origin_station train = Train.destination_station train))
      as [Heq|Hne].
    + split; [discriminate | intros [Hne _]; contradiction].
    + destruct (RailwayNetwork.adjacency_matrix net !! Train.origin_station train)
        as [adjacent|] eqn:Hadj.
      * destruct (Py.contains (Train.destination_station train) adjacent) eqn:Hc.
        -- apply contains_spec in Hc.
           split; [discriminate | intros [_ Hnin]; destruct (Hnin adjacent eq_refl Hc)].
        -- split; [|reflexivity].
           intros _. split; [exact Hne|]. intros adj [= <-] Hin.
           apply contains_spec in Hin. congruence.
      * split; [|reflexivity].
        intros _. split; [exact Hne|]. intros adj [=].
  - intros ts Hts.
    apply schedule_single_train_inv in Hts as [Hne (segs & Hsegs & ->)]. simpl.
    rewrite (route_loop_sections net train _ 0 segs Hsegs).
    rewrite Hr in Hne |- *. revert Hne.
    unfold RailwayNetwork.get_route_sections.
    destruct (decide (Train.origin_station train = Train.destination_station train));
      [reflexivity|].
    destruct (RailwayNetwork.adjacency_matrix net !! Train.origin_station train)
      as [adjacent|]; [|congruence].
    destruct (Py.contains (Train.destination_station train) adjacent); congruence.
Qed.

Lemma schedule_single_train_fallback_route_witness :
  (SimpleTrainScheduler._schedule_single_train create_sample_network T005 = Py.Ok None
   ↔ Train.origin_station T005 ≠ Train.destination_station T005
     ∧ ∀ adjacent,
         RailwayNetwork.adjacency_matrix create_sample_network !! Train.origin_station T005
         = Some adjacent →
         Train.destination_station T005 ∉ adjacent)
  ∧ ∀ ts, SimpleTrainScheduler._schedule_single_train create_sample_network T005
          = Py.Ok (Some ts) →
      map SectionSchedule.section_id (TrainSchedule.sections ts)
      = if decide (Train.origin_station T005 = Train.destination_station T005)
        then [Train.origin_station T005]
        else [Train.origin_station T005; Train.destination_station T005].
Proof.
  apply (schedule_single_train_fallback_route create_sample_network T005). reflexivity.
Defined.

(** ** optimization/simple_scheduler.py: the order of the sorted trains *)

Section SortedOrder.
Context {A : Type}.

Lemma insert_desc_sorted (x : Q * A) (l : list (Q * A)) :
  StronglySorted (λ a b, (fst b <= fst a)%Q) l →
  StronglySorted (λ a b, (fst b <= fst a)%Q) (PySort.insert_desc x l).
Proof.
  induction 1 as [|y l Hl IH Hy]; simpl.
  - constructor; constructor.
  - destruct (Qle_bool (fst y) (fst x)) eqn:Hle.
    + apply Qle_bool_iff in Hle. constructor; [now constructor|].
      constructor; [exact Hle|].
      eapply Forall_impl; [exact Hy|]. intros z Hz. simpl in Hz.
      now apply (Qle_trans _ (fst y)).
    + assert (fst x <= fst y)%Q as Hxy.
      { apply Qlt_le_weak, Qnot_le_lt. intros Hc.
        apply Qle_bool_iff in Hc. congruence. }
      constructor; [exact IH|].
      apply Forall_forall. intros z Hz.
      rewrite (insert_desc_perm x l) in Hz.
      inversion Hz; subst; [exact Hxy|].
      rewrite Forall_forall in Hy. now apply Hy.
Qed.

Lemma sort_desc_sorted (l : list (Q * A)) :
  StronglySorted (λ a b, (fst b <= fst a)%Q) (PySort.sort_desc l).
Proof.
  induction l as [|x l IH]; simpl; [constructor|]. now apply insert_desc_sorted.
Qed.

(** The sort is stable: the elements with a given key keep their order. *)
Lemma insert_desc_stable (q : Q) (x : Q * A) (l : list (Q * A)) :
  List.filter (λ e, Qeq_bool (fst e) q) (PySort.insert_desc x l)
  = List.filter (λ e, Qeq_bool (fst e) q) (x :: l).
Proof.
  induction l as [|y l IH]; [reflexivity|].
  cbn [PySort.insert_desc].
  destruct (Qle_bool (fst y) (fst x)) eqn:Hle; [reflexivity|].
  cbn [List.filter] in *. rewrite IH.
  destruct (Qeq_bool (fst y) q) eqn:Hy; [|reflexivity].
  destruct (Qeq_bool (fst x) q) eqn:Hx; [|reflexivity].
  apply Qeq_bool_iff in Hx, Hy.
  assert (Qle_bool (fst y) (fst x) = true); [|congruence].
  apply Qle_bool_iff. rewrite Hx, Hy. apply Qle_refl.
Qed.

Lemma sort_desc_stable (q : Q) (l : list (Q * A)) :
  List.filter (λ e, Qeq_bool (fst e) q) (PySort.sort_desc l)
  = List.filter (λ e, Qeq_bool (fst e) q) l.
Proof.
  induction l as [|x l IH]; [reflexivity|].
  cbn [PySort.sort_desc foldr]. rewrite insert_desc_stable.
  cbn [List.filter]. fold (PySort.sort_desc l). now rewrite IH.
Qed.

(** The keys the sort computed: every element got its score. *)
Lemma map_result_scored (key : A → Py.result Q) (l : list A) (ks : list (Q * A)) :
  Py.map_result (PySort.keyed key) l = Py.Ok ks →
  ks = map (λ x, (value_or 0%Q (key x), x)) l.
Proof.
  revert ks. induction l as [|x l IH]; simpl; intros ks.
  - now intros [= <-].
  - unfold PySort.keyed at 1.
    destruct (key x) as [q|e]; simpl; [|discriminate].
    destruct (Py.map_result (PySort.keyed key) l) as [ks'|e]; simpl; [|discriminate].
    intros [= <-]. now rewrite (IH ks' eq_refl).
Qed.

Lemma sorted_snd (score : A → Q) (s : list (Q * A)) :
  Forall (λ e, fst e = score (snd e)) s →
  StronglySorted (λ a b, (fst b <= fst a)%Q) s →
  StronglySorted (λ a b, (score b <= score a)%Q) (map snd s).
Proof.
  intros Hks Hs. induction Hs as [|e s Hs IH He]; simpl; [constructor|].
  inversion Hks as [|? ? He1 Hks1]; subst.
  constructor; [now apply IH|].
  apply Forall_forall. intros y Hy.
  apply list_elem_of_In, in_map_iff in Hy as (e' & <- & Hin).
  rewrite Forall_forall in He, Hks1.
  apply list_elem_of_In in Hin.
  rewrite <- He1, <- (Hks1 e' Hin). now apply He.
Qed.

Lemma filter_snd (score : A → Q) (q : Q) (s : list (Q * A)) :
  Forall (λ e, fst e = score (snd e)) s →
  List.filter (λ x, Qeq_bool (score x) q) (map snd s)
  = map snd (List.filter (λ e, Qeq_bool (fst e) q) s).
Proof.
  induction 1 as [|e s He _ IH]; simpl; [reflexivity|].
  rewrite <- He. destruct (Qeq_bool (fst e) q); simpl; now rewrite IH.
Qed.

(** Sorting by a score gives the elements in non-increasing order of score,
    those with equal scores in their input order. *)
Lemma sort_desc_scored (score : A → Q) (l : list A) :
  StronglySorted (λ a b, (score b <= score a)%Q)
    (map snd (PySort.sort_desc (map (λ x, (score x, x)) l)))
  ∧ ∀ q, List.filter (λ x, Qeq_bool (score x) q)
           (map snd (PySort.sort_desc (map (λ x, (score x, x)) l)))
         = List.filter (λ x, Qeq_bool (score x) q) l.
Proof.
  assert (Forall (λ e : Q * A, fst e = score (snd e)) (map (λ x, (score x, x)) l)) as Hks0.
  { apply Forall_forall. intros e He.
    apply list_elem_of_In, in_map_iff in He as (x & <- & _). reflexivity. }
  assert (Forall (λ e : Q * A, fst e = score (snd e))
            (PySort.sort_desc (map (λ x, (score x, x)) l))) as Hks.
  { apply Forall_forall. intros e He. rewrite sort_desc_perm in He.
    rewrite Forall_forall in Hks0. now apply Hks0. }
  assert (map snd (map (λ x, (score x, x)) l) = l) as Hsnd.
  { rewrite map_map. simpl. apply map_id. }
  split.
  - apply (sorted_snd score); [exact Hks | apply sort_desc_sorted].
  - intros q. rewrite (filter_snd score q _ Hks), sort_desc_stable.
    rewrite <- (filter_snd score q _ Hks0). now rewrite Hsnd.
Qed.

(** When [sorted(..., reverse=True)] returns, it returns the elements in
    non-increasing order of the scores the key gave them, those with equal
    scores in their input order. *)
Lemma sorted_reverse_scored (key : A → Py.result Q) (l l' : list A) :
  PySort.sorted_reverse key l = Py.Ok l' →
  Permutation l' l
  ∧ StronglySorted (λ a b, (value_or 0 (key b) <= value_or 0 (key a))%Q) l'
  ∧ ∀ q, List.filter (λ x, Qeq_bool (value_or 0%Q (key x)) q) l'
         = List.filter (λ x, Qeq_bool (value_or 0%Q (key x)) q) l.
Proof.
  intros Hsorted. pose proof (sorted_reverse_perm key l l' Hsorted) as Hperm.
  unfold PySort.sorted_reverse in Hsorted.
  apply bind_Ok in Hsorted as (ks & Hks & [= <-]).
  apply map_result_scored in Hks. subst ks.
  split; [exact Hperm|].
  exact (sort_desc_scored (λ x, value_or 0%Q (key x)) l).
Qed.

(** When the sort returns, the key returned the score of every element. *)
Lemma sorted_reverse_scores (key : A → Py.result Q) (l l' : list A) :
  PySort.sorted_reverse key l = Py.Ok l' →
  ∀ x, x ∈ l → key x = Py.Ok (value_or 0%Q (key x)).
Proof.
  intros H x Hx. destruct (sorted_reverse_keys key l l' H x Hx) as [q ->]. reflexivity.
Qed.

End SortedOrder.

(** X15.  In every schedule [optimize_schedule] returns, whatever key orders
    the trains, the key has given every train a score and the entries follow
    the trains in non-increasing order of score, trains with equal scores in
    their input order; the trains without a route are skipped. *)
Theorem optimize_schedule_priority_order
    (net : RailwayNetwork.t) (key : Train.t → Py.result Q)
    (trains : list Train.t) (h : Z) (sched : Schedule.t) :
  SimpleTrainScheduler.optimize_schedule_by net key trains h = Py.Ok sched →
  ∃ sorted,
    Permutation sorted trains
    ∧ (∀ train, train ∈ trains → key train = Py.Ok (score_of key train))
    ∧ StronglySorted (λ a b, (score_of key b <= score_of key a)%Q) sorted
    ∧ (∀ q, List.filter (λ train, Qeq_bool (score_of key train) q) sorted
            = List.filter (λ train, Qeq_bool (score_of key train) q) trains)
    ∧ Schedule.trains sched = omap (entry_of net) sorted.
Proof.
  intros Hopt.
  apply optimize_schedule_by_inv in Hopt as (sorted & Hsorted & _ & ->).
  destruct (sorted_reverse_scored key trains sorted Hsorted) as (Hperm & Hdesc & Hstable).
  exists sorted. split; [exact Hperm|].
  split; [exact (sorted_reverse_scores key trains sorted Hsorted)|].
  split; [exact Hdesc|]. split; [exact Hstable | reflexivity].
Qed.

(** Five trains under the specification's score: the two expresses with a
    route keep their input order, and [T005], which has no route, is
    skipped. *)
Lemma optimize_schedule_priority_order_witness :
  ∃ sched,
    SimpleTrainScheduler.optimize_schedule_by create_sample_network spec_key
      [T003; T001; T005; T004; T002] 24 = Py.Ok sched
    ∧ map TrainSchedule.train_id (Schedule.trains sched) = ["T001"; "T004"; "T002"; "T003"]
    ∧ ∃ sorted,
        Permutation sorted [T003; T001; T005; T004; T002]
        ∧ (∀ train, train ∈ [T003; T001; T005; T004; T002] →
             spec_key train = Py.Ok (score_of spec_key train))
        ∧ StronglySorted (λ a b, (score_of spec_key b <= score_of spec_key a)%Q) sorted
        ∧ (∀ q, List.filter (λ train, Qeq_bool (score_of spec_key train) q) sorted
                = List.filter (λ train, Qeq_bool (score_of spec_key train) q)
                    [T003; T001; T005; T004; T002])
        ∧ Schedule.trains sched = omap (entry_of create_sample_network) sorted.
Proof.
  eexists. split; [vm_compute; reflexivity|]. split; [reflexivity|].
  apply (optimize_schedule_priority_order create_sample_network spec_key
           [T003; T001; T005; T004; T002] 24).
  vm_compute. reflexivity.
Defined.

(** ** [resolve_conflicts] *)

Lemma train_dict_fold_mono (trains : list Train.t) (d : gmap string Train.t) (k : string) :
  is_Some (d !! k) →
  is_Some (fold_left (λ d train, <[Train.train_id train := train]> d) trains d !! k).
Proof.
  revert d. induction trains as [|x l IH]; intros d Hd; simpl; [exact Hd|].
  apply IH. apply lookup_insert_is_Some. destruct (decide (Train.train_id x = k)); auto.
Qed.

(** Every train of the list is found under its identifier, and what is found
    under an identifier is a train of the list with that identifier. *)
Lemma train_dict_known (trains : list Train.t) (train : Train.t) :
  train ∈ trains → is_Some (train_dict trains !! Train.train_id train).
Proof.
  unfold train_dict. generalize (∅ : gmap string Train.t).
  induction trains as [|x l IH]; intros d Hin; [inversion Hin|].
  simpl. inversion Hin; subst.
  - apply train_dict_fold_mono. rewrite lookup_insert_eq. eauto.
  - now apply IH.
Qed.

Lemma train_dict_fold_lookup (trains : list Train.t) (d : gmap string Train.t)
    (k : string) (train : Train.t) :
  fold_left (λ d train, <[Train.train_id train := train]> d) trains d !! k = Some train →
  (train ∈ trains ∧ Train.train_id train = k) ∨ d !! k = Some train.
Proof.
  revert d. induction trains as [|x l IH]; intros d; simpl; [auto|].
  intros H. apply IH in H as [[Hin Hid]|H].
  - left. split; [now constructor | exact Hid].
  - apply lookup_insert_Some in H as [[Hid ->]|[_ H]]; [|auto].
    left. split; [constructor | exact Hid].
Qed.

Lemma train_dict_lookup (trains : list Train.t) (k : string) (train : Train.t) :
  train_dict trains !! k = Some train → train ∈ trains ∧ Train.train_id train = k.
Proof.
  intros H. apply train_dict_fold_lookup in H as [H|H]; [exact H|].
  rewrite lookup_empty in H. discriminate.
Qed.

(** With the key as written, the loop returns its accumulator when no
    conflict names two trains of the list, and raises as soon as one does. *)
Lemma simple_resolve_loop_as_written (randint : nat → Z) (trains : list Train.t)
    (conflicts : list TrainConflict.t) (resolutions : list Resolution.t) :
  SimpleTrainScheduler.resolve_loop calculate_priority_score randint trains conflicts
    resolutions
  = if forallb (λ c, negb (resolvable trains c)) conflicts
    then Py.Ok resolutions else Py.Err Py.AttributeError.
Proof.
  induction conflicts as [|c conflicts IH]; [reflexivity|].
  cbn [SimpleTrainScheduler.resolve_loop forallb]. unfold resolvable at 1.
  destruct (conflicting_trains trains c) as [|first [|second others]];
    [exact IH | exact IH|].
  rewrite (sorted_reverse_raises calculate_priority_score first _ Py.AttributeError);
    [reflexivity | apply calculate_priority_score_AttributeError].
Qed.

Lemma cp_resolve_loop_as_written (trains : list Train.t)
    (conflicts : list TrainConflict.t) (resolutions : list Resolution.t) :
  TrainScheduler.resolve_loop calculate_priority_score trains conflicts resolutions
  = if forallb (λ c, negb (resolvable trains c)) conflicts
    then Py.Ok resolutions else Py.Err Py.AttributeError.
Proof.
  induction conflicts as [|c conflicts IH]; [reflexivity|].
  cbn [TrainScheduler.resolve_loop forallb]. unfold resolvable at 1.
  destruct (conflicting_trains trains c) as [|first [|second others]];
    [exact IH | exact IH|].
  rewrite (sorted_reverse_raises calculate_priority_score first _ Py.AttributeError);
    [reflexivity | apply calculate_priority_score_AttributeError].
Qed.

(** X16.  [resolve_conflicts] as written, in both schedulers, proposes
    nothing: it returns the empty list when no conflict names at least two
    trains of the list, and raises AttributeError otherwise, because sorting
    the trains of the first such conflict calls [calculate_priority_score]. *)
Theorem resolve_conflicts_as_written
    (randint : nat → Z) (conflicts : list TrainConflict.t) (trains : list Train.t) :
  SimpleTrainScheduler.resolve_conflicts randint conflicts trains
  = (if forallb (λ c, negb (resolvable trains c)) conflicts
     then Py.Ok [] else Py.Err Py.AttributeError)
  ∧ TrainScheduler.resolve_conflicts conflicts trains
    = (if forallb (λ c, negb (resolvable trains c)) conflicts
       then Py.Ok [] else Py.Err Py.AttributeError).
Proof.
  split.
  - apply simple_resolve_loop_as_written.
  - apply cp_resolve_loop_as_written.
Qed.

(** The conflicts [detect_conflicts] reports are pairs of trains of the list. *)
Lemma detect_conflicts_pairs (net : RailwayNetwork.t) (trains : list Train.t)
    (c : TrainConflict.t) :
  c ∈ SimpleTrainScheduler.detect_conflicts net trains →
  ∃ sid train1 train2,
    c = SimpleTrainScheduler.make_conflict sid (train1, train2)
    ∧ train1 ∈ trains ∧ train2 ∈ trains.
Proof.
  rewrite detect_conflicts_spec. intros Hc.
  apply list_elem_of_In, in_flat_map in Hc as (sid & _ & Hc).
  assert (∀ t, t ∈ visitors sid (visits net trains) → t ∈ trains) as Hvis.
  { intros t Ht. unfold visitors in Ht.
    apply list_elem_of_In, in_map_iff in Ht as ([k t'] & <- & Ht).
    apply filter_In in Ht as [Ht _]. unfold visits in Ht.
    apply in_flat_map in Ht as (train & Hin & Ht).
    apply in_map_iff in Ht as (k' & [= _ <-] & _). now apply list_elem_of_In. }
  unfold SimpleTrainScheduler.section_conflicts in Hc.
  destruct (1 <? _); [|inversion Hc].
  destruct (RailwayNetwork.sections net !! sid); [|inversion Hc].
  destruct (_ <? _); [|inversion Hc].
  apply in_map_iff in Hc as ([t1 t2] & <- & Hp).
  apply list_elem_of_In, index_pairs_elem in Hp as (i & j & _ & Hi & Hj).
  exists sid, t1, t2. split; [reflexivity|].
  split; apply Hvis; apply list_elem_of_lookup; eauto.
Qed.

Lemma detect_conflicts_resolvable (net : RailwayNetwork.t) (trains : list Train.t)
    (c : TrainConflict.t) :
  c ∈ SimpleTrainScheduler.detect_conflicts net trains → resolvable trains c = true.
Proof.
  intros Hc. apply detect_conflicts_pairs in Hc as (sid & t1 & t2 & -> & H1 & H2).
  unfold resolvable, conflicting_trains. simpl.
  destruct (train_dict_known trains t1 H1) as [x1 ->].
  destruct (train_dict_known trains t2 H2) as [x2 ->]. reflexivity.
Qed.

(** X17.  Resolving what was just detected, as the conflict-resolution
    endpoints do: with the code as written the call returns the empty list
    when [detect_conflicts] finds no conflict and raises AttributeError as
    soon as it finds one, in both schedulers. *)
Theorem resolve_detected_conflicts_as_written
    (net : RailwayNetwork.t) (randint : nat → Z) (trains : list Train.t) :
  SimpleTrainScheduler.resolve_conflicts randint
    (SimpleTrainScheduler.detect_conflicts net trains) trains
  = match SimpleTrainScheduler.detect_conflicts net trains with
    | [] => Py.Ok []
    | _ :: _ => Py.Err Py.AttributeError
    end
  ∧ TrainScheduler.resolve_conflicts
      (SimpleTrainScheduler.detect_conflicts net trains) trains
    = match SimpleTrainScheduler.detect_conflicts net trains with
      | [] => Py.Ok []
      | _ :: _ => Py.Err Py.AttributeError
      end.
Proof.
  unfold SimpleTrainScheduler.resolve_conflicts, SimpleTrainScheduler.resolve_conflicts_by,
    TrainScheduler.resolve_conflicts, TrainScheduler.resolve_conflicts_by.
  rewrite simple_resolve_loop_as_written, cp_resolve_loop_as_written.
  pose proof (detect_conflicts_resolvable net trains) as Hres.
  destruct (SimpleTrainScheduler.detect_conflicts net trains) as [|c cs]; [auto|].
  simpl. rewrite (Hres c) by constructor. auto.
Qed.

(** The first two trains of the sorted list: a train with the highest score,
    and a train whose score is not higher. *)
Lemma sorted_top_two (key : Train.t → Py.result Q)
    (first second : Train.t) (others sorted : list Train.t) :
  PySort.sorted_reverse key (first :: second :: others) = Py.Ok sorted →
  hd first sorted ∈ first :: second :: others
  ∧ hd second (tl sorted) ∈ first :: second :: others
  ∧ (score_of key (hd second (tl sorted)) <= score_of key (hd first sorted))%Q
  ∧ ∀ train, train ∈ first :: second :: others →
      (score_of key train <= score_of key (hd first sorted))%Q.
Proof.
  intros Hsorted.
  destruct (sorted_reverse_scored key (first :: second :: others) sorted Hsorted)
    as (Hperm & Hdesc & _).
  pose proof (Permutation_length Hperm) as Hlen.
  destruct sorted as [|a [|b rest]]; simpl in Hlen; try discriminate. simpl.
  inversion Hdesc as [|? ? _ Ha]; subst.
  rewrite Forall_forall in Ha.
  split; [rewrite <- Hperm; constructor|].
  split; [rewrite <- Hperm; constructor; constructor|].
  split; [apply Ha; constructor|].
  intros train Hin. rewrite <- Hperm in Hin.
  inversion Hin; subst; [apply Qle_refl | now apply Ha].
Qed.

(** What the loop of the simple scheduler has done when it returns, whatever
    the key: one resolution for each conflict that names two trains of the
    list, in order. *)
Lemma simple_resolve_loop_returned (key : Train.t → Py.result Q)
    (randint : nat → Z) (trains : list Train.t)
    (conflicts : list TrainConflict.t) (resolutions rs : list Resolution.t) :
  SimpleTrainScheduler.resolve_loop key randint trains conflicts resolutions = Py.Ok rs →
  ∃ new,
    rs = resolutions ++ new
    ∧ Forall2 (resolves (score_of key) trains) (List.filter (resolvable trains) conflicts) new
    ∧ ∀ i r, new !! i = Some r →
        Resolution.estimated_delay r = randint (length resolutions + i)%nat.
Proof.
  revert resolutions.
  induction conflicts as [|c conflicts IH]; intros resolutions Hrun.
  - injection Hrun as <-. exists []. rewrite app_nil_r. split; [reflexivity|].
    split; [constructor | intros i r H; discriminate].
  - cbn [SimpleTrainScheduler.resolve_loop List.filter] in Hrun |- *.
    unfold resolvable at 1.
    destruct (conflicting_trains trains c) as [|first [|second others]] eqn:Hc;
      [now apply IH | now apply IH|].
    apply bind_Ok in Hrun as (sorted & Hsorted & Hrun).
    cbn [length Nat.leb].
    destruct (sorted_top_two key first second others sorted Hsorted)
      as (Hhi & Hlo & Hle & Hmax).
    destruct (IH _ Hrun) as (new & -> & Hall & Hdelay).
    eexists (_ :: new). split; [rewrite <- app_assoc; reflexivity|].
    split.
    + constructor; [|exact Hall].
      split; [reflexivity|]. split; [reflexivity|].
      exists (hd first sorted), (hd second (tl sorted)). rewrite Hc.
      split; [exact Hhi|]. split; [exact Hlo|]. split; [reflexivity|].
      split; [reflexivity|]. split; [exact Hle | exact Hmax].
    + intros [|i] r Hr; simpl in Hr.
      * injection Hr as <-. simpl. f_equal. lia.
      * rewrite (Hdelay i r Hr), length_app. simpl. f_equal. lia.
Qed.

Lemma cp_resolve_loop_returned (key : Train.t → Py.result Q)
    (trains : list Train.t)
    (conflicts : list TrainConflict.t) (resolutions rs : list Resolution.t) :
  TrainScheduler.resolve_loop key trains conflicts resolutions = Py.Ok rs →
  ∃ new,
    rs = resolutions ++ new
    ∧ Forall2 (resolves (score_of key) trains) (List.filter (resolvable trains) conflicts) new
    ∧ Forall (λ r, Resolution.estimated_delay r = 15) new.
Proof.
  revert resolutions.
  induction conflicts as [|c conflicts IH]; intros resolutions Hrun.
  - injection Hrun as <-. exists []. rewrite app_nil_r. split; [reflexivity|].
    split; constructor.
  - cbn [TrainScheduler.resolve_loop List.filter] in Hrun |- *.
    unfold resolvable at 1.
    destruct (conflicting_trains trains c) as [|first [|second others]] eqn:Hc;
      [now apply IH | now apply IH|].
    apply bind_Ok in Hrun as (sorted & Hsorted & Hrun).
    cbn [length Nat.leb].
    destruct (sorted_top_two key first second others sorted Hsorted)
      as (Hhi & Hlo & Hle & Hmax).
    destruct (IH _ Hrun) as (new & -> & Hall & Hdelay).
    eexists (_ :: new). split; [rewrite <- app_assoc; reflexivity|].
    split.
    + constructor; [|exact Hall].
      split; [reflexivity|]. split; [reflexivity|].
      exists (hd first sorted), (hd second (tl sorted)). rewrite Hc.
      split; [exact Hhi|]. split; [exact Hlo|]. split; [reflexivity|].
      split; [reflexivity|]. split; [exact Hle | exact Hmax].
    + constructor; [reflexivity | exact Hdelay].
Qed.



Lemma filter_true {A : Type} (f : A → bool) (l : list A) :
  (∀ x, x ∈ l → f x = true) → List.filter f l = l.
Proof.
  induction l as [|x l IH]; intros Hf; simpl; [reflexivity|].
  rewrite (Hf x) by constructor. f_equal. apply IH.
  intros y Hy. apply Hf. now constructor.
Qed.

(** X19.  Detection followed by resolution: whenever [resolve_conflicts]
    returns on the conflicts [detect_conflicts] reports for a train list, in
    either scheduler and whatever key orders the trains, every detected
    conflict has received one resolution, in order; none is skipped, the two
    trains of a detected conflict being trains of the list. *)
Theorem resolve_detected_conflicts
    (net : RailwayNetwork.t) (key : Train.t → Py.result Q)
    (randint : nat → Z) (trains : list Train.t) :
  (∀ rs,
     SimpleTrainScheduler.resolve_conflicts_by key randint
       (SimpleTrainScheduler.detect_conflicts net trains) trains = Py.Ok rs →
     Forall2 (resolves (score_of key) trains)
       (SimpleTrainScheduler.detect_conflicts net trains) rs)
  ∧ (∀ rs,
       TrainScheduler.resolve_conflicts_by key
         (SimpleTrainScheduler.detect_conflicts net trains) trains = Py.Ok rs →
       Forall2 (resolves (score_of key) trains)
         (SimpleTrainScheduler.detect_conflicts net trains) rs).
Proof.
  pose proof (filter_true (resolvable trains)
                (SimpleTrainScheduler.detect_conflicts net trains)
                (detect_conflicts_resolvable net trains)) as Hall.
  split; intros rs Hrun.
  - apply simple_resolve_loop_returned in Hrun as (new & -> & Hres & _).
    now rewrite Hall in Hres.
  - apply cp_resolve_loop_returned in Hrun as (new & -> & Hres & _).
    now rewrite Hall in Hres.
Qed.

Lemma resolve_detected_conflicts_witness :
  (∃ rs,
     SimpleTrainScheduler.resolve_conflicts_by spec_key (λ n, 10 + Z.of_nat n)
       (SimpleTrainScheduler.detect_conflicts create_sample_network [T001; T002; T003])
       [T001; T002; T003] = Py.Ok rs
     ∧ length rs = 5%nat
     ∧ Forall2 (resolves (score_of spec_key) [T001; T002; T003])
         (SimpleTrainScheduler.detect_conflicts create_sample_network [T001; T002; T003])
         rs)
  ∧ (∃ rs,
       TrainScheduler.resolve_conflicts_by spec_key
         (SimpleTrainScheduler.detect_conflicts create_sample_network [T001; T002; T003])
         [T001; T002; T003] = Py.Ok rs
       ∧ length rs = 5%nat
       ∧ Forall2 (resolves (score_of spec_key) [T001; T002; T003])
           (SimpleTrainScheduler.detect_conflicts create_sample_network
              [T001; T002; T003])
           rs).
Proof.
  pose proof (resolve_detected_conflicts create_sample_network spec_key
                (λ n, 10 + Z.of_nat n) [T001; T002; T003]) as [Hsimple Hcp].
  split; eexists; (split; [vm_compute; reflexivity|]); (split; [reflexivity|]).
  - apply Hsimple. vm_compute. reflexivity.
  - apply Hcp. vm_compute. reflexivity.
Defined.

(** ** [_apply_disruptions]: the delay a train receives *)

Lemma delayed_zero (train : Train.t) : delayed 0 train = train.
Proof.
  destruct train. unfold delayed, timedelta_minutes. simpl.
  now rewrite !Z.add_0_r.
Qed.

Lemma delayed_delayed (a b : Z) (train : Train.t) :
  delayed b (delayed a train) = delayed (a + b) train.
Proof.
  unfold delayed, timedelta_minutes. simpl. f_equal; lia.
Qed.

(** When the two assignments return, the train is delayed by the minutes
    given. *)
Lemma delay_train_returned (m : Z) (train train' : Train.t) :
  SimpleRealTimeOptimizer.delay_train m train = (train', Py.Ok tt) →
  train' = delayed m train.
Proof.
  unfold SimpleRealTimeOptimizer.delay_train, timedelta_of_minutes, datetime_add.
  destruct (Z.abs (m / 1440) <=? 999999999);
    cbn [mbind result_bind Py.bind]; [|discriminate].
  destruct ((0 <=? _) && (_ <=? datetime_max)); [|discriminate].
  unfold SimpleRealTimeOptimizer.set_scheduled_departure at 1 2 3.
  cbn [Train.scheduled_arrival].
  destruct ((0 <=? _) && (_ <=? datetime_max)); [|discriminate].
  now intros [= <-].
Qed.

(** They return for a delay that is not negative and keeps both times of the
    train within the range of [datetime]. *)
Lemma delay_train_returns (m : Z) (train : Train.t) :
  0 <= m →
  0 <= Train.scheduled_departure train →
  0 <= Train.scheduled_arrival train →
  Train.scheduled_departure (delayed m train) <= datetime_max →
  Train.scheduled_arrival (delayed m train) <= datetime_max →
  SimpleRealTimeOptimizer.delay_train m train = (delayed m train, Py.Ok tt).
Proof.
  intros Hm Hdep Harr Hdep' Harr'.
  unfold delayed in Hdep', Harr'.
  cbn [Train.scheduled_departure Train.scheduled_arrival] in Hdep', Harr'.
  unfold SimpleRealTimeOptimizer.delay_train, timedelta_of_minutes, datetime_add.
  assert ((Z.abs (m / 1440) <=? 999999999) = true) as ->.
  { apply Z.leb_le. rewrite Z.abs_eq by (apply Z.div_pos; lia).
    apply Z.div_le_upper_bound; [lia|].
    unfold timedelta_minutes in Hdep'.
    assert (datetime_max = 315537897599999999) as Hmax by reflexivity.
    rewrite Hmax in Hdep'. lia. }
  cbn [mbind result_bind Py.bind].
  assert (∀ t, 0 <= t → t + timedelta_minutes m <= datetime_max →
            (0 <=? t + timedelta_minutes m) && (t + timedelta_minutes m <=? datetime_max)
            = true) as Hin.
  { intros t Ht Hmax. apply andb_true_iff.
    split; apply Z.leb_le; [unfold timedelta_minutes; lia | exact Hmax]. }
  rewrite (Hin _ Hdep Hdep').
  unfold SimpleRealTimeOptimizer.set_scheduled_departure at 1 2 3.
  cbn [Train.scheduled_arrival].
  rewrite (Hin _ Harr Harr'). reflexivity.
Qed.

(** The trains the inner loop leaves when it delays every train with the
    identifier given. *)
Lemma delay_first_unknown_fst (tid : option string) (m : Z) (trains : list Train.t) :
  (∀ train, train ∈ trains → Some (Train.train_id train) ≠ tid) →
  map (λ train, if bool_decide (Some (Train.train_id train) = tid)
                then delayed m train else train) trains
  = trains.
Proof.
  induction trains as [|train trains IH]; intros H; simpl; [reflexivity|].
  rewrite bool_decide_eq_false_2 by (apply H; constructor).
  f_equal. apply IH. intros t Ht. apply H. now constructor.
Qed.

Lemma NoDup_head_unique (train : Train.t) (trains : list Train.t) (tid : option string) :
  NoDup (map Train.train_id (train :: trains)) →
  Some (Train.train_id train) = tid →
  ∀ t, t ∈ trains → Some (Train.train_id t) ≠ tid.
Proof.
  simpl. intros Hnd Hid t Ht Heq. apply NoDup_cons in Hnd as [Hnin _]. apply Hnin.
  assert (Train.train_id t = Train.train_id train) as <- by congruence.
  apply list_elem_of_In, in_map, list_elem_of_In, Ht.
Qed.

(** In a list without repeated identifiers the inner loop, when it returns,
    has delayed every train that carries the identifier, there being at most
    one. *)
Lemma delay_first_NoDup (tid : option string) (m : Z) (trains trains' : list Train.t) :
  NoDup (map Train.train_id trains) →
  SimpleRealTimeOptimizer.delay_first tid m trains = (trains', Py.Ok tt) →
  trains' = map (λ train, if bool_decide (Some (Train.train_id train) = tid)
                          then delayed m train else train) trains.
Proof.
  revert trains'. induction trains as [|train trains IH]; intros trains' Hnd.
  - now intros [= <-].
  - cbn [SimpleRealTimeOptimizer.delay_first map].
    destruct (bool_decide (Some (Train.train_id train) = tid)) eqn:Hid.
    + apply bool_decide_eq_true in Hid.
      destruct (SimpleRealTimeOptimizer.delay_train m train) as [train1 outcome] eqn:Ht.
      intros [= <- ->]. rewrite (delay_train_returned m train train1 Ht).
      f_equal. symmetry. apply delay_first_unknown_fst.
      now apply (NoDup_head_unique train).
    + destruct (SimpleRealTimeOptimizer.delay_first tid m trains) as [rest outcome].
      intros [= <- ->]. f_equal. apply IH; [|reflexivity].
      simpl in Hnd. now apply NoDup_cons in Hnd as [_ Hnd].
Qed.

Lemma delay_first_returns (tid : option string) (m : Z) (trains : list Train.t) :
  NoDup (map Train.train_id trains) →
  (∀ train, train ∈ trains → Some (Train.train_id train) = tid →
     SimpleRealTimeOptimizer.delay_train m train = (delayed m train, Py.Ok tt)) →
  SimpleRealTimeOptimizer.delay_first tid m trains
  = (map (λ train, if bool_decide (Some (Train.train_id train) = tid)
                   then delayed m train else train) trains,
     Py.Ok tt).
Proof.
  induction trains as [|train trains IH]; intros Hnd Hok; [reflexivity|].
  cbn [SimpleRealTimeOptimizer.delay_first map].
  destruct (bool_decide (Some (Train.train_id train) = tid)) eqn:Hid.
  - apply bool_decide_eq_true in Hid.
    rewrite (Hok train) by (constructor || exact Hid).
    rewrite delay_first_unknown_fst; [reflexivity|].
    now apply (NoDup_head_unique train).
  - rewrite IH; [reflexivity| |].
    + simpl in Hnd. now apply NoDup_cons in Hnd as [_ Hnd].
    + intros t Ht. apply Hok. now constructor.
Qed.

Lemma total_delay_cons (tid : string) (d : Disruption.t) (ds : list Disruption.t) :
  total_delay tid (d :: ds)
  = (if addressed_to tid d then default 0 (Disruption.delay_minutes d) else 0)
    + total_delay tid ds.
Proof.
  unfold total_delay. simpl. now destruct (addressed_to tid d).
Qed.

Lemma total_delay_nonneg (tid : string) (ds : list Disruption.t) :
  (∀ d, d ∈ ds → 0 <= default 0 (Disruption.delay_minutes d)) →
  0 <= total_delay tid ds.
Proof.
  induction ds as [|d ds IH]; intros H; [reflexivity|].
  rewrite total_delay_cons.
  assert (0 <= default 0 (Disruption.delay_minutes d)) by (apply H; constructor).
  assert (0 <= total_delay tid ds) by (apply IH; intros d' Hd'; apply H; now constructor).
  destruct (addressed_to tid d); lia.
Qed.

Lemma delay_step_ids (tid : option string) (m : Z) (trains : list Train.t) :
  map Train.train_id
    (map (λ train, if bool_decide (Some (Train.train_id train) = tid)
                   then delayed m train else train) trains)
  = map Train.train_id trains.
Proof.
  rewrite map_map. apply map_ext. intros train.
  destruct (bool_decide (Some (Train.train_id train) = tid)); reflexivity.
Qed.

(** One delay disruption followed by the total of the rest is the total of
    the whole list. *)
Lemma delay_step_total (d : Disruption.t) (ds : list Disruption.t) (trains : list Train.t) :
  Disruption.type d = Some "delay" →
  map (λ train, delayed (total_delay (Train.train_id train) ds) train)
    (map (λ train, if bool_decide (Some (Train.train_id train) = Disruption.train_id d)
                   then delayed (default 0 (Disruption.delay_minutes d)) train
                   else train)
       trains)
  = map (λ train, delayed (total_delay (Train.train_id train) (d :: ds)) train) trains.
Proof.
  intros Htype. rewrite map_map. apply map_ext. intros train.
  rewrite total_delay_cons. unfold addressed_to.
  rewrite (bool_decide_eq_true_2 _ Htype). simpl.
  destruct (decide (Some (Train.train_id train) = Disruption.train_id d)) as [Heq|Hne].
  - rewrite !bool_decide_eq_true_2 by congruence.
    rewrite delayed_delayed. reflexivity.
  - rewrite !bool_decide_eq_false_2 by congruence.
    reflexivity.
Qed.

Lemma apply_disruptions_returned (trains trains' : list Train.t) (ds : list Disruption.t) :
  NoDup (map Train.train_id trains) →
  SimpleRealTimeOptimizer._apply_disruptions trains ds = (trains', Py.Ok tt) →
  trains' = map (λ train, delayed (total_delay (Train.train_id train) ds) train) trains.
Proof.
  revert trains. induction ds as [|d ds IH]; intros trains Hnd.
  - intros [= <-]. symmetry. erewrite map_ext; [apply map_id|].
    intros train. apply delayed_zero.
  - cbn [SimpleRealTimeOptimizer._apply_disruptions].
    destruct (bool_decide (Disruption.type d = Some "delay")) eqn:Htype.
    + apply bool_decide_eq_true in Htype.
      destruct (SimpleRealTimeOptimizer.delay_first _ _ trains) as [trains1 [[]|e]] eqn:H1;
        [|discriminate].
      apply delay_first_NoDup in H1; [|exact Hnd]. subst trains1.
      intros H. apply IH in H; [|now rewrite delay_step_ids].
      now rewrite H, delay_step_total.
    + intros H. rewrite (IH trains Hnd H). apply map_ext. intros train.
      rewrite total_delay_cons. unfold addressed_to. rewrite Htype. reflexivity.
Qed.

Lemma apply_disruptions_returns (trains : list Train.t) (ds : list Disruption.t) :
  NoDup (map Train.train_id trains) →
  (∀ d, d ∈ ds → 0 <= default 0 (Disruption.delay_minutes d)) →
  (∀ train, train ∈ trains →
     0 <= Train.scheduled_departure train
     ∧ 0 <= Train.scheduled_arrival train
     ∧ Train.scheduled_departure (delayed (total_delay (Train.train_id train) ds) train)
       <= datetime_max
     ∧ Train.scheduled_arrival (delayed (total_delay (Train.train_id train) ds) train)
       <= datetime_max) →
  snd (SimpleRealTimeOptimizer._apply_disruptions trains ds) = Py.Ok tt.
Proof.
  revert trains. induction ds as [|d ds IH]; intros trains Hnd Hds Htrains; [reflexivity|].
  assert (0 <= default 0 (Disruption.delay_minutes d)) as Hm by (apply Hds; constructor).
  assert (∀ d', d' ∈ ds → 0 <= default 0 (Disruption.delay_minutes d')) as Hds'
    by (intros d' Hd'; apply Hds; now constructor).
  cbn [SimpleRealTimeOptimizer._apply_disruptions].
  destruct (bool_decide (Disruption.type d = Some "delay")) eqn:Htype.
  - rewrite delay_first_returns; [|exact Hnd|].
    + apply IH; [now rewrite delay_step_ids | exact Hds'|].
      intros train1 Hin.
      apply list_elem_of_In, in_map_iff in Hin as (train & <- & Hin).
      apply list_elem_of_In in Hin.
      destruct (Htrains train Hin) as (Hdep & Harr & Hdep' & Harr').
      rewrite total_delay_cons in Hdep', Harr'. unfold addressed_to in Hdep', Harr'.
      rewrite Htype in Hdep', Harr'. simpl in Hdep', Harr'.
      pose proof (total_delay_nonneg (Train.train_id train) ds Hds') as Htot.
      unfold timedelta_minutes in *.
      destruct (bool_decide (Some (Train.train_id train) = Disruption.train_id d)) eqn:Hid.
      * apply bool_decide_eq_true in Hid.
        rewrite (bool_decide_eq_true_2 (Disruption.train_id d = Some (Train.train_id train)))
          in Hdep', Harr' by congruence.
        simpl. unfold timedelta_minutes. lia.
      * apply bool_decide_eq_false in Hid.
        rewrite (bool_decide_eq_false_2 (Disruption.train_id d = Some (Train.train_id train)))
          in Hdep', Harr' by congruence.
        simpl. unfold timedelta_minutes. lia.
    + intros train Hin Hid.
      destruct (Htrains train Hin) as (Hdep & Harr & Hdep' & Harr').
      rewrite total_delay_cons in Hdep', Harr'. unfold addressed_to in Hdep', Harr'.
      rewrite Htype in Hdep', Harr'.
      rewrite (bool_decide_eq_true_2 (Disruption.train_id d = Some (Train.train_id train)))
        in Hdep', Harr' by congruence.
      simpl in Hdep', Harr'.
      pose proof (total_delay_nonneg (Train.train_id train) ds Hds') as Htot.
      apply delay_train_returns; try assumption; simpl;
        unfold timedelta_minutes in *; lia.
  - apply IH; [exact Hnd | exact Hds'|].
    intros train Hin. specialize (Htrains train Hin).
    rewrite total_delay_cons in Htrains. unfold addressed_to in Htrains.
    rewrite Htype in Htrains. exact Htrains.
Qed.

(** X20.  On a train list without repeated identifiers.  Whenever
    [_apply_disruptions] returns, it has moved the scheduled departure and
    the scheduled arrival of every train by the sum of the minutes of the
    delay disruptions that name it, and changed nothing else: the trip time
    of a train is kept and disruptions of other types are ignored.  And it
    does return when no disruption carries negative minutes and the delayed
    departure and arrival of every train lie within the range of
    [datetime]. *)
Theorem apply_disruptions_total_delay
    (trains : list Train.t) (disruptions : list Disruption.t) :
  NoDup (map Train.train_id trains) →
  (∀ trains',
     SimpleRealTimeOptimizer._apply_disruptions trains disruptions = (trains', Py.Ok tt) →
     trains'
     = map (λ train, delayed (total_delay (Train.train_id train) disruptions) train) trains)
  ∧ ((∀ d, d ∈ disruptions → 0 <= default 0 (Disruption.delay_minutes d)) →
     (∀ train, train ∈ trains →
        0 <= Train.scheduled_departure train
        ∧ 0 <= Train.scheduled_arrival train
        ∧ Train.scheduled_departure
            (delayed (total_delay (Train.train_id train) disruptions) train)
          <= datetime_max
        ∧ Train.scheduled_arrival
            (delayed (total_delay (Train.train_id train) disruptions) train)
          <= datetime_max) →
     snd (SimpleRealTimeOptimizer._apply_disruptions trains disruptions) = Py.Ok tt).
Proof.
  intros Hnd. split.
  - intros trains'. now apply apply_disruptions_returned.
  - now apply apply_disruptions_returns.
Qed.

(** Two delays for [T002], a breakdown of [T001] and a delay without minutes
    for [T003]: [T002] is 30 minutes late, the others are as before. *)
Lemma apply_disruptions_total_delay_witness :
  SimpleRealTimeOptimizer._apply_disruptions [T001; T002; T003]
    [Disruption.mk (Some "delay") (Some "T002") (Some 10);
     Disruption.mk (Some "breakdown") (Some "T001") (Some 45);
     Disruption.mk (Some "delay") (Some "T003") None;
     Disruption.mk (Some "delay") (Some "T002") (Some 20)]
  = ([T001; delayed 30 T002; T003], Py.Ok tt).
Proof.
  destruct (apply_disruptions_total_delay [T001; T002; T003]
              [Disruption.mk (Some "delay") (Some "T002") (Some 10);
               Disruption.mk (Some "breakdown") (Some "T001") (Some 45);
               Disruption.mk (Some "delay") (Some "T003") None;
               Disruption.mk (Some "delay") (Some "T002") (Some 20)])
    as [Hreturned _].
  - apply (bool_decide_unpack _). vm_compute. exact I.
  - match goal with
    | |- ?call = _ =>
        assert (call = (fst call, Py.Ok tt)) as Hcall by (vm_compute; reflexivity)
    end.
    rewrite Hcall, (Hreturned _ Hcall). vm_compute. reflexivity.
Defined.

(** ** [detect_conflicts] does not read the times *)

Lemma same_route_refl (train : Train.t) : same_route train train.
Proof. unfold same_route. auto. Qed.

Lemma same_route_trans (a b c : Train.t) : same_route a b → same_route b c → same_route a c.
Proof. unfold same_route. intros (-> & -> & -> & ->) (-> & -> & -> & ->). auto. Qed.

Lemma same_route_get_train_route (net : RailwayNetwork.t) (a b : Train.t) :
  same_route a b →
  SimpleTrainScheduler._get_train_route net a = SimpleTrainScheduler._get_train_route net b.
Proof.
  intros (_ & Hr & Ho & Hd). unfold SimpleTrainScheduler._get_train_route.
  now rewrite Hr, Ho, Hd.
Qed.

Lemma same_routes_refl (l : list Train.t) : Forall2 same_route l l.
Proof. induction l; constructor; [apply same_route_refl | assumption]. Qed.

Lemma same_routes_trans (l1 l2 l3 : list Train.t) :
  Forall2 same_route l1 l2 → Forall2 same_route l2 l3 → Forall2 same_route l1 l3.
Proof.
  intros H. revert l3. induction H as [|a b l1 l2 Hab _ IH]; intros l3 H3.
  - inversion H3. constructor.
  - inversion H3 as [|? c ? l3' Hbc H3']; subst.
    constructor; [now apply (same_route_trans a b c) | now apply IH].
Qed.

Lemma delay_train_same_route (m : Z) (train : Train.t) :
  same_route (fst (SimpleRealTimeOptimizer.delay_train m train)) train.
Proof.
  unfold SimpleRealTimeOptimizer.delay_train.
  destruct (delta ← timedelta_of_minutes m;
            datetime_add (Train.scheduled_departure train) delta) as [departure|e];
    [|apply same_route_refl].
  destruct (delta ← timedelta_of_minutes m; datetime_add _ delta) as [arrival|e];
    unfold same_route; simpl; auto.
Qed.

Lemma delay_first_same_route (tid : option string) (m : Z) (trains : list Train.t) :
  Forall2 same_route (fst (SimpleRealTimeOptimizer.delay_first tid m trains)) trains.
Proof.
  induction trains as [|train trains IH]; simpl; [constructor|].
  destruct (bool_decide _).
  - pose proof (delay_train_same_route m train) as Ht.
    destruct (SimpleRealTimeOptimizer.delay_train m train) as [train' outcome].
    constructor; [exact Ht | apply same_routes_refl].
  - destruct (SimpleRealTimeOptimizer.delay_first tid m trains) as [rest outcome].
    constructor; [apply same_route_refl | exact IH].
Qed.

(** Whether it returns or raises, [_apply_disruptions] leaves every train
    with its identifier and its route data. *)
Lemma apply_disruptions_same_route (trains : list Train.t) (ds : list Disruption.t) :
  Forall2 same_route (fst (SimpleRealTimeOptimizer._apply_disruptions trains ds)) trains.
Proof.
  revert trains. induction ds as [|d ds IH]; intros trains;
    cbn [SimpleRealTimeOptimizer._apply_disruptions].
  - apply same_routes_refl.
  - destruct (bool_decide _); [|apply IH].
    pose proof (delay_first_same_route (Disruption.train_id d)
                  (default 0 (Disruption.delay_minutes d)) trains) as H1.
    destruct (SimpleRealTimeOptimizer.delay_first _ _ trains) as [trains1 [[]|e]];
      [|exact H1].
    eapply same_routes_trans; [apply IH | exact H1].
Qed.

Section SameRoutes.

Variable net : RailwayNetwork.t.

Lemma visits_same_route (ts ts' : list Train.t) :
  Forall2 same_route ts ts' →
  Forall2 (λ v v', fst v = fst v' ∧ same_route (snd v) (snd v'))
    (visits net ts) (visits net ts').
Proof.
  induction 1 as [|t t' ts ts' Ht _ IH]; [constructor|].
  unfold visits. simpl. apply Forall2_app; [|exact IH].
  rewrite <- (same_route_get_train_route net t t' Ht).
  induction (SimpleTrainScheduler._get_train_route net t) as [|sid route IHr];
    simpl; constructor; auto.
Qed.

Lemma visitors_same_route (sid : string) (vs vs' : list (string * Train.t)) :
  Forall2 (λ v v', fst v = fst v' ∧ same_route (snd v) (snd v')) vs vs' →
  Forall2 same_route (visitors sid vs) (visitors sid vs').
Proof.
  unfold visitors. induction 1 as [|v v' vs vs' [Hk Ht] _ IH]; [constructor|].
  simpl. rewrite <- Hk. destruct (bool_decide (fst v = sid)); simpl; [|exact IH].
  constructor; [exact Ht | exact IH].
Qed.

Lemma visits_same_sections (vs vs' : list (string * Train.t)) :
  Forall2 (λ v v', fst v = fst v' ∧ same_route (snd v) (snd v')) vs vs' →
  map fst vs = map fst vs'.
Proof.
  induction 1 as [|v v' vs vs' [Hk _] _ IH]; [reflexivity|].
  simpl. now rewrite Hk, IH.
Qed.

Lemma pairs_same_route (sid : string) (t t' : Train.t) (l l' : list Train.t) :
  same_route t t' →
  Forall2 same_route l l' →
  map (λ x, conflict_parties (SimpleTrainScheduler.make_conflict sid (t, x))) l
  = map (λ x, conflict_parties (SimpleTrainScheduler.make_conflict sid (t', x))) l'.
Proof.
  intros (Hid & _). induction 1 as [|x x' l l' (Hid' & _) _ IH]; [reflexivity|].
  cbn [map]. f_equal; [|exact IH].
  unfold conflict_parties. simpl. now rewrite Hid, Hid'.
Qed.

Lemma index_pairs_same_route (l l' : list Train.t) (sid : string) :
  Forall2 same_route l l' →
  map conflict_parties
    (map (SimpleTrainScheduler.make_conflict sid) (SimpleTrainScheduler.index_pairs l))
  = map conflict_parties
      (map (SimpleTrainScheduler.make_conflict sid) (SimpleTrainScheduler.index_pairs l')).
Proof.
  induction 1 as [|t t' l l' Ht Hl IH]; [reflexivity|].
  cbn [SimpleTrainScheduler.index_pairs]. rewrite !map_app, IH. f_equal.
  rewrite !map_map. now apply pairs_same_route.
Qed.

Lemma section_conflicts_same_route (sid : string) (l l' : list Train.t) :
  Forall2 same_route l l' →
  map conflict_parties (SimpleTrainScheduler.section_conflicts net (sid, l))
  = map conflict_parties (SimpleTrainScheduler.section_conflicts net (sid, l')).
Proof.
  intros Hl. unfold SimpleTrainScheduler.section_conflicts.
  rewrite <- (Forall2_length _ _ _ Hl).
  destruct (1 <? _); [|reflexivity].
  destruct (RailwayNetwork.sections net !! sid); [|reflexivity].
  destruct (_ <? _); [|reflexivity].
  now apply index_pairs_same_route.
Qed.

Lemma detect_conflicts_same_route (ts ts' : list Train.t) :
  Forall2 same_route ts ts' →
  map conflict_parties (SimpleTrainScheduler.detect_conflicts net ts)
  = map conflict_parties (SimpleTrainScheduler.detect_conflicts net ts').
Proof.
  intros Hts. rewrite !detect_conflicts_spec.
  pose proof (visits_same_route ts ts' Hts) as Hvs.
  rewrite <- (visits_same_sections _ _ Hvs).
  induction (first_visits (map fst (visits net ts))) as [|sid ks IH]; [reflexivity|].
  cbn [flat_map]. rewrite !map_app, IH. f_equal.
  apply section_conflicts_same_route. now apply visitors_same_route.
Qed.

End SameRoutes.

(** X21.  Delays neither create nor remove a conflict: after
    [_apply_disruptions], whether it returned or raised, [detect_conflicts]
    reports conflicts with the same identifiers, the same trains and the
    same sections, in the same order, as before; only the reported time
    window of a conflict can differ. *)
Theorem detect_conflicts_ignores_delays
    (net : RailwayNetwork.t) (trains : list Train.t) (disruptions : list Disruption.t) :
  map conflict_parties
    (SimpleTrainScheduler.detect_conflicts net
       (fst (SimpleRealTimeOptimizer._apply_disruptions trains disruptions)))
  = map conflict_parties (SimpleTrainScheduler.detect_conflicts net trains).
Proof.
  apply detect_conflicts_same_route, apply_disruptions_same_route.
Qed.

(** ** When the occupancy operations succeed *)

(** X22.  The exact conditions of success.  [reserve_section] succeeds on the
    sections [get_available_sections] lists that carry no reservation;
    [occupy_section] on the sections for which [check_section_capacity] holds
    and whose status is AVAILABLE or RESERVED, so spare capacity alone is not
    enough; [release_section] for the trains that occupy the section. *)
Theorem occupancy_operations_success (net : RailwayNetwork.t) (sid tid : string) :
  ((∃ net', RailwayNetwork.reserve_section net sid tid = Py.Ok (true, net'))
   ↔ sid ∈ get_available_sections net
     ∧ ∀ s, RailwayNetwork.sections net !! sid = Some s →
            TrackSection.reserved_for s = None)
  ∧ ((∃ net', RailwayNetwork.occupy_section net sid tid = Py.Ok (true, net'))
     ↔ RailwayNetwork.check_section_capacity net sid = true
       ∧ ∃ s, RailwayNetwork.sections net !! sid = Some s
              ∧ (TrackSection.current_status s = SectionStatus.AVAILABLE
                 ∨ TrackSection.current_status s = SectionStatus.RESERVED))
  ∧ ((∃ net', RailwayNetwork.release_section net sid tid = Py.Ok (true, net'))
     ↔ tid ∈ occupants net sid).
Proof.
  split; [|split].
  - rewrite get_available_sections_elem. split.
    + intros [net' H].
      apply reserve_section_inv in H as [[? _]|(s & Hs & Hst & Hres & _)]; [discriminate|].
      split; [eauto|]. intros s' Hs'. congruence.
    + intros [(s & Hs & Hst) Hres]. unfold RailwayNetwork.reserve_section.
      rewrite Hs, Hst, (Hres s Hs). simpl. eauto.
  - unfold RailwayNetwork.check_section_capacity. split.
    + intros [net' H].
      apply occupy_section_inv in H as [[? _]|(s & Hs & Hst & Hlen & _)]; [discriminate|].
      rewrite Hs. split; [now apply Z.ltb_lt | eauto].
    + intros [Hcap (s & Hs & Hst)]. rewrite Hs in Hcap.
      unfold RailwayNetwork.occupy_section. rewrite Hs, Hcap.
      destruct Hst as [-> | ->]; simpl; eauto.
  - split.
    + intros [net' H].
      apply release_section_inv in H as [[? _]|(s & occ & Hs & Hin & _)]; [discriminate|].
      unfold occupants. now rewrite Hs.
    + unfold occupants, RailwayNetwork.release_section.
      destruct (RailwayNetwork.sections net !! sid) as [s|]; [|intros H; inversion H].
      intros Hin. rewrite (proj2 (contains_spec _ _) Hin).
      destruct (remove_elem _ _ Hin) as (occ & -> & _). simpl. eauto.
Qed.

(** ** [optimize_schedule]: the reported average delay *)

Lemma completion_delay_nonneg (ts : TrainSchedule.t) : 0 <= completion_delay ts.
Proof. unfold completion_delay. destruct (last _); lia. Qed.

Lemma total_completion_delay_zero (l : list TrainSchedule.t) :
  0 <= total_completion_delay l
  ∧ (total_completion_delay l = 0 ↔ ∀ ts, ts ∈ l → completion_delay ts = 0).
Proof.
  induction l as [|ts l [IH0 IH]].
  - split; [reflexivity|]. split; [intros _ ts H; inversion H | reflexivity].
  - rewrite total_completion_delay_cons.
    pose proof (completion_delay_nonneg ts) as Hts.
    split; [lia|]. split.
    + intros Hsum ts' Hin. inversion Hin; subst; [lia|]. apply IH; [lia | assumption].
    + intros Hall.
      assert (completion_delay ts = 0) as -> by (apply Hall; constructor).
      assert (total_completion_delay l = 0) as ->; [|reflexivity].
      apply IH. intros ts' Hin. apply Hall. now constructor.
Qed.

Lemma average_nonneg (a b : Z) :
  0 <= a → 0 < b →
  (0 <= inject_Z a / inject_Z b)%Q ∧ ((inject_Z a / inject_Z b == 0)%Q ↔ a = 0).
Proof.
  intros Ha Hb. destruct b as [|p|p]; try lia.
  unfold Qle, Qeq, Qdiv, Qmult, Qinv, inject_Z. simpl.
  split; [nia | split; nia].
Qed.

(** X23.  The average delay a returned schedule reports is never negative,
    and it is zero exactly when every scheduled train completes its route
    within 120 minutes of the start: the delay of a train is counted from
    that fixed mark, not from its own scheduled arrival. *)
Theorem optimize_schedule_average_delay
    (net : RailwayNetwork.t) (key : Train.t → Py.result Q)
    (trains : list Train.t) (h : Z) (sched : Schedule.t) :
  SimpleTrainScheduler.optimize_schedule_by net key trains h = Py.Ok sched →
  ∃ m,
    Schedule.metrics sched = Some m
    ∧ (0 <= Metrics.average_delay m)%Q
    ∧ ((Metrics.average_delay m == 0)%Q
       ↔ ∀ ts last_section,
           ts ∈ Schedule.trains sched →
           last (TrainSchedule.sections ts) = Some last_section →
           SectionSchedule.end_time last_section <= 120).
Proof.
  intros H. apply optimize_schedule_by_inv in H as (sorted & _ & _ & ->).
  eexists. split; [reflexivity|]. simpl.
  set (l := omap (entry_of net) sorted).
  destruct (total_completion_delay_zero l) as [Hnn Hzero].
  destruct (average_nonneg (total_completion_delay l) (Z.max (Z.of_nat (length l)) 1)
              Hnn ltac:(lia)) as [Havg Hiff].
  split; [exact Havg|]. rewrite Hiff, Hzero. split.
  - intros Hall ts seg Hts Hlast. specialize (Hall ts Hts).
    unfold completion_delay in Hall. rewrite Hlast in Hall. lia.
  - intros Hall ts Hts. unfold completion_delay.
    destruct (last (TrainSchedule.sections ts)) as [seg|] eqn:Hlast; [|reflexivity].
    specialize (Hall ts seg Hts Hlast). lia.
Qed.

Lemma optimize_schedule_average_delay_witness :
  ∃ sched,
    SimpleTrainScheduler.optimize_schedule_by create_sample_network spec_key [T900; T001] 24
    = Py.Ok sched
    ∧ ∃ m,
        Schedule.metrics sched = Some m
        ∧ (0 <= Metrics.average_delay m)%Q
        ∧ ((Metrics.average_delay m == 0)%Q
           ↔ ∀ ts last_section,
               ts ∈ Schedule.trains sched →
               last (TrainSchedule.sections ts) = Some last_section →
               SectionSchedule.end_time last_section <= 120).
Proof.
  eexists. split; [vm_compute; reflexivity|].
  apply (optimize_schedule_average_delay create_sample_network spec_key [T900; T001] 24).
  vm_compute. reflexivity.
Defined.

(** ** optimization/scheduler.py: [_extract_solution] *)

Section ExtractFacts.

Context {IntVar : Type}.
Variable Value : IntVar → Z.
Variable net : RailwayNetwork.t.
Variable train_vars : gmap string (gmap string (IntVar * IntVar)).

Lemma extract_loop_spec (trains : list Train.t) (acc : list TrainSchedule.t) (n : Z) :
  TrainScheduler.extract_loop IntVar Value net train_vars trains acc n
  = (acc ++ omap (extracted_entry Value net train_vars) trains, n + Z.of_nat (length (omap (extracted_entry Value net train_vars) trains))).
Proof.
  revert acc n. induction trains as [|train trains IH]; intros acc n.
  - simpl. rewrite app_nil_r. f_equal. lia.
  - cbn [TrainScheduler.extract_loop]. rewrite omap_cons.
    change (extracted_entry Value net train_vars train)
      with (match train_vars !! Train.train_id train with
            | Some vars =>
                Some (TrainSchedule.mk (Train.train_id train) (Train.train_number train)
                        (TrainPriority.value (Train.priority train))
                        (TrainScheduler.extract_sections IntVar Value vars
                           (SimpleTrainScheduler._get_train_route net train)))
            | None => None
            end).
    destruct (train_vars !! Train.train_id train) as [vars|].
    + rewrite IH, <- app_assoc. cbn [length app]. f_equal. lia.
    + apply IH.
Qed.

Lemma extract_entries_ids (trains : list Train.t) :
  map TrainSchedule.train_id (omap (extracted_entry Value net train_vars) trains)
  = map Train.train_id
      (List.filter (λ train, bool_decide (is_Some (train_vars !! Train.train_id train)))
         trains).
Proof.
  induction trains as [|train trains IH]; [reflexivity|].
  rewrite omap_cons. cbn [List.filter].
  change (extracted_entry Value net train_vars train)
    with (match train_vars !! Train.train_id train with
          | Some vars =>
              Some (TrainSchedule.mk (Train.train_id train) (Train.train_number train)
                      (TrainPriority.value (Train.priority train))
                      (TrainScheduler.extract_sections IntVar Value vars
                         (SimpleTrainScheduler._get_train_route net train)))
          | None => None
          end).
  destruct (train_vars !! Train.train_id train) as [vars|] eqn:Hv.
  - rewrite bool_decide_eq_true_2 by eauto. simpl. now rewrite IH.
  - rewrite bool_decide_eq_false_2 by (intros [x Hx]; discriminate). exact IH.
Qed.

(** Two segments of one extracted train on the same section are equal: the
    variables are looked up by section identifier. *)
Lemma extract_sections_same (vars : gmap string (IntVar * IntVar)) (route : list string)
    (seg seg' : SectionSchedule.t) :
  seg ∈ TrainScheduler.extract_sections IntVar Value vars route →
  seg' ∈ TrainScheduler.extract_sections IntVar Value vars route →
  SectionSchedule.section_id seg = SectionSchedule.section_id seg' →
  seg = seg'.
Proof.
  unfold TrainScheduler.extract_sections. intros Hs Hs' Hid.
  apply list_elem_of_omap in Hs as (sid & _ & Hs).
  apply list_elem_of_omap in Hs' as (sid' & _ & Hs').
  destruct (vars !! sid) as [[a b]|] eqn:Hv; [|discriminate].
  destruct (vars !! sid') as [[a' b']|] eqn:Hv'; [|discriminate].
  injection Hs as <-. injection Hs' as <-. simpl in Hid. subst sid'.
  congruence.
Qed.

End ExtractFacts.

(** X24.  What [_extract_solution] reports, whatever the solver returned: the
    status is ['optimal']; there is one entry, in input order, for each train
    that has variables; the metrics count the input trains and the entries,
    and the average delay is zero, [total_delay] never being updated; the
    duration of a segment is its end minus its start; and two segments of a
    train on the same section carry the same times, so a route that visits a
    section twice is reported with the two visits at the same time. *)
Theorem extract_solution_report
    {IntVar : Type} (Value : IntVar → Z) (WallTime : Q) (StatusName : string)
    (net : RailwayNetwork.t) (trains : list Train.t)
    (train_vars : gmap string (gmap string (IntVar * IntVar))) :
  ∃ sched m,
    TrainScheduler._extract_solution IntVar Value WallTime StatusName net trains train_vars = sched
    ∧ Schedule.status sched = "optimal"
    ∧ map TrainSchedule.train_id (Schedule.trains sched)
      = map Train.train_id
          (List.filter
             (λ train, bool_decide (is_Some (train_vars !! Train.train_id train)))
             trains)
    ∧ Schedule.metrics sched = Some m
    ∧ Metrics.total_trains m = Z.of_nat (length trains)
    ∧ Metrics.scheduled_trains m = Z.of_nat (length (Schedule.trains sched))
    ∧ (Metrics.average_delay m == 0)%Q
    ∧ ∀ ts seg,
        ts ∈ Schedule.trains sched → seg ∈ TrainSchedule.sections ts →
        SectionSchedule.duration seg
        = SectionSchedule.end_time seg - SectionSchedule.start_time seg
        ∧ ∀ seg', seg' ∈ TrainSchedule.sections ts →
            SectionSchedule.section_id seg = SectionSchedule.section_id seg' →
            seg = seg'.
Proof.
  unfold TrainScheduler._extract_solution. rewrite extract_loop_spec.
  eexists. eexists. split; [reflexivity|]. simpl.
  split; [reflexivity|]. split; [apply extract_entries_ids|].
  split; [reflexivity|]. split; [reflexivity|]. split; [simpl; lia|].
  split; [simpl; unfold Qdiv; apply Qmult_0_l|].
  intros ts seg Hts Hseg.
  apply list_elem_of_omap in Hts as (train & _ & Hts).
  unfold extracted_entry in Hts.
  destruct (train_vars !! Train.train_id train) as [vars|]; [|discriminate].
  injection Hts as <-. simpl in *. split.
  - unfold TrainScheduler.extract_sections in Hseg.
    apply list_elem_of_omap in Hseg as (sid & _ & Hseg).
    destruct (vars !! sid) as [[a b]|]; [|discriminate].
    injection Hseg as <-. reflexivity.
  - intros seg' Hseg' Hid.
    exact (extract_sections_same Value vars _ seg seg' Hseg Hseg' Hid).
Qed.

(** X25.  A consequence for [RealTimeOptimizer]: between two schedules
    extracted from the solver the impact summary never reports an
    improvement, both average delays being zero. *)
Theorem cp_impact_never_improves
    {IntVar : Type} (Value Value' : IntVar → Z) (WallTime WallTime' : Q)
    (StatusName StatusName' : string) (net : RailwayNetwork.t)
    (trains trains' : list Train.t)
    (train_vars train_vars' : gmap string (gmap string (IntVar * IntVar))) :
  Impact.improvement
    (SimpleRealTimeOptimizer._calculate_schedule_impact
       (Some (TrainScheduler._extract_solution IntVar Value WallTime StatusName net
                trains train_vars))
       (Some (TrainScheduler._extract_solution IntVar Value' WallTime' StatusName' net
                trains' train_vars')))
  = Some false.
Proof.
  unfold TrainScheduler._extract_solution. rewrite !extract_loop_spec. simpl.
  unfold SimpleRealTimeOptimizer.improvement_flag. simpl.
  reflexivity.
Qed.

(** ** api/main.py: the train registry and the scheduling endpoints *)

Lemma except_Exception_status {A : Type} (o : Api.outcome A) :
  ok_or_500 (Api.except_Exception o).
Proof. destruct o; simpl; auto. Qed.

Lemma find_index_spec (active : list Train.t) (tid : string) :
  match Api.find_index active tid with
  | Some (i, t) =>
      active !! i = Some t ∧ Train.train_id t = tid
      ∧ Api.find_train active tid = Some t
      ∧ ∀ j t', (j < i)%nat → active !! j = Some t' → Train.train_id t' ≠ tid
  | None => Api.find_train active tid = None ∧ tid ∉ map Train.train_id active
  end.
Proof.
  unfold Api.find_train. induction active as [|t active IH]; simpl.
  - split; [reflexivity | apply not_elem_of_nil].
  - destruct (bool_decide (Train.train_id t = tid)) eqn:Hid.
    + apply bool_decide_eq_true in Hid. repeat split; auto. intros j t' Hj. lia.
    + apply bool_decide_eq_false in Hid.
      destruct (Api.find_index active tid) as [[i t0]|].
      * destruct IH as (Hi & Ht0 & Hfind & Hbefore). repeat split; auto.
        intros [|j] t' Hj Hl; simpl in Hl; [congruence|].
        apply (Hbefore j t'); [lia | exact Hl].
      * destruct IH as [Hfind Hnin]. split; [exact Hfind|].
        apply not_elem_of_cons. auto.
Qed.

Lemma find_train_None (active : list Train.t) (tid : string) :
  Api.find_train active tid = None ↔ tid ∉ map Train.train_id active.
Proof.
  unfold Api.find_train. induction active as [|t active IH]; simpl.
  - split; [intros _; apply not_elem_of_nil | reflexivity].
  - destruct (bool_decide (Train.train_id t = tid)) eqn:Hid.
    + apply bool_decide_eq_true in Hid. split; [discriminate|].
      intros Hnin. destruct Hnin. rewrite Hid. constructor.
    + apply bool_decide_eq_false in Hid. rewrite IH, not_elem_of_cons.
      split; [auto | intros [_ H]; exact H].
Qed.

(** X26.  The endpoints whose body is wrapped in [try ... except Exception]
    answer with their body or with HTTP 500, never with 400 or 404: the
    [HTTPException] raised inside the [try] block is caught by the handler.
    Creating a train whose identifier is taken, and updating or deleting a
    train that does not exist, are answered with 500 and leave the registry
    as it was, while [get_train], which has no handler, answers the same
    missing identifier with 404. *)
Theorem api_guarded_status_codes
    (net : RailwayNetwork.t) (active : list Train.t) (train : Train.t) (tid : string) :
  ok_or_500 (fst (Api.create_train net active train))
  ∧ ok_or_500 (fst (Api.update_train active tid train))
  ∧ ok_or_500 (fst (Api.delete_train active tid))
  ∧ ok_or_500 (Api.resolve_conflicts net active)
  ∧ (Train.train_id train ∈ map Train.train_id active →
     Api.create_train net active train = (Api.HTTPException 500, active))
  ∧ (tid ∉ map Train.train_id active →
     Api.update_train active tid train = (Api.HTTPException 500, active)
     ∧ Api.delete_train active tid = (Api.HTTPException 500, active)
     ∧ Api.get_train active tid = Api.HTTPException 404).
Proof.
  split; [|split; [|split; [|split; [|split]]]].
  - unfold Api.create_train. destruct (Api.find_train _ _); apply except_Exception_status.
  - unfold Api.update_train.
    destruct (Api.find_index _ _) as [[i t]|]; apply except_Exception_status.
  - unfold Api.delete_train.
    destruct (Api.find_index _ _) as [[i t]|]; apply except_Exception_status.
  - apply except_Exception_status.
  - intros Hin. unfold Api.create_train.
    destruct (Api.find_train active (Train.train_id train)) eqn:Hf; [reflexivity|].
    apply find_train_None in Hf. contradiction.
  - intros Hnin. pose proof (find_index_spec active tid) as Hspec.
    unfold Api.update_train, Api.delete_train, Api.get_train.
    destruct (Api.find_index active tid) as [[i t]|].
    + destruct Hspec as (Hi & Hid & _). destruct Hnin. rewrite <- Hid.
      apply list_elem_of_In, in_map, list_elem_of_In. apply list_elem_of_lookup. eauto.
    + destruct Hspec as [-> _]. auto.
Qed.

(** X27.  [POST /api/optimize] never returns a schedule: with an empty
    registry the 400 raised for it is turned into 500 by the handler, and
    with any train the scheduler raises, whatever the solver does; the
    request is answered with HTTP 500 and [current_schedule] stays as it
    was. *)
Theorem api_optimize_never_succeeds
    (CpModel : Type)
    (declare_constraints : list Train.t → Z → Py.result CpModel)
    (add_objective_term : CpModel → Train.t → Q → Py.result CpModel)
    (solve : CpModel → list Train.t → Py.result Schedule.t)
    (active : list Train.t) (current : option Schedule.t) (time_horizon : Z) :
  Api.optimize_schedule CpModel declare_constraints add_objective_term solve
    active current time_horizon
  = (Api.HTTPException 500, current).
Proof.
  unfold Api.optimize_schedule. destruct active as [|train trains]; [reflexivity|].
  unfold TrainScheduler.optimize_schedule.
  destruct (declare_constraints (train :: trains) time_horizon) as [model|e];
    [|reflexivity].
  cbn [mbind result_bind Py.bind TrainScheduler.objective_loop].
  now rewrite calculate_priority_score_AttributeError.
Qed.

Lemma find_train_fresh (active : list Train.t) (train : Train.t) :
  Train.train_id train ∉ map Train.train_id active →
  Api.find_train (active ++ [train]) (Train.train_id train) = Some train
  ∧ Api.find_index (active ++ [train]) (Train.train_id train)
    = Some (length active, train).
Proof.
  unfold Api.find_train. induction active as [|t active IH]; simpl; intros Hnin.
  - rewrite bool_decide_eq_true_2 by reflexivity. auto.
  - apply not_elem_of_cons in Hnin as [Hne Hnin].
    rewrite bool_decide_eq_false_2 by congruence.
    destruct (IH Hnin) as [-> ->]. auto.
Qed.

Lemma delete_train_ids (active : list Train.t) (tid : string) :
  NoDup (map Train.train_id active) →
  NoDup (map Train.train_id (snd (Api.delete_train active tid))).
Proof.
  intros Hnd. unfold Api.delete_train.
  destruct (Api.find_index active tid) as [[i t]|]; simpl; [|exact Hnd].
  change (NoDup (Train.train_id <$> delete i active)). rewrite list_fmap_delete.
  eapply sublist_NoDup; [exact Hnd | apply sublist_delete].
Qed.

Lemma create_train_ids (net : RailwayNetwork.t) (active : list Train.t) (train : Train.t) :
  NoDup (map Train.train_id active) →
  NoDup (map Train.train_id (snd (Api.create_train net active train))).
Proof.
  intros Hnd. unfold Api.create_train.
  destruct (Api.find_train active (Train.train_id train)) eqn:Hf; simpl; [exact Hnd|].
  apply find_train_None in Hf. rewrite map_app. apply NoDup_app.
  split; [exact Hnd|]. split.
  - intros x Hx Hx'. simpl in Hx'. apply list_elem_of_singleton in Hx'. subst x.
    destruct (Train.route_sections train); contradiction.
  - simpl. apply NoDup_singleton.
Qed.

(** X28.  The registry under [create_train] and [delete_train].  Both keep
    the identifiers of the registered trains distinct.  A train with a new
    identifier is appended, with its route resolved by [get_route_sections]
    when it lists none and unchanged otherwise; [get_train] then returns
    what was stored, and [delete_train] of that identifier gives the registry
    back as it was. *)
Theorem api_registry_round_trip
    (net : RailwayNetwork.t) (active : list Train.t) (train : Train.t) :
  NoDup (map Train.train_id active) →
  (∀ t, NoDup (map Train.train_id (snd (Api.create_train net active t))))
  ∧ (∀ tid, NoDup (map Train.train_id (snd (Api.delete_train active tid))))
  ∧ (Train.train_id train ∉ map Train.train_id active →
     ∃ body stored body',
       Api.create_train net active train = (Api.Returned body, active ++ [stored])
       ∧ stored
         = match Train.route_sections train with
           | [] =>
               Api.set_route_sections train
                 (RailwayNetwork.get_route_sections net
                    (Train.origin_station train) (Train.destination_station train))
           | _ :: _ => train
           end
       ∧ Api.get_train (active ++ [stored]) (Train.train_id train) = Api.Returned stored
       ∧ Api.delete_train (active ++ [stored]) (Train.train_id train)
         = (Api.Returned body', active)).
Proof.
  intros Hnd.
  split; [intros t; now apply create_train_ids|].
  split; [intros tid; now apply delete_train_ids|].
  intros Hnin. unfold Api.create_train.
  rewrite (proj2 (find_train_None active (Train.train_id train)) Hnin).
  set (stored := match Train.route_sections train with
                 | [] => Api.set_route_sections train _
                 | _ :: _ => train
                 end).
  assert (Train.train_id stored = Train.train_id train) as Hid.
  { unfold stored. now destruct (Train.route_sections train). }
  rewrite <- Hid in Hnin.
  destruct (find_train_fresh active stored Hnin) as [Hfind Hindex].
  rewrite Hid in Hfind, Hindex.
  eexists. exists stored. eexists.
  split; [reflexivity|]. split; [reflexivity|].
  split.
  - unfold Api.get_train. now rewrite Hfind.
  - unfold Api.delete_train. rewrite Hindex. simpl.
    rewrite (delete_middle active [] stored), app_nil_r. reflexivity.
Qed.

Lemma api_registry_round_trip_witness :
  (∀ t, NoDup (map Train.train_id
                 (snd (Api.create_train create_sample_network [T001; T002] t))))
  ∧ (∀ tid, NoDup (map Train.train_id (snd (Api.delete_train [T001; T002] tid))))
  ∧ (Train.train_id T005 ∉ map Train.train_id [T001; T002] →
     ∃ body stored body',
       Api.create_train create_sample_network [T001; T002] T005
       = (Api.Returned body, [T001; T002] ++ [stored])
       ∧ stored
         = match Train.route_sections T005 with
           | [] =>
               Api.set_route_sections T005
                 (RailwayNetwork.get_route_sections create_sample_network
                    (Train.origin_station T005) (Train.destination_station T005))
           | _ :: _ => T005
           end
       ∧ Api.get_train ([T001; T002] ++ [stored]) (Train.train_id T005)
         = Api.Returned stored
       ∧ Api.delete_train ([T001; T002] ++ [stored]) (Train.train_id T005)
         = (Api.Returned body', [T001; T002])).
Proof.
  apply (api_registry_round_trip create_sample_network [T001; T002] T005).
  apply (bool_decide_unpack _). vm_compute. exact I.
Defined.

(** X29.  [update_train] does not compare the identifier of the new train
    with the one in the path.  In a registry with distinct identifiers,
    updating the train [tid] with a train that carries another identifier
    succeeds and replaces it in place; afterwards [get_train] answers [tid]
    with 404, and when the other identifier was already registered the
    registry holds two trains with that identifier. *)
Theorem api_update_train_renames
    (active : list Train.t) (tid : string) (train_update : Train.t)
    (i : nat) (old : Train.t) :
  NoDup (map Train.train_id active) →
  Api.find_index active tid = Some (i, old) →
  Train.train_id train_update ≠ tid →
  ∃ body,
    Api.update_train active tid train_update
    = (Api.Returned body, <[i := train_update]> active)
    ∧ Api.get_train (<[i := train_update]> active) tid = Api.HTTPException 404
    ∧ (Train.train_id train_update ∈ map Train.train_id active →
       ¬ NoDup (map Train.train_id (<[i := train_update]> active))).
Proof.
  intros Hnd Hfind Hne.
  pose proof (find_index_spec active tid) as Hspec. rewrite Hfind in Hspec.
  destruct Hspec as (Hi & Hold & _).
  assert ((Train.train_id <$> active) !! i = Some tid) as Hidi.
  { rewrite list_lookup_fmap, Hi. simpl. now rewrite Hold. }
  assert (i < length (Train.train_id <$> active))%nat as Hlen.
  { apply lookup_lt_is_Some. eauto. }
  unfold Api.update_train. rewrite Hfind. simpl. eexists. split; [reflexivity|].
  change (map Train.train_id (<[i:=train_update]> active))
    with (Train.train_id <$> <[i:=train_update]> active).
  change (map Train.train_id active) with (Train.train_id <$> active) in *.
  rewrite list_fmap_insert. split.
  - unfold Api.get_train.
    destruct (Api.find_train (<[i:=train_update]> active) tid) as [t|] eqn:Hf;
      [|reflexivity].
    assert (Api.find_train (<[i:=train_update]> active) tid ≠ None) as Hsome
      by congruence.
    rewrite find_train_None in Hsome. destruct Hsome.
    change (map Train.train_id (<[i:=train_update]> active))
      with (Train.train_id <$> <[i:=train_update]> active).
    rewrite list_fmap_insert. intros Hin.
    apply list_elem_of_lookup in Hin as [j Hj].
    apply list_lookup_insert_Some in Hj as [(_ & Heq & _)|[Hij Hj]]; [congruence|].
    apply Hij. exact (NoDup_lookup _ i j tid Hnd Hidi Hj).
  - intros Hin Hnd'. apply list_elem_of_lookup in Hin as [j Hj].
    assert (i ≠ j) as Hij by (intros ->; congruence).
    apply Hij.
    apply (NoDup_lookup _ i j (Train.train_id train_update) Hnd').
    + now apply list_lookup_insert_eq.
    + now rewrite list_lookup_insert_ne.
Qed.

Lemma api_update_train_renames_witness :
  ∃ body,
    Api.update_train [T001; T002; T003] "T001" T002
    = (Api.Returned body, <[0%nat := T002]> [T001; T002; T003])
    ∧ Api.get_train (<[0%nat := T002]> [T001; T002; T003]) "T001" = Api.HTTPException 404
    ∧ (Train.train_id T002 ∈ map Train.train_id [T001; T002; T003] →
       ¬ NoDup (map Train.train_id (<[0%nat := T002]> [T001; T002; T003]))).
Proof.
  apply (api_update_train_renames [T001; T002; T003] "T001" T002 0 T001).
  - apply (bool_decide_unpack _). vm_compute. exact I.
  - reflexivity.
  - discriminate.
Defined.

Lemma apply_disruptions_default (trains : list Train.t)
    (disruptions : option (list Disruption.t)) :
  match disruptions with
  | Some (d :: ds) => SimpleRealTimeOptimizer._apply_disruptions trains (d :: ds)
  | _ => (trains, Py.Ok tt)
  end
  = SimpleRealTimeOptimizer._apply_disruptions trains (default [] disruptions).
Proof. destruct disruptions as [[|d ds]|]; reflexivity. Qed.

(** X30.  [POST /api/realtime/update] with a registered train is answered
    with HTTP 500, whatever the solver does: applying the disruptions raises,
    or else the optimization does; both schedules stay as they were.  But
    the registry is left as [_apply_disruptions] left it: the delays applied
    before the exception stay, so after the failed request the trains are
    delayed, and repeating the request delays them again. *)
Theorem api_update_realtime_keeps_delays
    (CpModel : Type)
    (declare_constraints : list Train.t → Z → Py.result CpModel)
    (add_objective_term : CpModel → Train.t → Q → Py.result CpModel)
    (solve : CpModel → list Train.t → Py.result Schedule.t)
    (st : Api.state) (disruptions : option (list Disruption.t)) :
  Api.active_trains st ≠ [] →
  Api.update_realtime CpModel declare_constraints add_objective_term solve st disruptions
  = (Api.HTTPException 500,
     Api.mk_state
       (fst (SimpleRealTimeOptimizer._apply_disruptions (Api.active_trains st)
               (default [] disruptions)))
       (Api.current_schedule st) (Api.optimizer_schedule st)).
Proof.
  intros Hne. unfold Api.update_realtime, RealTimeOptimizer.update_schedule.
  rewrite apply_disruptions_default.
  pose proof (apply_disruptions_length (Api.active_trains st) (default [] disruptions))
    as Hlen.
  destruct (SimpleRealTimeOptimizer._apply_disruptions (Api.active_trains st)
              (default [] disruptions)) as [trains [[]|e]]; [|reflexivity].
  cbn [fst] in Hlen. cbn [mbind result_bind Py.bind fst].
  destruct trains as [|train trains].
  - destruct (Api.active_trains st); [congruence | discriminate].
  - unfold TrainScheduler.optimize_schedule.
    destruct (declare_constraints (train :: trains) 24) as [model|e]; [|reflexivity].
    cbn [mbind result_bind Py.bind TrainScheduler.objective_loop].
    now rewrite calculate_priority_score_AttributeError.
Qed.

(** A delay of 10 minutes for [T002] stays in the registry after the failed
    request; and when a second disruption then delays [T001] by 3652059 days,
    more than any [datetime] can take, which raises, the delay of [T002]
    stays all the same. *)
Lemma api_update_realtime_keeps_delays_witness :
  Api.update_realtime unit (λ _ _, Py.Ok tt) (λ _ _ _, Py.Ok tt)
    (λ _ _, Py.Ok (Schedule.mk "optimal" [] None))
    (Api.mk_state [T001; T002] None None)
    (Some [Disruption.mk (Some "delay") (Some "T002") (Some 10)])
  = (Api.HTTPException 500, Api.mk_state [T001; delayed 10 T002] None None)
  ∧ Api.update_realtime unit (λ _ _, Py.Ok tt) (λ _ _ _, Py.Ok tt)
      (λ _ _, Py.Ok (Schedule.mk "optimal" [] None))
      (Api.mk_state [T001; T002] None None)
      (Some [Disruption.mk (Some "delay") (Some "T002") (Some 10);
             Disruption.mk (Some "delay") (Some "T001") (Some 5258964960)])
    = (Api.HTTPException 500, Api.mk_state [T001; delayed 10 T002] None None).
Proof.
  split; (rewrite api_update_realtime_keeps_delays; [vm_compute; reflexivity | discriminate]).
Defined.
